(** * Disaster dashboard: the data-aggregation and country-filtering service

    A shallow embedding of [backend/services/disaster_data.py] (the class
    [DisasterDataService]) and of the aggregation route [get_all_disasters]
    of [backend/main.py], with the properties the specification states
    about them.

    Conventions of the embedding:
    - Python values are the JSON-shaped values the service handles
      ([pyval]); floats are IEEE binary64 numbers (Rocq's primitive floats,
      with the same rounding), ints are unbounded integers;
    - every operation that can raise in Python returns in the error monad
      [exc], with the exception class Python raises;
    - the values the service works on are decoded from JSON or built by
      literals, so they are trees; a function that mutates its argument
      returns the argument as it is after the call next to its result
      ([_filter_by_country]), or the argument itself when that is what the
      source returns ([_process_earthquake_data]);
    - the service object, the clock and the seismic API are explicit: a
      fetcher takes the state of the service and returns its result with
      the state afterwards; [Env] holds what comes from outside. *)

From Stdlib Require Import ZArith Floats DecimalString.
From stdpp Require Import gmap strings list.

#[local] Set Warnings "-register-all,-inexact-float".
Local Open Scope string_scope.
Local Open Scope Z_scope.

(** ** Exceptions *)

(** The exception classes the modelled code can meet.  [RequestError]
    stands for whatever the HTTP client raises: a transport failure, a
    timeout, [raise_for_status] on a non-success response, or a body that
    does not decode as JSON. *)
Inductive exn : Set :=
| TypeError
| KeyError
| AttributeError
| OverflowError
| IndexError
| ZeroDivisionError
| RequestError.

Inductive exc (A : Type) : Type :=
| Ok (a : A)
| Raise (e : exn).
Arguments Ok {A} a.
Arguments Raise {A} e.

Definition bind {A B : Type} (m : exc A) (k : A -> exc B) : exc B :=
  match m with
  | Ok a => k a
  | Raise e => Raise e
  end.

Notation "'let*' x ':=' m 'in' k" := (bind m (fun x => k))
  (at level 10, x pattern, m at level 100, k at level 200,
   format "'[v' 'let*'  x  ':='  m  'in' '/' k ']'").

(** ** Python values *)

(** A Python [str] is a Rocq string, one character per code point.  A
    Python [dict] is an association list in insertion order. *)
Inductive pyval : Type :=
| VNone
| VBool (b : bool)
| VInt (n : Z)
| VFloat (f : float)
| VStr (s : string)
| VList (l : list pyval)
| VDict (d : list (string * pyval)).

Definition dict : Type := list (string * pyval).

(** ** Numbers *)

Inductive num : Type :=
| NInt (n : Z)
| NFloat (f : float).

(** [bool] is a subclass of [int]. *)
Definition as_num (v : pyval) : option num :=
  match v with
  | VBool b => Some (NInt (Z.b2z b))
  | VInt n => Some (NInt n)
  | VFloat f => Some (NFloat f)
  | _ => None
  end.

(** [float(n)] for an int [n]: the nearest binary64 number, ties to even;
    an int beyond the range of a float raises [OverflowError]. *)
Definition Z_to_float (n : Z) : exc float :=
  match binary_normalize prec emax n 0 false with
  | S754_infinity _ => Raise OverflowError
  | sf => Ok (SF2Prim sf)
  end.

(** Python compares a float with an int by their exact values.  [None]
    when the float is a NaN. *)
Definition float_Z_compare (x : float) (n : Z) : option comparison :=
  match Prim2SF x with
  | S754_nan => None
  | S754_infinity s => Some (if s then Lt else Gt)
  | S754_zero _ => Some (0 ?= n)
  | S754_finite s m e =>
      let v := if s then Z.neg m else Z.pos m in
      if 0 <=? e then Some (v * 2 ^ e ?= n) else Some (v ?= n * 2 ^ (- e))
  end.

Definition is_le (c : option comparison) : bool :=
  match c with
  | Some Lt | Some Eq => true
  | _ => false
  end.

Definition is_lt (c : option comparison) : bool :=
  match c with
  | Some Lt => true
  | _ => false
  end.

(** [a <= b] and [a < b] on numbers. *)
Definition num_leb (a b : num) : bool :=
  match a, b with
  | NInt x, NInt y => x <=? y
  | NFloat x, NFloat y => (x <=? y)%float
  | NFloat x, NInt y => is_le (float_Z_compare x y)
  | NInt x, NFloat y => is_le (option_map CompOpp (float_Z_compare y x))
  end.

Definition num_ltb (a b : num) : bool :=
  match a, b with
  | NInt x, NInt y => x <? y
  | NFloat x, NFloat y => (x <? y)%float
  | NFloat x, NInt y => is_lt (float_Z_compare x y)
  | NInt x, NFloat y => is_lt (option_map CompOpp (float_Z_compare y x))
  end.

(** [a + b]: int addition is exact, any float operand makes the sum a
    float. *)
Definition num_add (a b : num) : exc num :=
  match a, b with
  | NInt x, NInt y => Ok (NInt (x + y))
  | NFloat x, NFloat y => Ok (NFloat (x + y)%float)
  | NFloat x, NInt y => let* fy := Z_to_float y in Ok (NFloat (x + fy)%float)
  | NInt x, NFloat y => let* fx := Z_to_float x in Ok (NFloat (fx + y)%float)
  end.

(** [a * f] for a float [f]. *)
Definition num_mul_float (a : num) (f : float) : exc float :=
  match a with
  | NInt x => let* fx := Z_to_float x in Ok (fx * f)%float
  | NFloat x => Ok (x * f)%float
  end.

(** [a / b] for ints: the correctly rounded quotient.  The quotient is
    computed with at least 64 significant bits and a sticky bit, then
    rounded once. *)
Definition Z_truediv (a b : Z) : exc float :=
  if b =? 0 then Raise ZeroDivisionError
  else
    let a' := Z.abs a in
    let b' := Z.abs b in
    let k := Z.max 0 (Z.log2 b' - Z.log2 a' + 64) in
    let q := (a' * 2 ^ k) / b' in
    let r := (a' * 2 ^ k) mod b' in
    let m := 2 * q + (if r =? 0 then 0 else 1) in
    let neg := xorb (a <? 0) (b <? 0) in
    match binary_normalize prec emax (if neg then - m else m) (- (k + 1)) neg with
    | S754_infinity _ => Raise OverflowError
    | sf => Ok (SF2Prim sf)
    end.

(** [a / n] for an int [n] (true division). *)
Definition num_truediv_int (a : num) (n : Z) : exc float :=
  match a with
  | NInt x => Z_truediv x n
  | NFloat x =>
      if n =? 0 then Raise ZeroDivisionError
      else let* fn := Z_to_float n in Ok (x / fn)%float
  end.


(** Comparisons of a value with a number.  In every comparison of the
    service one operand is a number, so a value that is not a number
    raises [TypeError]. *)
Definition num_le_py (a : num) (v : pyval) : exc bool :=
  match as_num v with
  | Some b => Ok (num_leb a b)
  | None => Raise TypeError
  end.

Definition py_le_num (v : pyval) (a : num) : exc bool :=
  match as_num v with
  | Some b => Ok (num_leb b a)
  | None => Raise TypeError
  end.

Definition py_lt_num (v : pyval) (a : num) : exc bool :=
  match as_num v with
  | Some b => Ok (num_ltb b a)
  | None => Raise TypeError
  end.

(** [v >= a] *)
Definition py_ge_num (v : pyval) (a : num) : exc bool := num_le_py a v.

(** [v * f] for a float [f] ([str * float] and the like raise). *)
Definition py_mul_float (v : pyval) (f : float) : exc float :=
  match as_num v with
  | Some a => num_mul_float a f
  | None => Raise TypeError
  end.

(** ** Dictionaries, lists and the operations used on them *)

Fixpoint dict_get (d : dict) (k : string) : option pyval :=
  match d with
  | [] => None
  | (k', v) :: d' => if String.eqb k k' then Some v else dict_get d' k
  end.

(** [d[k] = v]: an existing key keeps its place, a new key goes last. *)
Fixpoint dict_set (d : dict) (k : string) (v : pyval) : dict :=
  match d with
  | [] => [(k, v)]
  | (k', v') :: d' =>
      if String.eqb k k' then (k', v) :: d' else (k', v') :: dict_set d' k v
  end.

(** [x.get(k, dflt)]: only a dict has a [get] method. *)
Definition py_get (x : pyval) (k : string) (dflt : pyval) : exc pyval :=
  match x with
  | VDict d =>
      match dict_get d k with
      | Some v => Ok v
      | None => Ok dflt
      end
  | _ => Raise AttributeError
  end.

(** [x[k]] for a string key [k]. *)
Definition py_getitem (x : pyval) (k : string) : exc pyval :=
  match x with
  | VDict d =>
      match dict_get d k with
      | Some v => Ok v
      | None => Raise KeyError
      end
  | _ => Raise TypeError
  end.

(** [x[k] = v] for a string key [k]; the result is [x] after the
    assignment. *)
Definition py_setitem (x : pyval) (k : string) (v : pyval) : exc pyval :=
  match x with
  | VDict d => Ok (VDict (dict_set d k v))
  | _ => Raise TypeError
  end.

(** [len(x)] *)
Definition py_len (x : pyval) : exc Z :=
  match x with
  | VList l => Ok (Z.of_nat (length l))
  | VStr s => Ok (Z.of_nat (String.length s))
  | VDict d => Ok (Z.of_nat (length d))
  | _ => Raise TypeError
  end.

(** [x[i]] for a non-negative int literal [i]. *)
Definition py_index (x : pyval) (i : nat) : exc pyval :=
  match x with
  | VList l =>
      match nth_error l i with
      | Some v => Ok v
      | None => Raise IndexError
      end
  | VStr s =>
      match String.get i s with
      | Some c => Ok (VStr (String c EmptyString))
      | None => Raise IndexError
      end
  | VDict _ => Raise KeyError
  | _ => Raise TypeError
  end.

(** The items a [for] loop over [x] visits: the elements of a list, the
    characters of a string, the keys of a dict. *)
Definition py_iter (x : pyval) : exc (list pyval) :=
  match x with
  | VList l => Ok l
  | VStr s => Ok (map (fun c => VStr (String c EmptyString)) (String.list_ascii_of_string s))
  | VDict d => Ok (map (fun kv => VStr (fst kv)) d)
  | _ => Raise TypeError
  end.

(** Truth value of [v] in a condition. *)
Definition py_truthy (v : pyval) : bool :=
  match v with
  | VNone => false
  | VBool b => b
  | VInt n => negb (n =? 0)
  | VFloat f => negb (f =? 0)%float
  | VStr s => negb (String.eqb s "")
  | VList l => negb (Nat.eqb (length l) 0)
  | VDict d => negb (Nat.eqb (length d) 0)
  end.

(** [l[:k]] on a list: a negative [k] counts from the end. *)
Definition list_slice_to {A : Type} (l : list A) (k : Z) : list A :=
  if 0 <=? k then firstn (Z.to_nat k) l
  else firstn (Z.to_nat (Z.of_nat (length l) + k)) l.

(** The object stored under key [k] of [x] was mutated in place and is
    now [v]: [x] as seen afterwards.  Values decoded from JSON or built
    by literals are trees (no object is reachable by two paths), so an
    in-place update of a nested object is the update of its one place. *)
Definition write_back (x : pyval) (k : string) (v : pyval) : pyval :=
  match x with
  | VDict d =>
      match dict_get d k with
      | Some _ => VDict (dict_set d k v)
      | None => x
      end
  | _ => x
  end.

(** ** Countries and their bounds *)

Inductive Country : Set := UAE | CANADA | ALL.

Definition Country_value (c : Country) : string :=
  match c with
  | UAE => "uae"
  | CANADA => "canada"
  | ALL => "all"
  end.

Definition Country_eqb (a b : Country) : bool :=
  match a, b with
  | UAE, UAE | CANADA, CANADA | ALL, ALL => true
  | _, _ => false
  end.

Record CountryBounds : Type := {
  name : string;
  code : string;
  min_lat : float;
  max_lat : float;
  min_lon : float;
  max_lon : float;
  center_lat : float;
  center_lon : float
}.

Definition COUNTRY_BOUNDS (c : Country) : option CountryBounds :=
  match c with
  | UAE => Some {|
      name := "United Arab Emirates";
      code := "AE";
      min_lat := 22.5;
      max_lat := 26.5;
      min_lon := 51.0;
      max_lon := 56.5;
      center_lat := 24.0;
      center_lon := 54.0 |}
  | CANADA => Some {|
      name := "Canada";
      code := "CA";
      min_lat := 41.0;
      max_lat := 84.0;
      min_lon := -141.0;
      max_lon := -52.0;
      center_lat := 60.0;
      center_lon := -95.0 |}
  | ALL => None
  end.

Definition empty_collection : pyval :=
  VDict [("type", VStr "FeatureCollection"); ("features", VList [])].

(** ** The feature filter *)

(** [bounds.min_lat <= lat <= bounds.max_lat and
     bounds.min_lon <= lon <= bounds.max_lon], evaluated left to right
    and stopping at the first false comparison. *)
Definition within_bounds (bounds : CountryBounds) (lon lat : pyval) : exc bool :=
  let* c1 := num_le_py (NFloat (min_lat bounds)) lat in
  if negb c1 then Ok false else
  let* c2 := py_le_num lat (NFloat (max_lat bounds)) in
  if negb c2 then Ok false else
  let* c3 := num_le_py (NFloat (min_lon bounds)) lon in
  if negb c3 then Ok false else
  py_le_num lon (NFloat (max_lon bounds)).

(** [feature["properties"]["country"] = bounds.name] and
    [feature["properties"]["country_code"] = bounds.code]: the feature
    after the two assignments. *)
Definition stamp_country (bounds : CountryBounds) (feature : pyval) : exc pyval :=
  let* props := py_getitem feature "properties" in
  let* props := py_setitem props "country" (VStr (name bounds)) in
  let feature := write_back feature "properties" props in
  let* props := py_getitem feature "properties" in
  let* props := py_setitem props "country_code" (VStr (code bounds)) in
  Ok (write_back feature "properties" props).

(** One turn of the loop of [_filter_by_country]: the feature after the
    turn, and whether it was appended to [filtered_features]. *)
Definition filter_step (bounds : CountryBounds) (feature : pyval) : exc (pyval * bool) :=
  let* geometry := py_get feature "geometry" (VDict []) in
  let* coords := py_get geometry "coordinates" (VList []) in
  let* n := py_len coords in
  if 2 <=? n then
    let* lon := py_index coords 0 in
    let* lat := py_index coords 1 in
    let* inside := within_bounds bounds lon lat in
    if inside then
      let* feature := stamp_country bounds feature in
      Ok (feature, true)
    else Ok (feature, false)
  else Ok (feature, false).

(** The loop: the features after it (in place), and [filtered_features]. *)
Fixpoint filter_loop (bounds : CountryBounds) (features : list pyval)
  : exc (list pyval * list pyval) :=
  match features with
  | [] => Ok ([], [])
  | feature :: rest =>
      let* (feature, keep) := filter_step bounds feature in
      let* (rest, filtered_features) := filter_loop bounds rest in
      Ok (feature :: rest,
          if keep : bool then feature :: filtered_features else filtered_features)
  end.

(** The collection [data] after its features, the items of its
    ["features"] list, were updated in place to [items]. *)
Definition features_written (data : pyval) (items : list pyval) : pyval :=
  match data with
  | VDict d =>
      match dict_get d "features" with
      | Some (VList _) => VDict (dict_set d "features" (VList items))
      | _ => data
      end
  | _ => data
  end.

(** [_filter_by_country(data, country)]: the pair of [data] as it is
    after the call and of the returned collection. *)
Definition _filter_by_country (data : pyval) (country : Country) : exc (pyval * pyval) :=
  if Country_eqb country ALL then Ok (data, data)
  else
    match COUNTRY_BOUNDS country with
    | None => Ok (data, empty_collection)
    | Some bounds =>
        let* features := py_get data "features" (VList []) in
        let* items := py_iter features in
        let* (items, filtered_features) := filter_loop bounds items in
        Ok (features_written data items,
            VDict [("type", VStr "FeatureCollection");
                   ("features", VList filtered_features);
                   ("metadata",
                    VDict [("country", VStr (name bounds));
                           ("country_code", VStr (code bounds));
                           ("total_filtered",
                            VInt (Z.of_nat (length filtered_features)))])])
    end.

(** ** What the specification says of the filter *)

(** The coordinate values of a feature's geometry (none when the feature
    has no geometry or the geometry no coordinates). *)
Definition coordinates (feature : pyval) : list pyval :=
  match feature with
  | VDict d =>
      match dict_get d "geometry" with
      | Some (VDict g) =>
          match dict_get g "coordinates" with
          | Some (VList l) => l
          | _ => []
          end
      | _ => []
      end
  | _ => []
  end.

(** The feature has at least two coordinate values, longitude first, and
    its point lies in the rectangle of [bounds], the edges included. *)
Definition inside (bounds : CountryBounds) (feature : pyval) : bool :=
  match coordinates feature with
  | lon :: lat :: _ =>
      match as_num lon, as_num lat with
      | Some x, Some y =>
          num_leb (NFloat (min_lat bounds)) y && num_leb y (NFloat (max_lat bounds))
          && (num_leb (NFloat (min_lon bounds)) x && num_leb x (NFloat (max_lon bounds)))
      | _, _ => false
      end
  | _ => false
  end.

(** The feature with the name and the code of the region in its
    properties. *)
Definition stamped (bounds : CountryBounds) (feature : pyval) : pyval :=
  match feature with
  | VDict d =>
      match dict_get d "properties" with
      | Some (VDict p) =>
          VDict (dict_set d "properties"
                   (VDict (dict_set (dict_set p "country" (VStr (name bounds)))
                             "country_code" (VStr (code bounds)))))
      | _ => feature
      end
  | _ => feature
  end.

Definition is_number (v : pyval) : bool :=
  match as_num v with
  | Some _ => true
  | None => false
  end.

(** A feature of the data model: a mapping with an attribute mapping
    under ["properties"] and, when it has a geometry, a mapping there whose
    coordinates (when it has them) are a sequence of numbers. *)
Definition is_feature (feature : pyval) : bool :=
  match feature with
  | VDict d =>
      match dict_get d "properties" with
      | Some (VDict _) =>
          match dict_get d "geometry" with
          | None => true
          | Some (VDict g) =>
              match dict_get g "coordinates" with
              | None => true
              | Some (VList l) => forallb is_number l
              | Some _ => false
              end
          | Some _ => false
          end
      | _ => false
      end
  | _ => false
  end.

(** The features of a collection (none when it has no ["features"]). *)
Definition features_of (data : pyval) : list pyval :=
  match data with
  | VDict d =>
      match dict_get d "features" with
      | Some (VList l) => l
      | _ => []
      end
  | _ => []
  end.

(** A feature collection of the data model. *)
Definition is_collection (data : pyval) : bool :=
  match data with
  | VDict d =>
      match dict_get d "features" with
      | None => true
      | Some (VList l) => forallb is_feature l
      | Some _ => false
      end
  | _ => false
  end.

(** The feature is a mapping with an attribute mapping. *)
Definition has_attributes (feature : pyval) : bool :=
  match feature with
  | VDict d =>
      match dict_get d "properties" with
      | Some (VDict _) => true
      | _ => false
      end
  | _ => false
  end.

(** The entry of a mapping under a key, and the attribute of a feature
    under a key. *)
Definition entry (x : pyval) (k : string) : option pyval :=
  match x with
  | VDict d => dict_get d k
  | _ => None
  end.

Definition property (feature : pyval) (k : string) : option pyval :=
  match entry feature "properties" with
  | Some props => entry props k
  | None => None
  end.

(** The test of one turn of the loop of [_filter_by_country], up to the
    decision to retain the feature; [filter_step] is this test followed by
    the stamping (lemma [filter_step_test]). *)
Definition retain_test (bounds : CountryBounds) (feature : pyval) : exc bool :=
  let* geometry := py_get feature "geometry" (VDict []) in
  let* coords := py_get geometry "coordinates" (VList []) in
  let* n := py_len coords in
  if 2 <=? n then
    let* lon := py_index coords 0 in
    let* lat := py_index coords 1 in
    within_bounds bounds lon lat
  else Ok false.

(** The collection [_filter_by_country] returns for a known region, as
    the specification describes it. *)
Definition filtered_collection (bounds : CountryBounds) (data : pyval) : pyval :=
  let retained := List.filter (inside bounds) (features_of data) in
  VDict [("type", VStr "FeatureCollection");
         ("features", VList (map (stamped bounds) retained));
         ("metadata",
          VDict [("country", VStr (name bounds));
                 ("country_code", VStr (code bounds));
                 ("total_filtered", VInt (Z.of_nat (length retained)))])].

(** ** The environment of the service *)

(** Points in time are counted in microseconds, the resolution of
    [datetime]; a [timedelta] is a number of microseconds. *)
Definition time : Type := Z.

(** What the service takes from outside: the clock and the seismic API,
    each asked any number of times, and three formatting functions of the
    Python library.
    - [clock n] is what the [n]-th interaction returns when it is a call of
      [datetime.now()];
    - [usgs n params] is the outcome of the [n]-th interaction when it is
      the HTTP request with the query [params]: the decoded JSON body, or
      the exception raised by the request, by [raise_for_status] or by
      [response.json()];
    - [float_repr] formats a float in an f-string;
    - [strftime_ms v] is
      [datetime.fromtimestamp(v / 1000).strftime("%Y-%m-%d %H:%M:%S UTC")];
    - [isoformat t] is [t.isoformat()]. *)
Record Env : Type := {
  clock : nat -> time;
  usgs : nat -> dict -> exc pyval;
  float_repr : float -> string;
  strftime_ms : pyval -> exc string;
  isoformat : time -> string
}.

(** [str(n)] for an int. *)
Definition int_str (n : Z) : string := NilZero.string_of_int (Z.to_int n).

(** ** The enrichment engine *)

(** [_calculate_risk_level(magnitude, depth)] *)
Definition _calculate_risk_level (magnitude depth : pyval) : exc string :=
  let* shallow := py_lt_num depth (NInt 70) in
  let* depth_factor :=
    if shallow then Ok 1.0%float
    else
      let* intermediate := py_lt_num depth (NInt 300) in
      Ok (if intermediate then 0.8 else 0.6)%float in
  let* risk_score := py_mul_float magnitude depth_factor in
  if (6.5 <=? risk_score)%float then Ok "Critical"
  else if (5.5 <=? risk_score)%float then Ok "High"
  else if (4.0 <=? risk_score)%float then Ok "Medium"
  else Ok "Low".

(** The severity classification of [_process_earthquake_data]: the pair
    of [severity] and [color]. *)
Definition classify_magnitude (mag : pyval) : exc (string * string) :=
  let* extreme := py_ge_num mag (NFloat 7.0) in
  if extreme then Ok ("Extreme", "darkred")
  else
    let* severe := py_ge_num mag (NFloat 6.0) in
    if severe then Ok ("Severe", "red")
    else
      let* strong := py_ge_num mag (NFloat 5.0) in
      if strong then Ok ("Strong", "orange")
      else
        let* moderate := py_ge_num mag (NFloat 4.0) in
        if moderate then Ok ("Moderate", "yellow")
        else Ok ("Light", "green").

Section Enrichment.
Context (env : Env).

(** One turn of the loop of [_process_earthquake_data]: the feature
    after the turn. *)
Definition process_feature (feature : pyval) : exc pyval :=
  let* props := py_getitem feature "properties" in
  let* mag := py_get props "mag" (VInt 0) in
  let* (severity, color) := classify_magnitude mag in
  let* props := py_setitem props "severity" (VStr severity) in
  let* props := py_setitem props "color" (VStr color) in
  let* depth := py_get props "depth" (VInt 0) in
  let* risk_level := _calculate_risk_level mag depth in
  let* props := py_setitem props "risk_level" (VStr risk_level) in
  let* time_value := py_get props "time" VNone in
  let* props :=
    if py_truthy time_value then
      let* time_value := py_getitem props "time" in
      let* formatted := strftime_ms env time_value in
      py_setitem props "formatted_time" (VStr formatted)
    else Ok props in
  Ok (write_back feature "properties" props).

Fixpoint process_loop (features : list pyval) : exc (list pyval) :=
  match features with
  | [] => Ok []
  | feature :: rest =>
      let* feature := process_feature feature in
      let* rest := process_loop rest in
      Ok (feature :: rest)
  end.

(** [_process_earthquake_data(data)]: the features are enriched in place
    and [data] itself is returned. *)
Definition _process_earthquake_data (data : pyval) : exc pyval :=
  let* features := py_getitem data "features" in
  let* items := py_iter features in
  let* items := process_loop items in
  Ok (features_written data items).

End Enrichment.

(** ** The time-boxed cache and the service object *)

(** A cache entry, [{"data": ..., "timestamp": ...}]. *)
Record CacheEntry : Type := {
  entry_data : pyval;
  entry_timestamp : time
}.

(** The service object ([self.cache]) with the number of interactions
    with the environment so far. *)
Record Service : Type := {
  cache : gmap string CacheEntry;
  ticks : nat
}.

(** [timedelta(minutes=5)] *)
Definition cache_duration : time := 5 * 60 * 1000000.

(** [DisasterDataService()] *)
Definition new_service : Service := {| cache := ∅; ticks := 0 |}.

(** [self.cache[key] = {"data": value, "timestamp": now}] *)
Definition cache_put (s : Service) (key : string) (value : pyval) (now : time) : Service :=
  {| cache := <[key := {| entry_data := value; entry_timestamp := now |}]> (cache s);
     ticks := ticks s |}.

(** [self.cache[key]["data"]] *)
Definition cache_get (s : Service) (key : string) : exc pyval :=
  match cache s !! key with
  | Some entry => Ok (entry_data entry)
  | None => Raise KeyError
  end.

(** ** The static data sets *)

Definition point_feature (lon lat : float) (properties : dict) : pyval :=
  VDict [("type", VStr "Feature");
         ("geometry",
          VDict [("type", VStr "Point");
                 ("coordinates", VList [VFloat lon; VFloat lat])]);
         ("properties", VDict properties)].

Definition wildfire (lon lat : float) (title severity : string)
    (acres_burned containment : Z) (color country : string) : pyval :=
  point_feature lon lat
    [("title", VStr title); ("severity", VStr severity);
     ("acres_burned", VInt acres_burned); ("containment", VInt containment);
     ("color", VStr color); ("type", VStr "wildfire");
     ("country", VStr country)].

Definition all_wildfires : pyval :=
  VDict [("type", VStr "FeatureCollection");
         ("features", VList [
            wildfire 55.2708 25.2048 "Al Hajar Mountains Brush Fire" "Low"
              120 85 "yellow" "United Arab Emirates";
            wildfire 56.0833 24.3667 "Empty Quarter Vegetation Fire" "Low"
              85 95 "green" "United Arab Emirates";
            wildfire (-114.0719) 51.0447 "Alberta Forest Fire" "High"
              45000 15 "red" "Canada";
            wildfire (-123.1207) 49.2827 "British Columbia Mountain Fire" "Extreme"
              78000 5 "darkred" "Canada";
            wildfire (-106.3468) 52.1332 "Saskatchewan Prairie Fire" "Medium"
              12000 40 "orange" "Canada";
            wildfire (-79.3832) 43.6532 "Ontario Conservation Area Fire" "Low"
              850 75 "yellow" "Canada"])].

Definition weather_alert (lon lat : float) (title severity alert_type color country : string)
  : pyval :=
  point_feature lon lat
    [("title", VStr title); ("severity", VStr severity);
     ("alert_type", VStr alert_type); ("color", VStr color);
     ("type", VStr "weather_alert"); ("country", VStr country)].

Definition all_alerts : pyval :=
  VDict [("type", VStr "FeatureCollection");
         ("features", VList [
            weather_alert 55.2708 25.2048 "Dust Storm Warning - Dubai" "Medium"
              "Dust Storm" "orange" "United Arab Emirates";
            weather_alert 54.3773 24.4539 "Extreme Heat Advisory - Abu Dhabi" "High"
              "Extreme Heat" "red" "United Arab Emirates";
            weather_alert (-75.6972) 45.4215 "Severe Thunderstorm Watch - Ottawa" "Medium"
              "Thunderstorm" "orange" "Canada";
            weather_alert (-114.0719) 51.0447 "Blizzard Warning - Calgary" "Extreme"
              "Blizzard" "purple" "Canada"])].

Definition relief_center (lon lat : float) (center_name : string)
    (capacity current_occupancy : Z) (resources : list string)
    (contact country : string) : pyval :=
  point_feature lon lat
    [("name", VStr center_name); ("capacity", VInt capacity);
     ("current_occupancy", VInt current_occupancy);
     ("resources", VList (map VStr resources));
     ("contact", VStr contact); ("type", VStr "relief_center");
     ("country", VStr country)].

Definition all_centers : pyval :=
  VDict [("type", VStr "FeatureCollection");
         ("features", VList [
            relief_center 55.2708 25.2048 "Dubai Emergency Response Center" 300 45
              ["Medical"; "Food"; "Shelter"; "Transportation"]
              "+971-4-123-4567" "United Arab Emirates";
            relief_center 54.3773 24.4539 "Abu Dhabi Crisis Management Center" 500 120
              ["Medical"; "Food"; "Shelter"; "Communications"]
              "+971-2-987-6543" "United Arab Emirates";
            relief_center 56.3269 25.3382 "Sharjah Emergency Services Hub" 200 30
              ["Medical"; "Food"; "Shelter"]
              "+971-6-555-0123" "United Arab Emirates";
            relief_center (-75.6972) 45.4215 "Ottawa Emergency Management Center" 800 250
              ["Medical"; "Food"; "Shelter"; "Mental Health"]
              "+1-613-555-0100" "Canada";
            relief_center (-114.0719) 51.0447 "Calgary Disaster Relief Station" 600 180
              ["Medical"; "Food"; "Shelter"; "Pet Care"]
              "+1-403-555-0200" "Canada";
            relief_center (-123.1207) 49.2827 "Vancouver Emergency Response Hub" 1000 420
              ["Medical"; "Food"; "Shelter"; "Transportation"; "Translation"]
              "+1-604-555-0300" "Canada"])].

(** ** The source fetchers *)

(** [sum(values)]: the items are added from left to right with [+],
    starting from the int [0].  (From CPython 3.12 on, [sum] carries a
    compensation term through a run of floats, which can change the last
    bit of such a sum.) *)
Fixpoint sum_from (acc : num) (values : list pyval) : exc num :=
  match values with
  | [] => Ok acc
  | v :: rest =>
      match as_num v with
      | Some x => let* acc := num_add acc x in sum_from acc rest
      | None => Raise TypeError
      end
  end.

Definition py_sum (values : list pyval) : exc num := sum_from (NInt 0) values.

(** [[f(x) for x in items]] for a function that can raise. *)
Fixpoint map_exc {A B : Type} (f : A -> exc B) (items : list A) : exc (list B) :=
  match items with
  | [] => Ok []
  | x :: rest =>
      let* y := f x in
      let* ys := map_exc f rest in
      Ok (y :: ys)
  end.

(** [[x for x in items if f(x)]] for a test that can raise. *)
Fixpoint filter_exc {A : Type} (f : A -> exc bool) (items : list A) : exc (list A) :=
  match items with
  | [] => Ok []
  | x :: rest =>
      let* keep := f x in
      let* xs := filter_exc f rest in
      Ok (if keep : bool then x :: xs else xs)
  end.

Section Service.
Context (env : Env).

(** [datetime.now()] *)
Definition datetime_now (s : Service) : time * Service :=
  (clock env (ticks s), {| cache := cache s; ticks := S (ticks s) |}).

(** [await self.client.get(url, params=params)], [raise_for_status()]
    and [response.json()] *)
Definition http_get (s : Service) (params : dict) : exc pyval * Service :=
  (usgs env (ticks s) params, {| cache := cache s; ticks := S (ticks s) |}).

(** [_is_cache_valid(key)]; the clock is read only when the key is in
    the cache. *)
Definition _is_cache_valid (s : Service) (key : string) : bool * Service :=
  match cache s !! key with
  | None => (false, s)
  | Some entry =>
      let (now, s) := datetime_now s in
      (now - entry_timestamp entry <? cache_duration, s)
  end.

(** The cache keys, [f"earthquakes_{limit}_{min_magnitude}_{country.value}"],
    [f"wildfires_{country.value}"] and [f"weather_alerts_{country.value}"]. *)
Definition earthquakes_key (limit : Z) (min_magnitude : float) (country : Country) : string :=
  "earthquakes_" +:+ int_str limit +:+ "_" +:+ float_repr env min_magnitude
    +:+ "_" +:+ Country_value country.

Definition wildfires_key (country : Country) : string :=
  "wildfires_" +:+ Country_value country.

Definition weather_alerts_key (country : Country) : string :=
  "weather_alerts_" +:+ Country_value country.

(** The query of [get_earthquakes]. *)
Definition earthquake_params (limit : Z) (min_magnitude : float) (country : Country) : dict :=
  let params :=
    [("format", VStr "geojson");
     ("limit", VInt (limit * 2));
     ("minmagnitude", VFloat min_magnitude);
     ("orderby", VStr "time")] in
  if negb (Country_eqb country ALL) then
    match COUNTRY_BOUNDS country with
    | Some bounds =>
        dict_set (dict_set (dict_set (dict_set params
          "minlatitude" (VFloat (min_lat bounds)))
          "maxlatitude" (VFloat (max_lat bounds)))
          "minlongitude" (VFloat (min_lon bounds)))
          "maxlongitude" (VFloat (max_lon bounds))
    | None => params
    end
  else params.

(** The part of the [try] block of [get_earthquakes] between the
    response and the cache: enrich, filter, and cut to [limit]. *)
Definition earthquake_pipeline (limit : Z) (country : Country) (body : pyval) : exc pyval :=
  let* processed_data := _process_earthquake_data env body in
  let* (_, filtered_data) := _filter_by_country processed_data country in
  let* features := py_getitem filtered_data "features" in
  let* n := py_len features in
  if limit <? n then
    let* features := py_getitem filtered_data "features" in
    match features with
    | VList l => py_setitem filtered_data "features" (VList (list_slice_to l limit))
    | VStr s =>
        py_setitem filtered_data "features"
          (VStr (String.string_of_list_ascii (list_slice_to (String.list_ascii_of_string s) limit)))
    | _ => Raise TypeError
    end
  else Ok filtered_data.

(** [get_earthquakes(limit, min_magnitude, country)] *)
Definition get_earthquakes (s : Service) (limit : Z) (min_magnitude : float)
    (country : Country) : exc pyval * Service :=
  let cache_key := earthquakes_key limit min_magnitude country in
  let (valid, s) := _is_cache_valid s cache_key in
  if valid then (cache_get s cache_key, s)
  else
    let params := earthquake_params limit min_magnitude country in
    let (response, s) := http_get s params in
    match (let* body := response in earthquake_pipeline limit country body) with
    | Ok filtered_data =>
        let (now, s) := datetime_now s in
        (Ok filtered_data, cache_put s cache_key filtered_data now)
    | Raise _ => (Ok empty_collection, s)
    end.

(** The three fetchers over static data share one shape. *)
Definition get_wildfires (s : Service) (country : Country) : exc pyval * Service :=
  let cache_key := wildfires_key country in
  let (valid, s) := _is_cache_valid s cache_key in
  if valid then (cache_get s cache_key, s)
  else
    match _filter_by_country all_wildfires country with
    | Ok (_, filtered_data) =>
        let (now, s) := datetime_now s in
        (Ok filtered_data, cache_put s cache_key filtered_data now)
    | Raise e => (Raise e, s)
    end.

Definition get_weather_alerts (s : Service) (country : Country) : exc pyval * Service :=
  let cache_key := weather_alerts_key country in
  let (valid, s) := _is_cache_valid s cache_key in
  if valid then (cache_get s cache_key, s)
  else
    match _filter_by_country all_alerts country with
    | Ok (_, filtered_data) =>
        let (now, s) := datetime_now s in
        (Ok filtered_data, cache_put s cache_key filtered_data now)
    | Raise e => (Raise e, s)
    end.

Definition get_relief_centers (s : Service) (country : Country) : exc pyval * Service :=
  match _filter_by_country all_centers country with
  | Ok (_, filtered_data) => (Ok filtered_data, s)
  | Raise e => (Raise e, s)
  end.

End Service.

(** ** Statistics *)

(** [f["properties"].get("mag", 0)] *)
Definition magnitude_of (feature : pyval) : exc pyval :=
  let* props := py_getitem feature "properties" in
  py_get props "mag" (VInt 0).

(** The entries of [stats] up to ["active_weather_alerts"], in the order
    the dictionary display evaluates them. *)
Definition statistics_counts (country : Country)
    (earthquakes wildfires weather_alerts : pyval) : exc dict :=
  let country_name :=
    match COUNTRY_BOUNDS country with
    | Some bounds => name bounds
    | None => "Global"
    end in
  let* features := py_getitem earthquakes "features" in
  let* total_earthquakes := py_len features in
  let* features := py_getitem earthquakes "features" in
  let* items := py_iter features in
  let* severe :=
    filter_exc (fun f => let* mag := magnitude_of f in py_ge_num mag (NFloat 6.0)) items in
  let* features := py_getitem wildfires "features" in
  let* total_wildfires := py_len features in
  let* features := py_getitem weather_alerts "features" in
  let* active_weather_alerts := py_len features in
  Ok [("country", VStr (Country_value country));
      ("country_name", VStr country_name);
      ("total_earthquakes", VInt total_earthquakes);
      ("severe_earthquakes", VInt (Z.of_nat (length severe)));
      ("total_wildfires", VInt total_wildfires);
      ("active_weather_alerts", VInt active_weather_alerts)].

(** [sum(mags) / len(mags) if mags else 0] for
    [mags = [f["properties"].get("mag", 0) for f in earthquakes["features"]]] *)
Definition average_magnitude (earthquakes : pyval) : exc pyval :=
  let* features := py_getitem earthquakes "features" in
  let* items := py_iter features in
  let* mags := map_exc magnitude_of items in
  match mags with
  | [] => Ok (VInt 0)
  | _ :: _ =>
      let* total := py_sum mags in
      let* mean := num_truediv_int total (Z.of_nat (length mags)) in
      Ok (VFloat mean)
  end.

Section Statistics.
Context (env : Env).

(** [get_disaster_statistics(country)]: whatever is raised inside the
    [try] block is caught and the empty dictionary returned. *)
Definition get_disaster_statistics (s : Service) (country : Country) : pyval * Service :=
  let (r, s) := get_earthquakes env s 50 2.5 country in
  match r with
  | Raise _ => (VDict [], s)
  | Ok earthquakes =>
      let (r, s) := get_wildfires env s country in
      match r with
      | Raise _ => (VDict [], s)
      | Ok wildfires =>
          let (r, s) := get_weather_alerts env s country in
          match r with
          | Raise _ => (VDict [], s)
          | Ok weather_alerts =>
              match statistics_counts country earthquakes wildfires weather_alerts with
              | Raise _ => (VDict [], s)
              | Ok stats =>
                  let (now, s) := datetime_now env s in
                  let stats := dict_set stats "last_updated" (VStr (isoformat env now)) in
                  match average_magnitude earthquakes with
                  | Raise _ => (VDict [], s)
                  | Ok mean => (VDict (dict_set stats "avg_earthquake_magnitude" mean), s)
                  end
              end
          end
      end
  end.

End Statistics.

(** [get_country_bounds(country)] *)
Definition get_country_bounds (country : Country) : option CountryBounds :=
  COUNTRY_BOUNDS country.

(** ** The aggregation route *)








(** ** Sample data *)

(** A small collection: a point in the rectangle of the Emirates, one in
    Canada, a feature without geometry, and a point on a corner of the
    rectangle of the Emirates. *)
Definition sample_collection : pyval :=
  VDict [("type", VStr "FeatureCollection");
         ("features", VList [
            point_feature 55.0 24.0 [("mag", VFloat 6.2); ("depth", VInt 50)];
            point_feature (-114.0719) 51.0447 [("mag", VFloat 5.0)];
            VDict [("type", VStr "Feature"); ("properties", VDict [])];
            point_feature 51.0 26.5 []])].

(** The bounds of the Emirates, [COUNTRY_BOUNDS[Country.UAE]]. *)
Definition uae_bounds : CountryBounds :=
  {| name := "United Arab Emirates"; code := "AE";
     min_lat := 22.5; max_lat := 26.5; min_lon := 51.0; max_lon := 56.5;
     center_lat := 24.0; center_lon := 54.0 |}.


(** A collection of one feature, inside the rectangle of the Emirates and
    with no attributes yet. *)
Definition one_feature_collection : pyval :=
  VDict [("type", VStr "FeatureCollection");
         ("features", VList [point_feature 55.0 24.0 []])].

(** An environment: the clock advances by one minute at each interaction,
    the seismic API answers with [sample_collection]. *)
Definition sample_env : Env :=
  {| clock := fun n => Z.of_nat n * 60000000;
     usgs := fun _ _ => Ok sample_collection;
     float_repr := fun _ => "2.5";
     strftime_ms := fun _ => Ok "2024-01-01 00:00:00 UTC";
     isoformat := fun _ => "2024-01-01T00:00:00" |}.

(** The same, with the seismic API out of reach. *)
Definition offline_env : Env :=
  {| clock := clock sample_env;
     usgs := fun _ _ => Raise RequestError;
     float_repr := float_repr sample_env;
     strftime_ms := strftime_ms sample_env;
     isoformat := isoformat sample_env |}.

(** ** What the specification says of the aggregation *)



(** ** The order on numbers *)

(** The comparison of two numbers by their values: [None] when one of them
    is a NaN.  [num_leb] and [num_ltb] are read off it (lemmas
    [num_leb_cmp] and [num_ltb_cmp]). *)
Definition num_cmp (a b : num) : option comparison :=
  match a, b with
  | NInt x, NInt y => Some (x ?= y)
  | NFloat x, NFloat y => SFcompare (Prim2SF x) (Prim2SF y)
  | NFloat x, NInt y => float_Z_compare x y
  | NInt x, NFloat y => option_map CompOpp (float_Z_compare y x)
  end.

(** ** What the specification says of the enrichment *)

(** The magnitude and the depth of an event with the attributes [props]:
    a missing value counts as the int [0]. *)
Definition magnitude_value (props : dict) : pyval :=
  match dict_get props "mag" with
  | Some v => v
  | None => VInt 0
  end.

Definition depth_value (props : dict) : pyval :=
  match dict_get props "depth" with
  | Some v => v
  | None => VInt 0
  end.




(** The time of the event, when it has one that counts as true, can be
    formatted. *)
Definition time_formats (env : Env) (props : dict) : Prop :=
  match dict_get props "time" with
  | Some t => py_truthy t = true -> exists s, strftime_ms env t = Ok s
  | None => True
  end.

(** ** What the specification says of the statistics *)

(** The magnitude of a seismic feature as a number, a missing magnitude
    counting as [0]; [None] when the feature has no attribute mapping or a
    magnitude that is not a number. *)
Definition magnitude_number (feature : pyval) : option num :=
  match entry feature "properties" with
  | Some (VDict props) => as_num (magnitude_value props)
  | _ => None
  end.

Fixpoint magnitudes (features : list pyval) : option (list num) :=
  match features with
  | [] => Some []
  | feature :: rest =>
      match magnitude_number feature, magnitudes rest with
      | Some m, Some ms => Some (m :: ms)
      | _, _ => None
      end
  end.

(** The number of magnitudes that are at least 6.0. *)
Definition count_severe (mags : list num) : nat :=
  length (List.filter (num_leb (NFloat 6.0)) mags).

(** The sum of numbers, from left to right. *)
Fixpoint num_sum_from (acc : num) (mags : list num) : exc num :=
  match mags with
  | [] => Ok acc
  | m :: rest => let* acc := num_add acc m in num_sum_from acc rest
  end.

(** The arithmetic mean of the magnitudes in Python's arithmetic: their sum
    divided by their number, and the int [0] when there is none. *)
Definition arithmetic_mean (mags : list num) : exc pyval :=
  match mags with
  | [] => Ok (VInt 0)
  | _ :: _ =>
      let* total := num_sum_from (NInt 0) mags in
      let* mean := num_truediv_int total (Z.of_nat (length mags)) in
      Ok (VFloat mean)
  end.

(** A collection with the given features. *)
Definition collection_of (features : list pyval) : pyval :=
  VDict [("type", VStr "FeatureCollection"); ("features", VList features)].

(** A seismic feature with the given attributes, somewhere. *)
Definition quake (props : dict) : pyval := point_feature 0 0 props.

(** Three seismic features, of magnitudes 5.0, 6.5 and 7.2. *)
Definition three_quakes : list pyval :=
  [quake [("mag", VFloat 5.0)]; quake [("mag", VFloat 6.5)]; quake [("mag", VFloat 7.2)]].

(** An environment in which the seismic API answers with these three. *)
Definition three_quakes_env : Env :=
  {| clock := clock sample_env;
     usgs := fun _ _ => Ok (collection_of three_quakes);
     float_repr := float_repr sample_env;
     strftime_ms := strftime_ms sample_env;
     isoformat := isoformat sample_env |}.

(** An environment in which the seismic API answers with an event of
    magnitude 6.0 and an event without magnitude. *)
Definition missing_magnitude_env : Env :=
  {| clock := clock sample_env;
     usgs := fun _ _ =>
               Ok (collection_of [quake [("mag", VFloat 6.0)]; quake [("depth", VInt 10)]]);
     float_repr := float_repr sample_env;
     strftime_ms := strftime_ms sample_env;
     isoformat := isoformat sample_env |}.

(** * The rest of the service and the routes of [backend/main.py] *)

From Stdlib Require DecimalZ.

(** ** The country of a point *)

(** The point of longitude [x] and latitude [y] lies in the rectangle of
    [bounds], the edges included. *)
Definition in_rectangle (bounds : CountryBounds) (x y : num) : bool :=
  num_leb (NFloat (min_lat bounds)) y && num_leb y (NFloat (max_lat bounds))
  && (num_leb (NFloat (min_lon bounds)) x && num_leb x (NFloat (max_lon bounds))).

(** The members of [Country], in the order of the class body. *)
Definition Country_members : list Country := [UAE; CANADA; ALL].

(** [COUNTRY_BOUNDS.items()]: a dictionary keeps the order of its display,
    here that of the members. *)
Definition COUNTRY_BOUNDS_items : list (Country * CountryBounds) :=
  omap (fun country => pair country <$> COUNTRY_BOUNDS country) Country_members.

(** The loop of [_get_country_from_coordinates] over the entries that are
    left. *)
Fixpoint country_search (items : list (Country * CountryBounds)) (lat lon : pyval)
  : exc pyval :=
  match items with
  | [] => Ok VNone
  | (_, bounds) :: rest =>
      let* found := within_bounds bounds lon lat in
      if found then Ok (VStr (name bounds)) else country_search rest lat lon
  end.

(** [_get_country_from_coordinates(lat, lon)] *)
Definition _get_country_from_coordinates (lat lon : pyval) : exc pyval :=
  country_search COUNTRY_BOUNDS_items lat lon.

(** [get_available_countries()] *)
Definition get_available_countries : pyval :=
  VList (map (fun item : Country * CountryBounds =>
                let (country, bounds) := item in
                VDict [("code", VStr (Country_value country));
                       ("name", VStr (name bounds));
                       ("center",
                        VList [VFloat (center_lat bounds);
                               VFloat (center_lon bounds)])])
           COUNTRY_BOUNDS_items).

(** ** The country parameter of a request *)

(** [str.lower()] on the code points a [string] holds (those below 256):
    the letters A to Z and the capital letters of Latin-1 (192 to 222, the
    multiplication sign 215 apart) move 32 places up, every other character
    stays. *)
Definition char_lower (c : Ascii.ascii) : Ascii.ascii :=
  let n := Ascii.N_of_ascii c in
  if ((65 <=? n) && (n <=? 90) || (192 <=? n) && (n <=? 222) && negb (n =? 215))%N
  then Ascii.ascii_of_N (n + 32)
  else c.

Fixpoint str_lower (s : string) : string :=
  match s with
  | EmptyString => EmptyString
  | String c rest => String (char_lower c) (str_lower rest)
  end.

(** [Country(value)]: the member with this value; [None] stands for the
    [ValueError] raised when there is none. *)
Definition Country_of_value (value : string) : option Country :=
  List.find (fun country => String.eqb (Country_value country) value) Country_members.

(** [feature["id"] == event_id]: a value equals a string only when it is
    that string. *)
Definition py_eq_str (v : pyval) (s : string) : bool :=
  match v with
  | VStr s' => String.eqb s' s
  | _ => false
  end.

(** ** The states of the service *)

(** One use of the service takes it from [s] to [s']: a call of one of its
    fetchers or of [get_disaster_statistics], or a reading of the clock by
    the code around it. *)
Inductive service_step (env : Env) (s : Service) : Service -> Prop :=
| step_earthquakes (limit : Z) (min_magnitude : float) (country : Country) :
    service_step env s (snd (get_earthquakes env s limit min_magnitude country))
| step_wildfires (country : Country) :
    service_step env s (snd (get_wildfires env s country))
| step_weather_alerts (country : Country) :
    service_step env s (snd (get_weather_alerts env s country))
| step_relief_centers (country : Country) :
    service_step env s (snd (get_relief_centers s country))
| step_statistics (country : Country) :
    service_step env s (snd (get_disaster_statistics env s country))
| step_clock :
    service_step env s (snd (datetime_now env s)).

(** The states a service created by [DisasterDataService()] can be in,
    its calls taken one after the other. *)
Inductive reachable (env : Env) : Service -> Prop :=
| reachable_new : reachable env new_service
| reachable_step (s s' : Service) :
    reachable env s -> service_step env s s' -> reachable env s'.

(** What a fetcher over static data computes on a cache miss: the
    collection [_filter_by_country] returns for the data set. *)
Definition filter_result (data : pyval) (country : Country) : exc pyval :=
  let* (_, filtered_data) := _filter_by_country data country in
  Ok filtered_data.

(** The entries of the cache are what the fetchers compute: under the key
    of a fetch there is the collection a fetch with these arguments
    returns, for the seismic fetcher the outcome of its pipeline on some
    answer of the API. *)
Definition cache_sound (env : Env) (s : Service) : Prop :=
  (forall country entry,
      cache s !! wildfires_key country = Some entry ->
      filter_result all_wildfires country = Ok (entry_data entry))
  /\ (forall country entry,
        cache s !! weather_alerts_key country = Some entry ->
        filter_result all_alerts country = Ok (entry_data entry))
  /\ (forall limit min_magnitude country entry,
        cache s !! earthquakes_key env limit min_magnitude country = Some entry ->
        exists body, earthquake_pipeline env limit country body = Ok (entry_data entry)).

(** The string has no underscore in it. *)
Fixpoint no_underscore (s : string) : bool :=
  match s with
  | EmptyString => true
  | String c rest => negb (String.eqb (String c EmptyString) "_") && no_underscore rest
  end.

(** ** The routes *)

(** [disaster_service], the instance of the service the routes call: its
    methods under the names the routes use. *)
Module disaster_service.
Abbreviation get_earthquakes := get_earthquakes (only parsing).
Abbreviation get_wildfires := get_wildfires (only parsing).
Abbreviation get_weather_alerts := get_weather_alerts (only parsing).
Abbreviation get_relief_centers := get_relief_centers (only parsing).
Abbreviation get_country_bounds := get_country_bounds (only parsing).
Abbreviation get_available_countries := get_available_countries (only parsing).
End disaster_service.

Module main.

(** What a route hands to the framework: a value it returns (sent with
    status 200), a [JSONResponse] it built, or an [HTTPException] it
    raised. *)
Inductive Outcome : Type :=
| Return (content : pyval)
| JSONResponse (status_code : Z) (content : pyval)
| HTTPException (status_code : Z) (detail : string).

(** The exception raised when [Country(country.lower())] raises
    [ValueError]. *)
Definition invalid_country (country supported : string) : Outcome :=
  HTTPException 400
    ("Invalid country '" +:+ country +:+ "'. Supported: " +:+ supported).

Section Routes.
Context (env : Env).

(** [renders content]: whether [JSONResponse(content=content)] can be
    built.  The content is rendered to JSON when the response is built, and
    a value JSON has no form for (a NaN, an infinity) raises. *)
Context (renders : pyval -> bool).

(** [return JSONResponse(content=content)] inside the [try] block of a
    route: what is raised while the response is built is caught by
    [except Exception], which raises an [HTTPException] of status 500 with
    the detail of the route. *)
Definition respond (content : pyval) (failure : string) : Outcome :=
  if renders content then JSONResponse 200 content else HTTPException 500 failure.

(** The end of a route around a fetcher: the response for what the fetcher
    returned, status 500 when it raised. *)
Definition respond_with (r : exc pyval) (failure : string) : Outcome :=
  match r with
  | Ok data => respond data failure
  | Raise _ => HTTPException 500 failure
  end.

Definition get_available_countries : Outcome :=
  let countries := disaster_service.get_available_countries in
  match py_len countries with
  | Ok total =>
      respond (VDict [("countries", countries); ("total", VInt total)])
        "Failed to fetch available countries"
  | Raise _ => HTTPException 500 "Failed to fetch available countries"
  end.

Definition get_earthquakes (s : Service) (limit : Z) (min_magnitude : float)
    (country : string) : Outcome * Service :=
  match Country_of_value (str_lower country) with
  | None => (invalid_country country "uae, canada, all", s)
  | Some country_enum =>
      let (r, s) := disaster_service.get_earthquakes env s limit min_magnitude country_enum in
      (respond_with r "Failed to fetch earthquake data", s)
  end.

Definition get_wildfires (s : Service) (country : string) : Outcome * Service :=
  match Country_of_value (str_lower country) with
  | None => (invalid_country country "uae, canada, all", s)
  | Some country_enum =>
      let (r, s) := disaster_service.get_wildfires env s country_enum in
      (respond_with r "Failed to fetch wildfire data", s)
  end.

Definition get_weather_alerts (s : Service) (country : string) : Outcome * Service :=
  match Country_of_value (str_lower country) with
  | None => (invalid_country country "uae, canada, all", s)
  | Some country_enum =>
      let (r, s) := disaster_service.get_weather_alerts env s country_enum in
      (respond_with r "Failed to fetch weather alert data", s)
  end.

Definition get_relief_centers (s : Service) (country : string) : Outcome * Service :=
  match Country_of_value (str_lower country) with
  | None => (invalid_country country "uae, canada, all", s)
  | Some country_enum =>
      let (r, s) := disaster_service.get_relief_centers s country_enum in
      (respond_with r "Failed to fetch relief center data", s)
  end.

Definition get_statistics (s : Service) (country : string) : Outcome * Service :=
  match Country_of_value (str_lower country) with
  | None => (invalid_country country "uae, canada, all", s)
  | Some country_enum =>
      let (stats, s) := get_disaster_statistics env s country_enum in
      (respond stats "Failed to fetch statistics", s)
  end.

(** The loop of [get_earthquake_details]: the first feature whose ["id"]
    equals [event_id], when there is one. *)
Fixpoint find_event (event_id : string) (features : list pyval) : exc (option pyval) :=
  match features with
  | [] => Ok None
  | feature :: rest =>
      let* id := py_getitem feature "id" in
      if py_eq_str id event_id then Ok (Some feature) else find_event event_id rest
  end.

Definition get_earthquake_details (s : Service) (event_id country : string)
  : Outcome * Service :=
  match Country_of_value (str_lower country) with
  | None => (invalid_country country "uae, canada, all", s)
  | Some country_enum =>
      let (r, s) := disaster_service.get_earthquakes env s 200 2.5 country_enum in
      let found :=
        let* earthquakes := r in
        let* features := py_getitem earthquakes "features" in
        let* items := py_iter features in
        find_event event_id items in
      (match found with
       | Ok (Some feature) => respond feature "Failed to fetch earthquake details"
       | Ok None => HTTPException 404 "Earthquake event not found"
       | Raise _ => HTTPException 500 "Failed to fetch earthquake details"
       end, s)
  end.

Definition get_country_bounds (country : string) : Outcome :=
  match Country_of_value (str_lower country) with
  | None => invalid_country country "uae, canada"
  | Some country_enum =>
      if Country_eqb country_enum ALL
      then HTTPException 400 "Cannot get bounds for 'all' countries"
      else
        match disaster_service.get_country_bounds country_enum with
        | None => HTTPException 404 "Country bounds not found"
        | Some bounds =>
            respond
              (VDict [("country", VStr country);
                      ("name", VStr (name bounds));
                      ("code", VStr (code bounds));
                      ("bounds",
                       VDict [("min_lat", VFloat (min_lat bounds));
                              ("max_lat", VFloat (max_lat bounds));
                              ("min_lon", VFloat (min_lon bounds));
                              ("max_lon", VFloat (max_lon bounds))]);
                      ("center",
                       VDict [("lat", VFloat (center_lat bounds));
                              ("lon", VFloat (center_lon bounds))])])
              "Failed to fetch country bounds"
        end
  end.

(** [health_check()]: nothing in its [try] block raises
    ([get_disaster_statistics] catches what is raised inside it), so the
    response of status 503 is never built. *)
Definition health_check (s : Service) : Outcome * Service :=
  let (stats, s) := get_disaster_statistics env s ALL in
  let (now, s) := datetime_now env s in
  (Return
     (VDict [("status", VStr "healthy");
             ("timestamp", VStr (isoformat env now));
             ("services",
              VDict [("earthquake_api", VStr "operational");
                     ("cache", VStr "operational");
                     ("statistics",
                      VStr (if py_truthy stats then "operational" else "degraded"))]);
             ("supported_countries",
              VList [VStr "uae"; VStr "canada"; VStr "all"])]),
   s).

End Routes.

End main.

(** ** More sample data *)

(** An environment whose seismic API fails at the first interaction and
    answers with [sample_collection] from then on. *)
Definition flaky_env : Env :=
  {| clock := clock sample_env;
     usgs := fun n _ =>
               match n with
               | O => Raise RequestError
               | S _ => Ok sample_collection
               end;
     float_repr := float_repr sample_env;
     strftime_ms := strftime_ms sample_env;
     isoformat := isoformat sample_env |}.

(** A renderer that accepts every content. *)
Definition renders_all (content : pyval) : bool := true.

(** Two seismic features with identifiers. *)
Definition identified_quakes : list pyval :=
  [VDict [("type", VStr "Feature"); ("id", VStr "us7000abcd");
          ("properties", VDict [("mag", VFloat 5.1)])];
   VDict [("type", VStr "Feature"); ("id", VStr "us7000efgh");
          ("properties", VDict [("mag", VFloat 6.3)])]].

(** An environment in which the seismic API answers with these two. *)
Definition identified_env : Env :=
  {| clock := clock sample_env;
     usgs := fun _ _ => Ok (collection_of identified_quakes);
     float_repr := float_repr sample_env;
     strftime_ms := strftime_ms sample_env;
     isoformat := isoformat sample_env |}.

(** An environment in which the seismic API answers with one good feature
    and one whose magnitude is null. *)
Definition null_magnitude_env : Env :=
  {| clock := clock sample_env;
     usgs := fun _ _ =>
               Ok (collection_of [quake [("mag", VFloat 6.5)]; quake [("mag", VNone)]]);
     float_repr := float_repr sample_env;
     strftime_ms := strftime_ms sample_env;
     isoformat := isoformat sample_env |}.

(** An answer of the API with entries of its own besides the features. *)
Definition answer_with_metadata : pyval :=
  VDict [("type", VStr "FeatureCollection");
         ("metadata", VDict [("title", VStr "USGS Earthquakes"); ("count", VInt 1)]);
         ("features", VList [point_feature 55.0 24.0 [("mag", VFloat 4.4)]]);
         ("bbox", VList [VFloat 55.0; VFloat 24.0; VFloat 55.0; VFloat 24.0])].

(** * Properties *)

(** ** Dictionaries *)

Lemma dict_get_set_eq (d : dict) (k : string) (v : pyval) :
  dict_get (dict_set d k v) k = Some v.
Proof.
  induction d as [|[k' v'] d IH]; simpl.
  - rewrite String.eqb_refl. reflexivity.
  - destruct (String.eqb k k') eqn:E; simpl; rewrite E; auto.
Qed.

Lemma dict_get_set_ne (d : dict) (k k' : string) (v : pyval) :
  k <> k' -> dict_get (dict_set d k v) k' = dict_get d k'.
Proof.
  intros Hne. induction d as [|[k0 v0] d IH]; simpl.
  - destruct (String.eqb k' k) eqn:E; [|reflexivity].
    apply String.eqb_eq in E. congruence.
  - destruct (String.eqb k k0) eqn:E; simpl.
    + apply String.eqb_eq in E. subst k0.
      destruct (String.eqb k' k) eqn:E'; [|reflexivity].
      apply String.eqb_eq in E'. congruence.
    + rewrite IH. reflexivity.
Qed.

Lemma dict_set_same (d : dict) (k : string) (v : pyval) :
  dict_get d k = Some v -> dict_set d k v = d.
Proof.
  induction d as [|[k' v'] d IH]; simpl; [discriminate|].
  destruct (String.eqb k k') eqn:E; intros H.
  - congruence.
  - rewrite IH by assumption. reflexivity.
Qed.

Lemma dict_set_set (d : dict) (k : string) (v v' : pyval) :
  dict_set (dict_set d k v) k v' = dict_set d k v'.
Proof.
  induction d as [|[k0 v0] d IH]; simpl.
  - rewrite String.eqb_refl. reflexivity.
  - destruct (String.eqb k k0) eqn:E; simpl; rewrite E; [reflexivity|].
    rewrite IH. reflexivity.
Qed.

(** ** The feature filter *)

Lemma stamp_country_spec (bounds : CountryBounds) (d p : dict) :
  dict_get d "properties" = Some (VDict p) ->
  stamp_country bounds (VDict d) = Ok (stamped bounds (VDict d)).
Proof.
  intros Hp. unfold stamp_country, stamped.
  cbn [py_getitem py_setitem write_back bind]. rewrite Hp.
  cbn [py_getitem py_setitem write_back bind].
  rewrite dict_get_set_eq.
  cbn [py_getitem py_setitem write_back bind].
  rewrite dict_set_set. reflexivity.
Qed.

Lemma within_bounds_num (bounds : CountryBounds) (lon lat : pyval) (x y : num) :
  as_num lon = Some x -> as_num lat = Some y ->
  within_bounds bounds lon lat =
    Ok (num_leb (NFloat (min_lat bounds)) y && num_leb y (NFloat (max_lat bounds))
        && (num_leb (NFloat (min_lon bounds)) x && num_leb x (NFloat (max_lon bounds)))).
Proof.
  intros Hx Hy. unfold within_bounds, num_le_py, py_le_num. rewrite Hx, Hy.
  cbn [bind].
  destruct (num_leb (NFloat (min_lat bounds)) y); cbn [negb andb bind]; [|reflexivity].
  destruct (num_leb y (NFloat (max_lat bounds))); cbn [negb andb bind]; [|reflexivity].
  destruct (num_leb (NFloat (min_lon bounds)) x); reflexivity.
Qed.

Lemma filter_step_spec (bounds : CountryBounds) (feature : pyval) :
  is_feature feature = true ->
  filter_step bounds feature =
    Ok (if inside bounds feature then stamped bounds feature else feature,
        inside bounds feature).
Proof.
  intros Hf. destruct feature as [| | | | | |d]; try discriminate.
  cbn [is_feature] in Hf.
  destruct (dict_get d "properties") as [[| | | | | |p]|] eqn:Hp; try discriminate.
  unfold filter_step, inside, coordinates. cbn [py_get bind].
  destruct (dict_get d "geometry") as [[| | | | | |g]|] eqn:Hg; try discriminate;
    cbn [py_get bind dict_get py_len length Z.of_nat Z.leb Z.compare];
    [|reflexivity].
  destruct (dict_get g "coordinates") as [[| | | | |l|]|] eqn:Hc; try discriminate;
    cbn [py_get bind dict_get py_len length Z.of_nat Z.leb Z.compare];
    [|reflexivity].
  destruct l as [|lon [|lat rest]]; try reflexivity.
  cbn [forallb] in Hf. apply andb_prop in Hf as [Hlon Hf]. apply andb_prop in Hf as [Hlat _].
  unfold is_number in Hlon, Hlat.
  destruct (as_num lon) as [x|] eqn:Hx; try discriminate.
  destruct (as_num lat) as [y|] eqn:Hy; try discriminate.
  replace (2 <=? Z.of_nat (length (lon :: lat :: rest))) with true
    by (symmetry; apply Z.leb_le; cbn [length]; lia).
  cbn [py_index nth_error bind].
  rewrite (within_bounds_num bounds lon lat x y Hx Hy). cbn [bind].
  match goal with |- context [if ?c then _ else _] => destruct c end; [|reflexivity].
  rewrite (stamp_country_spec bounds d p Hp). reflexivity.
Qed.

Lemma filter_loop_spec (bounds : CountryBounds) (features : list pyval) :
  forallb is_feature features = true ->
  filter_loop bounds features =
    Ok (map (fun f => if inside bounds f then stamped bounds f else f) features,
        map (stamped bounds) (List.filter (inside bounds) features)).
Proof.
  induction features as [|f rest IH]; intros Hall; [reflexivity|].
  simpl in Hall. apply andb_prop in Hall as [Hf Hrest].
  simpl. rewrite (filter_step_spec bounds f Hf). cbn [bind].
  rewrite (IH Hrest). cbn [bind].
  destruct (inside bounds f); reflexivity.
Qed.

Lemma bind_Ok {A B : Type} (m : exc A) (k : A -> exc B) (b : B) :
  bind m k = Ok b -> exists a, m = Ok a /\ k a = Ok b.
Proof. destruct m as [a|e]; [eauto|discriminate]. Qed.

Lemma filter_step_test (bounds : CountryBounds) (feature : pyval) :
  filter_step bounds feature =
    let* inside := retain_test bounds feature in
    if inside : bool then
      let* feature := stamp_country bounds feature in Ok (feature, true)
    else Ok (feature, false).
Proof.
  unfold filter_step, retain_test.
  destruct (py_get feature "geometry" (VDict [])) as [geometry|]; [|reflexivity].
  cbn [bind].
  destruct (py_get geometry "coordinates" (VList [])) as [coords|]; [|reflexivity].
  cbn [bind].
  destruct (py_len coords) as [n|]; [|reflexivity].
  cbn [bind].
  destruct (2 <=? n); [|reflexivity].
  destruct (py_index coords 0) as [lon|]; [|reflexivity].
  cbn [bind].
  destruct (py_index coords 1) as [lat|]; reflexivity.
Qed.

Lemma stamp_country_Ok (bounds : CountryBounds) (feature feature' : pyval) :
  stamp_country bounds feature = Ok feature' ->
  exists d p, feature = VDict d /\ dict_get d "properties" = Some (VDict p)
              /\ feature' = stamped bounds feature.
Proof.
  intros H0. pose proof H0 as H. unfold stamp_country in H.
  apply bind_Ok in H as (props & Hprops & H).
  apply bind_Ok in H as (props' & Hset & _).
  destruct feature as [| | | | | |d]; try discriminate.
  cbn [py_getitem] in Hprops.
  destruct (dict_get d "properties") as [v|] eqn:Hp; try discriminate.
  injection Hprops as ->.
  destruct props as [| | | | | |p]; try discriminate.
  exists d, p. split; [reflexivity|]. split; [assumption|].
  rewrite (stamp_country_spec bounds d p Hp) in H0. congruence.
Qed.

Lemma stamped_idem (bounds : CountryBounds) (d p : dict) :
  dict_get d "properties" = Some (VDict p) ->
  stamped bounds (stamped bounds (VDict d)) = stamped bounds (VDict d).
Proof.
  intros Hp. unfold stamped at 2 3. rewrite Hp.
  unfold stamped. rewrite dict_get_set_eq, dict_set_set.
  f_equal. f_equal. f_equal.
  rewrite (dict_set_same _ "country" (VStr (name bounds))).
  - rewrite dict_set_set. reflexivity.
  - rewrite dict_get_set_ne by discriminate. apply dict_get_set_eq.
Qed.

Lemma retain_test_stamped (bounds : CountryBounds) (feature : pyval) :
  retain_test bounds (stamped bounds feature) = retain_test bounds feature.
Proof.
  destruct feature as [| | | | | |d]; try reflexivity.
  unfold stamped.
  destruct (dict_get d "properties") as [[| | | | | |p]|]; try reflexivity.
  unfold retain_test. cbn [py_get].
  rewrite dict_get_set_ne by discriminate. reflexivity.
Qed.

Lemma filter_step_fixed (bounds : CountryBounds) (feature feature' : pyval) :
  filter_step bounds feature = Ok (feature', true) ->
  filter_step bounds feature' = Ok (feature', true).
Proof.
  rewrite !filter_step_test. intros H.
  apply bind_Ok in H as (inside & Htest & H).
  destruct inside; [|discriminate].
  apply bind_Ok in H as (f1 & Hstamp & H). injection H as ->.
  pose proof Hstamp as Hs.
  apply stamp_country_Ok in Hs as (d & p & -> & Hp & ->).
  rewrite retain_test_stamped, Htest. cbn [bind].
  pose proof (stamped_idem bounds d p Hp) as Hidem.
  assert (Hshape : exists p', stamped bounds (VDict d)
                              = VDict (dict_set d "properties" (VDict p'))).
  { unfold stamped. rewrite Hp. eauto. }
  destruct Hshape as (p' & Hshape). rewrite Hshape in Hidem |- *.
  rewrite (stamp_country_spec bounds _ p') by apply dict_get_set_eq.
  rewrite Hidem. reflexivity.
Qed.

Lemma filter_step_keep_false (bounds : CountryBounds) (feature feature' : pyval) :
  filter_step bounds feature = Ok (feature', false) -> feature' = feature.
Proof.
  rewrite filter_step_test. intros H.
  apply bind_Ok in H as (inside & Htest & H).
  destruct inside.
  - apply bind_Ok in H as (f1 & _ & H). discriminate.
  - congruence.
Qed.

Lemma filter_loop_fixed (bounds : CountryBounds) (features items filtered : list pyval) :
  filter_loop bounds features = Ok (items, filtered) ->
  filter_loop bounds filtered = Ok (filtered, filtered).
Proof.
  revert items filtered.
  induction features as [|f rest IH]; intros items filtered H.
  - injection H as <- <-. reflexivity.
  - cbn [filter_loop] in H.
    apply bind_Ok in H as ([f1 keep] & Hstep & H).
    apply bind_Ok in H as ([rest' kept] & Hloop & H).
    injection H as <- <-.
    specialize (IH _ _ Hloop).
    destruct keep; [|assumption].
    cbn [filter_loop]. rewrite (filter_step_fixed _ _ _ Hstep). cbn [bind].
    rewrite IH. reflexivity.
Qed.

(** C7. Filtering by a region is idempotent: when
    [_filter_by_country data country] returns the collection [out], filtering
    [out] by the same region returns [out] again (the same features in the
    same order, the same stamps, the same metadata) and leaves [out] as it
    is.  This holds for every region, [ALL] included. *)
Theorem filter_idempotent (data data' out : pyval) (country : Country) :
  _filter_by_country data country = Ok (data', out) ->
  _filter_by_country out country = Ok (out, out).
Proof.
  unfold _filter_by_country.
  destruct (Country_eqb country ALL).
  { intros H. injection H as <- <-. reflexivity. }
  destruct (COUNTRY_BOUNDS country) as [bounds|].
  2:{ intros H. injection H as <- <-. reflexivity. }
  intros H.
  apply bind_Ok in H as (features & _ & H).
  apply bind_Ok in H as (items & _ & H).
  apply bind_Ok in H as ([items' filtered] & Hloop & H).
  injection H as <- <-.
  cbn [py_get dict_get String.eqb Ascii.eqb Bool.eqb bind py_iter].
  rewrite (filter_loop_fixed _ _ _ _ Hloop). reflexivity.
Qed.

Lemma is_feature_attributes (feature : pyval) :
  is_feature feature = true -> has_attributes feature = true.
Proof.
  destruct feature as [| | | | | |d]; try discriminate. cbn [is_feature has_attributes].
  destruct (dict_get d "properties") as [[| | | | | |p]|]; try discriminate. reflexivity.
Qed.

Lemma stamped_frame (bounds : CountryBounds) (feature : pyval) :
  has_attributes feature = true ->
  property (stamped bounds feature) "country" = Some (VStr (name bounds))
  /\ property (stamped bounds feature) "country_code" = Some (VStr (code bounds))
  /\ (forall k, k <> "country" -> k <> "country_code" ->
        property (stamped bounds feature) k = property feature k)
  /\ (forall k, k <> "properties" ->
        entry (stamped bounds feature) k = entry feature k).
Proof.
  intros Hf. destruct feature as [| | | | | |d]; try discriminate.
  cbn [has_attributes] in Hf.
  destruct (dict_get d "properties") as [[| | | | | |p]|] eqn:Hp; try discriminate.
  unfold property, stamped. rewrite Hp. cbn [entry]. rewrite dict_get_set_eq, Hp.
  cbn [entry].
  repeat split.
  - rewrite dict_get_set_ne by discriminate. apply dict_get_set_eq.
  - apply dict_get_set_eq.
  - intros k Hk1 Hk2. rewrite !dict_get_set_ne by congruence. reflexivity.
  - intros k Hk. rewrite dict_get_set_ne by congruence. reflexivity.
Qed.

Lemma within_bounds_Ok (bounds : CountryBounds) (lon lat : pyval) (b : bool) :
  within_bounds bounds lon lat = Ok b ->
  b = match as_num lon, as_num lat with
      | Some x, Some y =>
          num_leb (NFloat (min_lat bounds)) y && num_leb y (NFloat (max_lat bounds))
          && (num_leb (NFloat (min_lon bounds)) x && num_leb x (NFloat (max_lon bounds)))
      | _, _ => false
      end.
Proof.
  unfold within_bounds, num_le_py, py_le_num.
  destruct (as_num lat) as [y|]; [|discriminate]. cbn [bind].
  destruct (num_leb (NFloat (min_lat bounds)) y); cbn [negb andb].
  2:{ intros H. injection H as <-. destruct (as_num lon); reflexivity. }
  destruct (num_leb y (NFloat (max_lat bounds))); cbn [negb andb bind].
  2:{ intros H. injection H as <-. destruct (as_num lon); reflexivity. }
  destruct (as_num lon) as [x|]; [|discriminate]. cbn [bind].
  destruct (num_leb (NFloat (min_lon bounds)) x); cbn [negb andb];
    intros H; injection H as <-; reflexivity.
Qed.

Lemma retain_test_Ok (bounds : CountryBounds) (feature : pyval) (b : bool) :
  retain_test bounds feature = Ok b -> b = inside bounds feature.
Proof.
  unfold retain_test, inside, coordinates.
  destruct feature as [| | | | | |d]; try discriminate. cbn [py_get].
  destruct (dict_get d "geometry") as [g|]; cbn [bind].
  - destruct g as [| | | | | |gd]; try discriminate. cbn [py_get].
    destruct (dict_get gd "coordinates") as [c|]; cbn [bind py_len].
    + destruct c as [| | | |s|l|cd]; try discriminate; cbn [py_len bind].
      * (* a string *)
        destruct (2 <=? Z.of_nat (String.length s));
          [|intros H; injection H as <-; reflexivity].
        cbn [py_index]. destruct (String.get 0 s); [|discriminate]. cbn [bind].
        destruct (String.get 1 s); discriminate.
      * (* a list *)
        destruct l as [|lon [|lat rest]].
        -- replace (2 <=? Z.of_nat (length (@nil pyval))) with false by reflexivity.
           intros H. injection H as <-. reflexivity.
        -- replace (2 <=? Z.of_nat (length [lon])) with false by reflexivity.
           intros H. injection H as <-. reflexivity.
        -- replace (2 <=? Z.of_nat (length (lon :: lat :: rest))) with true
             by (symmetry; apply Z.leb_le; cbn [length]; lia).
           cbn [py_index nth_error bind]. apply within_bounds_Ok.
      * (* a dict *)
        destruct (2 <=? Z.of_nat (length cd));
          [discriminate|intros H; injection H as <-; reflexivity].
    + replace (2 <=? Z.of_nat (length (@nil pyval))) with false by reflexivity.
      intros H. injection H as <-. reflexivity.
  - cbn [py_get dict_get bind py_len].
    replace (2 <=? Z.of_nat (length (@nil pyval))) with false by reflexivity.
    intros H. injection H as <-. reflexivity.
Qed.

Lemma stamp_country_attributes (bounds : CountryBounds) (feature feature' : pyval) :
  stamp_country bounds feature = Ok feature' ->
  has_attributes feature = true /\ feature' = stamped bounds feature.
Proof.
  intros H. apply stamp_country_Ok in H as (d & p & -> & Hp & ->).
  unfold has_attributes. rewrite Hp. auto.
Qed.

Lemma filter_step_sound (bounds : CountryBounds) (feature feature' : pyval) (keep : bool) :
  filter_step bounds feature = Ok (feature', keep) ->
  keep = inside bounds feature
  /\ feature' = (if keep then stamped bounds feature else feature)
  /\ (keep = true -> has_attributes feature = true).
Proof.
  rewrite filter_step_test. intros H.
  apply bind_Ok in H as (b & Htest & H).
  apply retain_test_Ok in Htest. subst b.
  destruct (inside bounds feature).
  - apply bind_Ok in H as (f1 & Hstamp & H). injection H as <- <-.
    apply stamp_country_attributes in Hstamp as [Hattr ->]. auto.
  - injection H as <- <-. split; [reflexivity|]. split; [reflexivity|]. discriminate.
Qed.

Lemma filter_loop_sound (bounds : CountryBounds) (features items filtered : list pyval) :
  filter_loop bounds features = Ok (items, filtered) ->
  items = map (fun f => if inside bounds f then stamped bounds f else f) features
  /\ filtered = map (stamped bounds) (List.filter (inside bounds) features)
  /\ Forall (fun f => inside bounds f = true -> has_attributes f = true) features.
Proof.
  revert items filtered.
  induction features as [|f rest IH]; intros items filtered H.
  - injection H as <- <-. auto.
  - cbn [filter_loop] in H.
    apply bind_Ok in H as ([f1 keep] & Hstep & H).
    apply bind_Ok in H as ([rest' kept] & Hloop & H).
    injection H as <- <-.
    destruct (IH _ _ Hloop) as (-> & -> & Hall).
    apply filter_step_sound in Hstep as (-> & -> & Hattr).
    cbn [map List.filter].
    split; [reflexivity|]. split; [destruct (inside bounds f); reflexivity|].
    constructor; assumption.
Qed.

(** Whenever the call returns, for a region with bounds, it returns what
    the specification describes, and the collection it was given is then
    as follows. *)
Lemma filter_by_country_sound (data data' out : pyval) (country : Country)
    (bounds : CountryBounds) :
  COUNTRY_BOUNDS country = Some bounds ->
  _filter_by_country data country = Ok (data', out) ->
  data' = features_written data
            (map (fun f => if inside bounds f then stamped bounds f else f)
                 (features_of data))
  /\ out = filtered_collection bounds data
  /\ Forall (fun f => inside bounds f = true -> has_attributes f = true)
       (features_of data).
Proof.
  intros Hb. unfold _filter_by_country.
  replace (Country_eqb country ALL) with false
    by (destruct country; [reflexivity..|discriminate]).
  rewrite Hb. intros H.
  apply bind_Ok in H as (features & Hget & H).
  apply bind_Ok in H as (items & Hiter & H).
  apply bind_Ok in H as ([items' filtered] & Hloop & H).
  injection H as <- <-.
  destruct data as [| | | | | |d]; try discriminate.
  unfold filtered_collection, features_of, features_written. cbn [py_get] in Hget.
  destruct (dict_get d "features") as [v|].
  - injection Hget as ->.
    destruct features as [| | | |s|l|fd]; try discriminate.
    + (* a string: the loop meets no character that is a feature *)
      cbn [py_iter] in Hiter. injection Hiter as <-.
      destruct (String.list_ascii_of_string s); [|discriminate].
      injection Hloop as <- <-. auto.
    + cbn [py_iter] in Hiter. injection Hiter as <-.
      apply filter_loop_sound in Hloop as (-> & -> & Hall).
      rewrite length_map. auto.
    + cbn [py_iter] in Hiter. injection Hiter as <-.
      destruct fd; [|discriminate].
      injection Hloop as <- <-. auto.
  - injection Hget as <-. cbn [py_iter] in Hiter. injection Hiter as <-.
    injection Hloop as <- <-. auto.
Qed.

Lemma inside_needs_two (bounds : CountryBounds) (feature : pyval) :
  (length (coordinates feature) < 2)%nat -> inside bounds feature = false.
Proof.
  unfold inside. destruct (coordinates feature) as [|lon [|lat rest]]; cbn [length];
    [reflexivity|reflexivity|lia].
Qed.

Lemma filter_by_country_known (data : pyval) (country : Country) (bounds : CountryBounds) :
  COUNTRY_BOUNDS country = Some bounds ->
  is_collection data = true ->
  _filter_by_country data country =
    Ok (features_written data
          (map (fun f => if inside bounds f then stamped bounds f else f)
               (features_of data)),
        filtered_collection bounds data).
Proof.
  intros Hb Hc. unfold _filter_by_country.
  replace (Country_eqb country ALL) with false by (destruct country; [reflexivity..|discriminate]).
  rewrite Hb.
  destruct data as [| | | | | |d]; try discriminate.
  unfold filtered_collection, features_of, features_written. cbn [is_collection] in Hc.
  cbn [py_get].
  destruct (dict_get d "features") as [[| | | | |l|]|] eqn:Hfs; try discriminate.
  - cbn [bind py_iter]. rewrite (filter_loop_spec bounds l Hc). cbn [bind].
    rewrite length_map. reflexivity.
  - reflexivity.
Qed.

(** C1. For a region known to the registry (so not [ALL]),
    [_filter_by_country] returns the collection whose features are exactly
    the features of [data] with at least two coordinate values and a point
    inside the bounds (edges included), in their order in [data], each
    stamped with the name and the code of the region; the metadata give the
    name, the code and the number of retained features; a feature with
    fewer than two coordinate values is not retained.  The call returns on
    every collection of the data model, and whenever it returns, on any
    input, this is what it returns. *)
Theorem filter_by_country_spec (data : pyval) (country : Country) (bounds : CountryBounds) :
  COUNTRY_BOUNDS country = Some bounds ->
  let retained := List.filter (inside bounds) (features_of data) in
  let expected :=
    VDict [("type", VStr "FeatureCollection");
           ("features", VList (map (stamped bounds) retained));
           ("metadata",
            VDict [("country", VStr (name bounds));
                   ("country_code", VStr (code bounds));
                   ("total_filtered", VInt (Z.of_nat (length retained)))])] in
  (is_collection data = true ->
   exists data', _filter_by_country data country = Ok (data', expected))
  /\ (forall data' out : pyval,
        _filter_by_country data country = Ok (data', out) ->
        out = expected
        /\ Forall (fun f =>
              property (stamped bounds f) "country" = Some (VStr (name bounds))
              /\ property (stamped bounds f) "country_code" = Some (VStr (code bounds)))
             retained)
  /\ (forall f, (length (coordinates f) < 2)%nat -> inside bounds f = false).
Proof.
  intros Hb retained expected. split; [|split].
  - intros Hc. eexists. rewrite (filter_by_country_known data country bounds Hb Hc).
    reflexivity.
  - intros data' out H.
    apply (filter_by_country_sound _ _ _ _ bounds Hb) in H as (_ & -> & Hall).
    split; [reflexivity|].
    apply Forall_forall. intros f Hin.
    apply list_elem_of_In, filter_In in Hin as [Hin Hinside].
    rewrite Forall_forall in Hall.
    destruct (stamped_frame bounds f) as (H1 & H2 & _); [|auto].
    apply Hall; [apply list_elem_of_In|]; assumption.
  - apply inside_needs_two.
Qed.

Lemma filter_by_country_spec_witness :
  exists data',
    _filter_by_country sample_collection UAE =
      Ok (data',
          VDict [("type", VStr "FeatureCollection");
                 ("features", VList [
                    point_feature 55.0 24.0
                      [("mag", VFloat 6.2); ("depth", VInt 50);
                       ("country", VStr "United Arab Emirates");
                       ("country_code", VStr "AE")];
                    point_feature 51.0 26.5
                      [("country", VStr "United Arab Emirates");
                       ("country_code", VStr "AE")]]);
                 ("metadata",
                  VDict [("country", VStr "United Arab Emirates");
                         ("country_code", VStr "AE");
                         ("total_filtered", VInt 2)])]).
Proof.
  exact (proj1 (filter_by_country_spec sample_collection UAE uae_bounds eq_refl)
           eq_refl).
Defined.

Lemma filter_idempotent_witness :
  let out := filtered_collection uae_bounds sample_collection in
  _filter_by_country out UAE = Ok (out, out).
Proof.
  intro out.
  apply (filter_idempotent sample_collection
           (features_written sample_collection
              (map (fun f => if inside uae_bounds f then stamped uae_bounds f else f)
                 (features_of sample_collection)))
           out UAE).
  vm_compute. reflexivity.
Defined.

(** C9, as stated, fails: the call stamps the retained feature of the
    collection it was given, which is not the same afterwards. *)
Lemma filter_mutates_input :
  exists data' out,
    _filter_by_country one_feature_collection UAE = Ok (data', out)
    /\ features_of data' =
         [point_feature 55.0 24.0
            [("country", VStr "United Arab Emirates"); ("country_code", VStr "AE")]]
    /\ data' <> one_feature_collection.
Proof.
  eexists _, _. split; [vm_compute; reflexivity|]. split; [reflexivity|].
  discriminate.
Qed.

(** C9, amended.  [_filter_by_country] changes the collection it is given
    only in the attribute mappings of the features it retains, where it
    sets the name and the code of the region: the other entries of the
    collection, the number and the order of its features, the features that
    are not retained, and the geometry and the other attributes of a
    retained feature are as before.  With [ALL] the collection is returned
    as it is.  The call returns on every collection of the data model, and
    the frame holds whenever it returns. *)
Theorem filter_frame (data : pyval) (country : Country) :
  (is_collection data = true ->
   exists data' out, _filter_by_country data country = Ok (data', out))
  /\ forall data' out : pyval,
       _filter_by_country data country = Ok (data', out) ->
       match COUNTRY_BOUNDS country with
       | None => data' = data /\ out = data
       | Some bounds =>
           (forall k, k <> "features" -> entry data' k = entry data k)
           /\ length (features_of data') = length (features_of data)
           /\ forall (i : nat) (f : pyval),
                features_of data !! i = Some f ->
                exists f',
                  features_of data' !! i = Some f'
                  /\ (inside bounds f = false -> f' = f)
                  /\ (inside bounds f = true ->
                        (forall k, k <> "properties" -> entry f' k = entry f k)
                        /\ (forall k, k <> "country" -> k <> "country_code" ->
                              property f' k = property f k)
                        /\ property f' "country" = Some (VStr (name bounds))
                        /\ property f' "country_code" = Some (VStr (code bounds)))
       end.
Proof.
  split.
  { intros Hc. destruct (COUNTRY_BOUNDS country) as [bounds|] eqn:Hb.
    - eexists _, _. apply (filter_by_country_known data country bounds Hb Hc).
    - destruct country; try discriminate. eexists _, _. reflexivity. }
  destruct (COUNTRY_BOUNDS country) as [bounds|] eqn:Hb; intros data' out H.
  2:{ destruct country; try discriminate. injection H as <- <-. auto. }
  apply (filter_by_country_sound _ _ _ _ bounds Hb) in H as (-> & _ & Hall).
  rewrite Forall_forall in Hall.
  unfold features_written, features_of in *.
  destruct data as [| | | | | |d];
    try (split; [intros; reflexivity|]; split; [reflexivity|];
         intros i x Hi; rewrite lookup_nil in Hi; discriminate).
  destruct (dict_get d "features") as [[| | | | |l|]|] eqn:Hfs;
    try (rewrite ?Hfs; split; [intros; reflexivity|]; split; [reflexivity|];
         intros i x Hi; rewrite lookup_nil in Hi; discriminate).
  cbn [entry]. rewrite dict_get_set_eq. split; [|split].
  - intros k Hk. apply dict_get_set_ne. congruence.
  - apply length_map.
  - intros i f Hi. rewrite list_lookup_fmap, Hi. cbn [fmap option_fmap option_map].
    eexists. split; [reflexivity|].
    split.
    + intros ->. reflexivity.
    + intros Hin. rewrite Hin.
      destruct (stamped_frame bounds f) as (H1 & H2 & H3 & H4); [|auto].
      apply Hall; [|assumption].
      eapply list_elem_of_lookup_2; eassumption.
Qed.

Lemma filter_frame_witness :
  exists data' out,
    _filter_by_country sample_collection UAE = Ok (data', out)
    /\ length (features_of data') = length (features_of sample_collection).
Proof.
  destruct (proj1 (filter_frame sample_collection UAE) eq_refl) as (data' & out & H).
  exists data', out. split; [assumption|].
  exact (proj1 (proj2 (proj2 (filter_frame sample_collection UAE) data' out H))).
Defined.

(** ** The time-boxed cache *)

Section CacheFacts.
Context (env : Env).

Lemma is_cache_valid_iff (s : Service) (key : string) :
  fst (_is_cache_valid env s key) = true <->
  exists entry,
    cache s !! key = Some entry
    /\ clock env (ticks s) - entry_timestamp entry < cache_duration.
Proof.
  unfold _is_cache_valid. destruct (cache s !! key) as [entry|]; cbn [fst datetime_now].
  - rewrite Z.ltb_lt. split.
    + intros H. exists entry. auto.
    + intros (entry' & Heq & H). congruence.
  - split; [discriminate|]. intros (entry & Heq & _). discriminate.
Qed.

Lemma is_cache_valid_cache (s : Service) (key : string) :
  cache (snd (_is_cache_valid env s key)) = cache s.
Proof.
  unfold _is_cache_valid. destruct (cache s !! key); reflexivity.
Qed.

Lemma is_cache_valid_hit (s : Service) (key : string) :
  fst (_is_cache_valid env s key) = true ->
  exists entry,
    cache s !! key = Some entry
    /\ cache_get (snd (_is_cache_valid env s key)) key = Ok (entry_data entry).
Proof.
  intros H. pose proof H as H'. apply is_cache_valid_iff in H' as (entry & Hentry & _).
  exists entry. split; [assumption|].
  unfold cache_get. rewrite is_cache_valid_cache, Hentry. reflexivity.
Qed.

Lemma get_earthquakes_hit (s : Service) (limit : Z) (min_magnitude : float)
    (country : Country) (entry : CacheEntry) :
  cache s !! earthquakes_key env limit min_magnitude country = Some entry ->
  clock env (ticks s) - entry_timestamp entry < cache_duration ->
  fst (get_earthquakes env s limit min_magnitude country) = Ok (entry_data entry).
Proof.
  intros Hentry Hage. unfold get_earthquakes.
  assert (Hv : fst (_is_cache_valid env s (earthquakes_key env limit min_magnitude country))
               = true) by (apply is_cache_valid_iff; eauto).
  destruct (is_cache_valid_hit _ _ Hv) as (entry' & Hentry' & Hget).
  destruct (_is_cache_valid env s _) as [valid s1]. cbn [fst snd] in Hv, Hget.
  rewrite Hv. cbn [fst]. congruence.
Qed.

(** C6. A value stored under a key is what the cache holds for the key and
    the check accepts it while less than five minutes have passed since its
    timestamp; the validity check holds exactly when the key has an entry
    whose age, the clock minus the entry's timestamp, is strictly less than
    five minutes; once five minutes or more have passed the check fails;
    and on a valid entry [get_earthquakes] returns the stored value. *)
Theorem cache_put_get_valid (s : Service) (key : string) :
  (forall (value : pyval) (t : time),
      clock env (ticks s) - t < 5 * 60 * 1000000 ->
      fst (_is_cache_valid env (cache_put s key value t) key) = true
      /\ cache_get (cache_put s key value t) key = Ok value)
  /\ (fst (_is_cache_valid env s key) = true <->
      exists entry,
        cache s !! key = Some entry
        /\ clock env (ticks s) - entry_timestamp entry < 5 * 60 * 1000000)
  /\ (forall (value : pyval) (t : time),
      5 * 60 * 1000000 <= clock env (ticks s) - t ->
      fst (_is_cache_valid env (cache_put s key value t) key) = false)
  /\ (forall (limit : Z) (min_magnitude : float) (country : Country) (entry : CacheEntry),
      cache s !! earthquakes_key env limit min_magnitude country = Some entry ->
      clock env (ticks s) - entry_timestamp entry < 5 * 60 * 1000000 ->
      fst (get_earthquakes env s limit min_magnitude country) = Ok (entry_data entry)).
Proof.
  change (5 * 60 * 1000000) with cache_duration.
  split; [|split; [|split]].
  - intros value t Hage. split.
    + apply is_cache_valid_iff. eexists. split.
      * cbn [cache cache_put]. apply lookup_insert_eq.
      * exact Hage.
    + unfold cache_get. cbn [cache cache_put]. rewrite lookup_insert_eq. reflexivity.
  - apply is_cache_valid_iff.
  - intros value t Hage.
    destruct (fst (_is_cache_valid env (cache_put s key value t) key)) eqn:Hv;
      [|reflexivity].
    apply is_cache_valid_iff in Hv as (entry & Hentry & Hlt).
    cbn [cache cache_put ticks] in Hentry, Hlt. rewrite lookup_insert_eq in Hentry.
    injection Hentry as <-. cbn [entry_timestamp] in Hlt. lia.
  - apply get_earthquakes_hit.
Qed.

End CacheFacts.

Lemma cache_put_get_valid_witness :
  fst (_is_cache_valid sample_env
         (cache_put new_service "wildfires_uae" empty_collection 0) "wildfires_uae") = true
  /\ cache_get (cache_put new_service "wildfires_uae" empty_collection 0) "wildfires_uae"
     = Ok empty_collection.
Proof.
  exact (proj1 (cache_put_get_valid sample_env new_service "wildfires_uae")
           empty_collection 0 eq_refl).
Defined.

(** Five minutes after the put the entry is not valid any more: at the
    sixth reading of a clock that advances by one minute. *)
Example cache_expires :
  fst (_is_cache_valid sample_env
         {| cache := <["wildfires_uae" :=
                        {| entry_data := empty_collection; entry_timestamp := 0 |}]> ∅;
            ticks := 4 |} "wildfires_uae") = true
  /\ fst (_is_cache_valid sample_env
            {| cache := <["wildfires_uae" :=
                           {| entry_data := empty_collection; entry_timestamp := 0 |}]> ∅;
               ticks := 5 |} "wildfires_uae") = false.
Proof. split; vm_compute; reflexivity. Qed.

(** ** The source fetchers *)

Section FetcherFacts.
Context (env : Env).

Lemma get_earthquakes_returns (s : Service) (limit : Z) (min_magnitude : float)
    (country : Country) :
  exists value, fst (get_earthquakes env s limit min_magnitude country) = Ok value.
Proof.
  unfold get_earthquakes.
  pose proof (is_cache_valid_hit env s (earthquakes_key env limit min_magnitude country))
    as Hhit.
  destruct (_is_cache_valid env s _) as [[] s1]; cbn [fst snd] in *.
  - destruct (Hhit eq_refl) as (entry & _ & ->). eauto.
  - destruct (http_get env s1 _) as [response s2].
    destruct (let* body := response in earthquake_pipeline env limit country body);
      cbn [fst]; eauto.
Qed.

(** C3. [get_earthquakes] never raises.  On a cache miss, when the HTTP
    request raises (a transport failure, a timeout, a non-success status, a
    body that is not JSON), or when the decoded body cannot be processed,
    it returns the empty collection, and the cache is left as it was. *)
Theorem get_earthquakes_fail_soft (s : Service) (limit : Z) (min_magnitude : float)
    (country : Country) :
  let key := earthquakes_key env limit min_magnitude country in
  let params := earthquake_params limit min_magnitude country in
  let request := ticks (snd (_is_cache_valid env s key)) in
  (exists value, fst (get_earthquakes env s limit min_magnitude country) = Ok value)
  /\ (fst (_is_cache_valid env s key) = false ->
      forall e : exn,
        usgs env request params = Raise e ->
        fst (get_earthquakes env s limit min_magnitude country) = Ok empty_collection
        /\ cache (snd (get_earthquakes env s limit min_magnitude country)) = cache s)
  /\ (fst (_is_cache_valid env s key) = false ->
      forall (body : pyval) (e : exn),
        usgs env request params = Ok body ->
        earthquake_pipeline env limit country body = Raise e ->
        fst (get_earthquakes env s limit min_magnitude country) = Ok empty_collection
        /\ cache (snd (get_earthquakes env s limit min_magnitude country)) = cache s).
Proof.
  intros key params request. split; [apply get_earthquakes_returns|].
  pose proof (is_cache_valid_cache env s key) as Hcache.
  subst request. unfold get_earthquakes. fold key. fold params.
  destruct (_is_cache_valid env s key) as [valid s1]. cbn [fst snd] in *.
  split; intros ->.
  - intros e He. unfold http_get. rewrite He. cbn [bind fst snd cache]. auto.
  - intros body e Hbody He. unfold http_get. rewrite Hbody. cbn [bind].
    rewrite He. cbn [fst snd cache]. auto.
Qed.

End FetcherFacts.

Lemma get_earthquakes_fail_soft_witness :
  fst (get_earthquakes offline_env new_service 50 2.5 UAE) = Ok empty_collection
  /\ cache (snd (get_earthquakes offline_env new_service 50 2.5 UAE)) = cache new_service.
Proof.
  exact (proj1 (proj2 (get_earthquakes_fail_soft offline_env new_service 50 2.5 UAE))
           eq_refl RequestError eq_refl).
Defined.

Lemma filter_static_returns (country : Country) :
  (exists data' out, _filter_by_country all_wildfires country = Ok (data', out))
  /\ (exists data' out, _filter_by_country all_alerts country = Ok (data', out))
  /\ (exists data' out, _filter_by_country all_centers country = Ok (data', out)).
Proof.
  destruct country; (split; [|split]); eexists _, _; vm_compute; reflexivity.
Qed.

Section CachedFetchers.
Context (env : Env).

(** The shape shared by [get_wildfires] and [get_weather_alerts]. *)
Lemma get_wildfires_cached (s : Service) (country : Country) :
  let key := wildfires_key country in
  let checked := _is_cache_valid env s key in
  (fst checked = true ->
   exists entry,
     cache s !! key = Some entry
     /\ get_wildfires env s country = (Ok (entry_data entry), snd checked))
  /\ (fst checked = false ->
      exists data' out,
        _filter_by_country all_wildfires country = Ok (data', out)
        /\ fst (get_wildfires env s country) = Ok out
        /\ cache (snd (get_wildfires env s country)) !! key
           = Some {| entry_data := out;
                     entry_timestamp := clock env (ticks (snd checked)) |}).
Proof.
  intros key checked. subst checked. unfold get_wildfires. fold key.
  pose proof (is_cache_valid_hit env s key) as Hhit.
  destruct (_is_cache_valid env s key) as [valid s1]. cbn [fst snd] in *.
  split; intros ->.
  - destruct (Hhit eq_refl) as (entry & Hentry & ->). eauto.
  - destruct (filter_static_returns country) as ((data' & out & Hf) & _).
    exists data', out. rewrite Hf. cbn [datetime_now fst snd cache cache_put ticks].
    rewrite lookup_insert_eq. auto.
Qed.

Lemma get_weather_alerts_cached (s : Service) (country : Country) :
  let key := weather_alerts_key country in
  let checked := _is_cache_valid env s key in
  (fst checked = true ->
   exists entry,
     cache s !! key = Some entry
     /\ get_weather_alerts env s country = (Ok (entry_data entry), snd checked))
  /\ (fst checked = false ->
      exists data' out,
        _filter_by_country all_alerts country = Ok (data', out)
        /\ fst (get_weather_alerts env s country) = Ok out
        /\ cache (snd (get_weather_alerts env s country)) !! key
           = Some {| entry_data := out;
                     entry_timestamp := clock env (ticks (snd checked)) |}).
Proof.
  intros key checked. subst checked. unfold get_weather_alerts. fold key.
  pose proof (is_cache_valid_hit env s key) as Hhit.
  destruct (_is_cache_valid env s key) as [valid s1]. cbn [fst snd] in *.
  split; intros ->.
  - destruct (Hhit eq_refl) as (entry & Hentry & ->). eauto.
  - destruct (filter_static_returns country) as (_ & (data' & out & Hf) & _).
    exists data', out. rewrite Hf. cbn [datetime_now fst snd cache cache_put ticks].
    rewrite lookup_insert_eq. auto.
Qed.

(** [get_earthquakes] stores what it fetched when the request and the
    processing succeed. *)
Lemma get_earthquakes_cached (s : Service) (limit : Z) (min_magnitude : float)
    (country : Country) :
  let key := earthquakes_key env limit min_magnitude country in
  let checked := _is_cache_valid env s key in
  (fst checked = true ->
   exists entry,
     cache s !! key = Some entry
     /\ get_earthquakes env s limit min_magnitude country
        = (Ok (entry_data entry), snd checked))
  /\ (fst checked = false ->
      forall body out,
        usgs env (ticks (snd checked)) (earthquake_params limit min_magnitude country)
          = Ok body ->
        earthquake_pipeline env limit country body = Ok out ->
        fst (get_earthquakes env s limit min_magnitude country) = Ok out
        /\ cache (snd (get_earthquakes env s limit min_magnitude country)) !! key
           = Some {| entry_data := out;
                     entry_timestamp := clock env (S (ticks (snd checked))) |}).
Proof.
  intros key checked. subst checked. unfold get_earthquakes. fold key.
  pose proof (is_cache_valid_hit env s key) as Hhit.
  destruct (_is_cache_valid env s key) as [valid s1]. cbn [fst snd] in *.
  split; intros ->.
  - destruct (Hhit eq_refl) as (entry & Hentry & ->). eauto.
  - intros body out Hbody Hout. unfold http_get. rewrite Hbody. cbn [bind].
    rewrite Hout. cbn [datetime_now fst snd cache cache_put ticks].
    rewrite lookup_insert_eq. auto.
Qed.

(** [get_relief_centers] neither reads nor writes the cache. *)
Lemma get_relief_centers_uncached (s : Service) (country : Country) :
  exists data' out,
    _filter_by_country all_centers country = Ok (data', out)
    /\ get_relief_centers s country = (Ok out, s).
Proof.
  destruct (filter_static_returns country) as (_ & _ & (data' & out & Hf)).
  exists data', out. unfold get_relief_centers. rewrite Hf. auto.
Qed.

End CachedFetchers.

(** C8, at the input that shows the defect: on a new service,
    [get_relief_centers] returns its collection and leaves the cache empty
    (nothing was looked up and nothing stored), whereas [get_wildfires],
    its sibling over static data, leaves an entry under its key. *)
Theorem relief_centers_not_cached :
  (exists out,
     get_relief_centers new_service UAE = (Ok out, new_service))
  /\ cache (snd (get_relief_centers new_service UAE)) = ∅
  /\ (exists entry,
        cache (snd (get_wildfires sample_env new_service UAE)) !! wildfires_key UAE
        = Some entry).
Proof.
  split; [|split].
  - destruct (get_relief_centers_uncached new_service UAE) as (? & out & _ & ->).
    eauto.
  - destruct (get_relief_centers_uncached new_service UAE) as (? & out & _ & ->).
    reflexivity.
  - destruct (get_wildfires_cached sample_env new_service UAE) as [_ H].
    destruct (H eq_refl) as (? & ? & _ & _ & ->). eauto.
Qed.

(** ** The aggregation route *)






(** ** The order on numbers *)

Lemma SFcompare_antisym (x y : spec_float) :
  SFcompare y x = option_map CompOpp (SFcompare x y).
Proof.
  destruct x as [sx|sx| |sx mx ex], y as [sy|sy| |sy my ey]; cbn [SFcompare option_map];
    try reflexivity;
    try (destruct sx; reflexivity); try (destruct sy; reflexivity);
    try (destruct sx, sy; reflexivity).
  change (Pos.compare_cont Eq my mx) with (Pos.compare my mx).
  change (Pos.compare_cont Eq mx my) with (Pos.compare mx my).
  rewrite (Z.compare_antisym ey ex), (Pos.compare_antisym my mx).
  destruct sx, sy, (ey ?= ex), (my ?= mx)%positive; reflexivity.
Qed.

Lemma num_leb_cmp (a b : num) : num_leb a b = is_le (num_cmp a b).
Proof.
  destruct a as [x|x], b as [y|y]; cbn [num_leb num_cmp]; try reflexivity.
  apply leb_spec.
Qed.


Lemma num_cmp_antisym (a b : num) : num_cmp b a = option_map CompOpp (num_cmp a b).
Proof.
  destruct a as [x|x], b as [y|y]; cbn [num_cmp].
  - rewrite Z.compare_antisym. reflexivity.
  - destruct (float_Z_compare y x) as [[]|]; reflexivity.
  - reflexivity.
  - apply SFcompare_antisym.
Qed.











(** ** The enrichment engine *)






Section EnrichmentFacts.
Context (env : Env).

Lemma process_feature_stores (fd p : dict) (severity color risk_level : string) :
  dict_get fd "properties" = Some (VDict p) ->
  classify_magnitude (magnitude_value p) = Ok (severity, color) ->
  _calculate_risk_level (magnitude_value p) (depth_value p) = Ok risk_level ->
  time_formats env p ->
  exists p',
    process_feature env (VDict fd) = Ok (VDict (dict_set fd "properties" (VDict p')))
    /\ dict_get p' "severity" = Some (VStr severity)
    /\ dict_get p' "color" = Some (VStr color)
    /\ dict_get p' "risk_level" = Some (VStr risk_level)
    /\ dict_get p' "mag" = dict_get p "mag".
Proof.
  intros Hp Hsev Hrisk Htime.
  unfold process_feature. cbn [py_getitem]. rewrite Hp. cbn [bind py_get].
  replace (match dict_get p "mag" with Some v => Ok v | None => Ok (VInt 0) end)
    with (Ok (magnitude_value p))
    by (unfold magnitude_value; destruct (dict_get p "mag"); reflexivity).
  cbn [bind]. rewrite Hsev. cbn [bind py_setitem py_get].
  rewrite !dict_get_set_ne by discriminate.
  replace (match dict_get p "depth" with Some v => Ok v | None => Ok (VInt 0) end)
    with (Ok (depth_value p))
    by (unfold depth_value; destruct (dict_get p "depth"); reflexivity).
  cbn [bind]. rewrite Hrisk. cbn [bind py_setitem py_get].
  rewrite !dict_get_set_ne by discriminate.
  unfold time_formats in Htime.
  set (p3 := dict_set (dict_set (dict_set p "severity" (VStr severity))
                         "color" (VStr color)) "risk_level" (VStr risk_level)).
  assert (Hlook3 : dict_get p3 "severity" = Some (VStr severity)
                   /\ dict_get p3 "color" = Some (VStr color)
                   /\ dict_get p3 "risk_level" = Some (VStr risk_level)
                   /\ dict_get p3 "mag" = dict_get p "mag").
  { subst p3. repeat split.
    - rewrite !dict_get_set_ne by discriminate. apply dict_get_set_eq.
    - rewrite dict_get_set_ne by discriminate. apply dict_get_set_eq.
    - apply dict_get_set_eq.
    - rewrite !dict_get_set_ne by discriminate. reflexivity. }
  destruct Hlook3 as (L1 & L2 & L3 & L4).
  assert (Hplain : exists p',
             Ok (write_back (VDict fd) "properties" (VDict p3))
             = Ok (VDict (dict_set fd "properties" (VDict p')))
             /\ dict_get p' "severity" = Some (VStr severity)
             /\ dict_get p' "color" = Some (VStr color)
             /\ dict_get p' "risk_level" = Some (VStr risk_level)
             /\ dict_get p' "mag" = dict_get p "mag").
  { exists p3. cbn [write_back]. rewrite Hp. auto. }
  destruct (dict_get p "time") as [t|] eqn:Ht; cbn [bind py_truthy]; [|exact Hplain].
  destruct (py_truthy t) eqn:Htruthy; [|exact Hplain].
  destruct (Htime eq_refl) as (str & Hstr).
  cbn [py_getitem]. 
  replace (dict_get p3 "time") with (Some t)
    by (subst p3; rewrite !dict_get_set_ne by discriminate; auto).
  cbn [bind]. rewrite Hstr. cbn [bind py_setitem write_back]. rewrite Hp.
  eexists. split; [reflexivity|].
  rewrite !(dict_get_set_ne _ "formatted_time") by discriminate. auto.
Qed.


End EnrichmentFacts.


(** The scenario of the specification: magnitude 6.2 at depth 50 is
    "Severe", and its risk score 6.2 is "High". *)
Example enrichment_scenario :
  process_feature sample_env (point_feature 55.0 24.0 [("mag", VFloat 6.2); ("depth", VInt 50)])
  = Ok (point_feature 55.0 24.0
          [("mag", VFloat 6.2); ("depth", VInt 50); ("severity", VStr "Severe");
           ("color", VStr "red"); ("risk_level", VStr "High")]).
Proof. vm_compute. reflexivity. Qed.

(** The thresholds are inclusive: magnitude 7.0 is "Extreme", and at depth
    70 the factor is already 0.8, so that magnitude 7.0 scores 5.6. *)
Example enrichment_boundaries :
  classify_magnitude (VFloat 7.0) = Ok ("Extreme", "darkred")
  /\ classify_magnitude (VInt 4) = Ok ("Moderate", "yellow")
  /\ _calculate_risk_level (VFloat 6.5) (VInt 69) = Ok "Critical"
  /\ _calculate_risk_level (VFloat 7.0) (VInt 70) = Ok "High"
  /\ _calculate_risk_level (VFloat 7.0) (VInt 300) = Ok "Medium".
Proof. repeat split; vm_compute; reflexivity. Qed.

(** The risk score is the rounded product: the magnitude just below 6.875
    at depth 100 scores exactly 5.5 and is "High". *)
Example risk_score_is_rounded :
  (6.874999999999999 <? 6.875)%float = true
  /\ (6.874999999999999 * 0.8)%float = 5.5%float
  /\ _calculate_risk_level (VFloat 6.874999999999999) (VInt 100) = Ok "High".
Proof. repeat split; vm_compute; reflexivity. Qed.

Section EnrichedCollection.
Context (env : Env).

Lemma process_loop_spec (features features' : list pyval) :
  Forall2 (fun f f' => process_feature env f = Ok f') features features' ->
  process_loop env features = Ok features'.
Proof.
  induction 1 as [|f f' fs fs' Hf _ IH]; [reflexivity|].
  cbn [process_loop]. rewrite Hf. cbn [bind]. rewrite IH. reflexivity.
Qed.

(** [_process_earthquake_data] enriches the features one by one, in place,
    and returns the collection. *)
Lemma process_earthquake_data_spec (data : pyval) (features features' : list pyval) :
  py_getitem data "features" = Ok (VList features) ->
  Forall2 (fun f f' => process_feature env f = Ok f') features features' ->
  _process_earthquake_data env data = Ok (features_written data features').
Proof.
  intros Hentry Hall. unfold _process_earthquake_data.
  rewrite Hentry. cbn [bind py_iter].
  rewrite (process_loop_spec _ _ Hall). reflexivity.
Qed.

End EnrichedCollection.

(** ** Statistics *)

Lemma magnitude_number_of (feature : pyval) (m : num) :
  magnitude_number feature = Some m ->
  exists v, magnitude_of feature = Ok v /\ as_num v = Some m.
Proof.
  unfold magnitude_number, magnitude_of.
  destruct feature as [| | | | | |fd]; try discriminate. cbn [entry py_getitem].
  destruct (dict_get fd "properties") as [[| | | | | |p]|]; try discriminate.
  intros Hm. exists (magnitude_value p). split; [|assumption].
  cbn [bind py_get]. unfold magnitude_value. destruct (dict_get p "mag"); reflexivity.
Qed.

Lemma severe_of_magnitudes (features : list pyval) (mags : list num) :
  magnitudes features = Some mags ->
  exists severe,
    filter_exc (fun f => let* mag := magnitude_of f in py_ge_num mag (NFloat 6.0)) features
    = Ok severe
    /\ length severe = count_severe mags.
Proof.
  revert mags. induction features as [|f rest IH]; intros mags Hmags.
  - injection Hmags as <-. exists []. auto.
  - cbn [magnitudes] in Hmags.
    destruct (magnitude_number f) as [m|] eqn:Hm; [|discriminate].
    destruct (magnitudes rest) as [ms|]; [|discriminate].
    injection Hmags as <-.
    destruct (IH ms eq_refl) as (severe & Hsevere & Hlen).
    destruct (magnitude_number_of f m Hm) as (v & Hv & Hnum).
    cbn [filter_exc]. rewrite Hv, Hsevere. cbn [bind]. unfold py_ge_num, num_le_py.
    rewrite Hnum. cbn [bind].
    eexists. split; [reflexivity|].
    unfold count_severe in *. cbn [List.filter].
    destruct (num_leb (NFloat 6.0) m); cbn [length]; lia.
Qed.

Lemma sum_of_magnitudes (values : list pyval) (mags : list num) (acc : num) :
  Forall2 (fun v m => as_num v = Some m) values mags ->
  sum_from acc values = num_sum_from acc mags.
Proof.
  intros H. revert acc. induction H as [|v m values mags Hv _ IH]; intros acc;
    [reflexivity|].
  cbn [sum_from num_sum_from]. rewrite Hv.
  destruct (num_add acc m); cbn [bind]; [apply IH|reflexivity].
Qed.

Lemma values_of_magnitudes (features : list pyval) (mags : list num) :
  magnitudes features = Some mags ->
  exists values,
    map_exc magnitude_of features = Ok values
    /\ Forall2 (fun v m => as_num v = Some m) values mags.
Proof.
  revert mags. induction features as [|f rest IH]; intros mags Hmags.
  - injection Hmags as <-. exists []. auto.
  - cbn [magnitudes] in Hmags.
    destruct (magnitude_number f) as [m|] eqn:Hm; [|discriminate].
    destruct (magnitudes rest) as [ms|]; [|discriminate].
    injection Hmags as <-.
    destruct (IH ms eq_refl) as (values & Hvalues & Hall).
    destruct (magnitude_number_of f m Hm) as (v & Hv & Hnum).
    cbn [map_exc]. rewrite Hv. cbn [bind]. rewrite Hvalues. cbn [bind].
    eexists. split; [reflexivity|]. constructor; assumption.
Qed.

Lemma entry_getitem (x v : pyval) (k : string) :
  entry x k = Some v -> py_getitem x k = Ok v.
Proof.
  destruct x; try discriminate. cbn [entry py_getitem]. intros ->. reflexivity.
Qed.

Lemma statistics_counts_spec (country : Country)
    (earthquakes wildfires weather_alerts : pyval)
    (quakes fires alerts : list pyval) (mags : list num) :
  entry earthquakes "features" = Some (VList quakes) ->
  entry wildfires "features" = Some (VList fires) ->
  entry weather_alerts "features" = Some (VList alerts) ->
  magnitudes quakes = Some mags ->
  statistics_counts country earthquakes wildfires weather_alerts =
    Ok [("country", VStr (Country_value country));
        ("country_name",
         VStr (match COUNTRY_BOUNDS country with
               | Some bounds => name bounds
               | None => "Global"
               end));
        ("total_earthquakes", VInt (Z.of_nat (length quakes)));
        ("severe_earthquakes", VInt (Z.of_nat (count_severe mags)));
        ("total_wildfires", VInt (Z.of_nat (length fires)));
        ("active_weather_alerts", VInt (Z.of_nat (length alerts)))].
Proof.
  intros He Hw Ha Hmags. unfold statistics_counts.
  rewrite (entry_getitem _ _ _ He), (entry_getitem _ _ _ Hw), (entry_getitem _ _ _ Ha).
  cbn [bind py_len py_iter].
  destruct (severe_of_magnitudes quakes mags Hmags) as (severe & Hsevere & Hlen).
  rewrite Hsevere. cbn [bind]. rewrite Hlen. reflexivity.
Qed.

Lemma average_magnitude_spec (earthquakes : pyval) (quakes : list pyval) (mags : list num) :
  entry earthquakes "features" = Some (VList quakes) ->
  magnitudes quakes = Some mags ->
  average_magnitude earthquakes = arithmetic_mean mags.
Proof.
  intros He Hmags. unfold average_magnitude.
  rewrite (entry_getitem _ _ _ He). cbn [bind py_iter].
  destruct (values_of_magnitudes quakes mags Hmags) as (values & -> & Hall).
  cbn [bind]. unfold arithmetic_mean, py_sum.
  rewrite (sum_of_magnitudes values mags (NInt 0) Hall).
  rewrite (Forall2_length _ _ _ Hall).
  destruct Hall; reflexivity.
Qed.

Section StatisticsFacts.
Context (env : Env).

Lemma get_wildfires_returns (s : Service) (country : Country) :
  exists value, fst (get_wildfires env s country) = Ok value.
Proof.
  destruct (get_wildfires_cached env s country) as [Hhit Hmiss].
  destruct (fst (_is_cache_valid env s (wildfires_key country))) eqn:Hv.
  - destruct (Hhit eq_refl) as (entry & _ & ->). eauto.
  - destruct (Hmiss eq_refl) as (data' & out & _ & -> & _). eauto.
Qed.

Lemma get_weather_alerts_returns (s : Service) (country : Country) :
  exists value, fst (get_weather_alerts env s country) = Ok value.
Proof.
  destruct (get_weather_alerts_cached env s country) as [Hhit Hmiss].
  destruct (fst (_is_cache_valid env s (weather_alerts_key country))) eqn:Hv.
  - destruct (Hhit eq_refl) as (entry & _ & ->). eauto.
  - destruct (Hmiss eq_refl) as (data' & out & _ & -> & _). eauto.
Qed.

(** C5. [get_disaster_statistics] fetches the three collections (none of
    the fetchers raises) and returns the number of seismic features, the
    number of them with a magnitude of at least 6.0, the number of
    wildfires, the number of weather alerts and the arithmetic mean of the
    magnitudes; the mean of no magnitudes is [0]; whenever a step of the
    computation raises, the result is the empty dictionary.  Over the
    magnitudes 5.0, 6.5 and 7.2 the severe count is 2 and the mean is
    6.2333.... *)
Theorem get_disaster_statistics_spec (s : Service) (country : Country) :
  let r1 := get_earthquakes env s 50 2.5 country in
  let r2 := get_wildfires env (snd r1) country in
  let r3 := get_weather_alerts env (snd r2) country in
  let result := fst (get_disaster_statistics env s country) in
  exists earthquakes wildfires weather_alerts : pyval,
    fst r1 = Ok earthquakes /\ fst r2 = Ok wildfires /\ fst r3 = Ok weather_alerts
    /\ (forall (quakes fires alerts : list pyval) (mags : list num) (mean : pyval),
          entry earthquakes "features" = Some (VList quakes) ->
          entry wildfires "features" = Some (VList fires) ->
          entry weather_alerts "features" = Some (VList alerts) ->
          magnitudes quakes = Some mags ->
          arithmetic_mean mags = Ok mean ->
          result =
            VDict [("country", VStr (Country_value country));
                   ("country_name",
                    VStr (match COUNTRY_BOUNDS country with
                          | Some bounds => name bounds
                          | None => "Global"
                          end));
                   ("total_earthquakes", VInt (Z.of_nat (length quakes)));
                   ("severe_earthquakes", VInt (Z.of_nat (count_severe mags)));
                   ("total_wildfires", VInt (Z.of_nat (length fires)));
                   ("active_weather_alerts", VInt (Z.of_nat (length alerts)));
                   ("last_updated", VStr (isoformat env (clock env (ticks (snd r3)))));
                   ("avg_earthquake_magnitude", mean)])
    /\ (forall e : exn,
          statistics_counts country earthquakes wildfires weather_alerts = Raise e
          \/ average_magnitude earthquakes = Raise e ->
          result = VDict [])
    /\ arithmetic_mean [] = Ok (VInt 0)
    /\ magnitudes three_quakes = Some [NFloat 5.0; NFloat 6.5; NFloat 7.2]
    /\ count_severe [NFloat 5.0; NFloat 6.5; NFloat 7.2] = 2%nat
    /\ exists mean : float,
         arithmetic_mean [NFloat 5.0; NFloat 6.5; NFloat 7.2] = Ok (VFloat mean)
         /\ (6.2333 <? mean)%float = true /\ (mean <? 6.2334)%float = true.
Proof.
  intros r1 r2 r3 result. subst result. unfold get_disaster_statistics.
  destruct (get_earthquakes_returns env s 50 2.5 country) as (earthquakes & He).
  fold r1 in He |- *. destruct r1 as [x1 s1]. cbn [fst snd] in *. subst x1.
  destruct (get_wildfires_returns s1 country) as (wildfires & Hw).
  fold r2 in Hw |- *. destruct r2 as [x2 s2]. cbn [fst snd] in *. subst x2.
  destruct (get_weather_alerts_returns s2 country) as (weather_alerts & Ha).
  fold r3 in Ha |- *. destruct r3 as [x3 s3]. cbn [fst snd] in *. subst x3.
  exists earthquakes, wildfires, weather_alerts.
  split; [reflexivity|]. split; [reflexivity|]. split; [reflexivity|].
  split; [|split].
  - intros quakes fires alerts mags mean Hq Hf Hal Hmags Hmean.
    rewrite (statistics_counts_spec country _ _ _ quakes fires alerts mags Hq Hf Hal Hmags).
    rewrite (average_magnitude_spec _ quakes mags Hq Hmags), Hmean.
    reflexivity.
  - intros e [Hc|Hm].
    + rewrite Hc. reflexivity.
    + destruct (statistics_counts country earthquakes wildfires weather_alerts);
        [|reflexivity].
      cbn [datetime_now]. rewrite Hm. reflexivity.
  - split; [reflexivity|]. split; [reflexivity|]. split; [reflexivity|].
    eexists. split; [vm_compute; reflexivity|]. split; reflexivity.
Qed.

End StatisticsFacts.

(** The scenario, end to end: over the magnitudes 5.0, 6.5 and 7.2, with
    the six wildfires and the four weather alerts of the static data. *)
Lemma get_disaster_statistics_spec_witness :
  fst (get_disaster_statistics three_quakes_env new_service ALL) =
    VDict [("country", VStr "all");
           ("country_name", VStr "Global");
           ("total_earthquakes", VInt 3);
           ("severe_earthquakes", VInt 2);
           ("total_wildfires", VInt 6);
           ("active_weather_alerts", VInt 4);
           ("last_updated", VStr "2024-01-01T00:00:00");
           ("avg_earthquake_magnitude", VFloat 6.2333333333333334)].
Proof.
  destruct (get_disaster_statistics_spec three_quakes_env new_service ALL)
    as (earthquakes & wildfires & weather_alerts & H1 & H2 & H3 & Hvalues & _).
  vm_compute in H1, H2, H3.
  injection H1 as <-. injection H2 as <-. injection H3 as <-.
  exact (Hvalues _ _ _ [NFloat 5.0; NFloat 6.5; NFloat 7.2]
           (VFloat 6.2333333333333334) eq_refl eq_refl eq_refl eq_refl eq_refl).
Defined.

(** ** Missing magnitudes *)

Lemma risk_level_of_zero (depth : pyval) (d : num) :
  as_num depth = Some d -> _calculate_risk_level (VInt 0) depth = Ok "Low".
Proof.
  intros Hd. unfold _calculate_risk_level, py_lt_num. rewrite Hd. cbn [bind].
  destruct (num_ltb d (NInt 70)); [reflexivity|].
  destruct (num_ltb d (NInt 300)); reflexivity.
Qed.

Lemma map_exc_swap {A B : Type} (g : A -> exc B) (a b : A) (before after : list A) :
  g a = g b ->
  map_exc g (before ++ a :: after) = map_exc g (before ++ b :: after).
Proof.
  intros Hg. induction before as [|x before IH]; cbn [app map_exc].
  - rewrite Hg. reflexivity.
  - rewrite IH. reflexivity.
Qed.

(** The outcome of a list computation up to the length of the list. *)
Lemma filter_exc_swap {A : Type} (test : A -> exc bool) (a b : A) (before after : list A) :
  test a = test b ->
  match filter_exc test (before ++ a :: after), filter_exc test (before ++ b :: after) with
  | Ok l, Ok l' => length l = length l'
  | Raise e, Raise e' => e = e'
  | _, _ => False
  end.
Proof.
  intros Ht. induction before as [|x before IH]; cbn [app filter_exc].
  - rewrite Ht. destruct (test b) as [keep|]; cbn [bind]; [|reflexivity].
    destruct (filter_exc test after); cbn [bind]; [|reflexivity].
    destruct keep; reflexivity.
  - destruct (test x) as [keep|]; cbn [bind]; [|reflexivity].
    destruct (filter_exc test (before ++ a :: after)),
             (filter_exc test (before ++ b :: after)); cbn [bind]; try assumption.
    destruct keep; cbn [length]; congruence.
Qed.

Lemma magnitudes_app_inv (before after : list pyval) (feature : pyval) (mags : list num) :
  magnitudes (before ++ feature :: after) = Some mags ->
  exists m ms1 ms2,
    mags = (ms1 ++ m :: ms2)%list
    /\ magnitudes before = Some ms1
    /\ magnitude_number feature = Some m
    /\ magnitudes after = Some ms2.
Proof.
  revert mags. induction before as [|x before IH]; intros mags; cbn [app magnitudes].
  - destruct (magnitude_number feature) as [m|]; [|discriminate].
    destruct (magnitudes after) as [ms|]; [|discriminate].
    intros H. injection H as <-. exists m, [], ms. auto.
  - destruct (magnitude_number x) as [mx|]; [|discriminate].
    destruct (magnitudes (before ++ feature :: after)) as [ms|]; [|discriminate].
    intros H. injection H as <-.
    destruct (IH ms eq_refl) as (m & ms1 & ms2 & -> & -> & Hm & Hafter).
    exists m, (mx :: ms1), ms2. auto.
Qed.

Lemma magnitudes_app (before after : list pyval) (feature : pyval) (m : num)
    (ms1 ms2 : list num) :
  magnitudes before = Some ms1 ->
  magnitude_number feature = Some m ->
  magnitudes after = Some ms2 ->
  magnitudes (before ++ feature :: after) = Some (ms1 ++ m :: ms2)%list.
Proof.
  intros H1 Hm H2. revert ms1 H1.
  induction before as [|x before IH]; intros ms1 H1; cbn [app magnitudes] in *.
  - injection H1 as <-. rewrite Hm, H2. reflexivity.
  - destruct (magnitude_number x) as [mx|]; [|discriminate].
    destruct (magnitudes before) as [ms|]; [|discriminate].
    injection H1 as <-. rewrite (IH ms eq_refl). reflexivity.
Qed.

Lemma magnitudes_length (features : list pyval) (mags : list num) :
  magnitudes features = Some mags -> length mags = length features.
Proof.
  revert mags. induction features as [|f rest IH]; intros mags H; cbn [magnitudes] in H.
  - injection H as <-. reflexivity.
  - destruct (magnitude_number f); [|discriminate].
    destruct (magnitudes rest) as [ms|]; [|discriminate].
    injection H as <-. cbn [length]. rewrite (IH ms eq_refl). reflexivity.
Qed.

(** A magnitude of [0] adds nothing to the number of severe events. *)
Lemma count_severe_zero (ms1 ms2 : list num) :
  count_severe (ms1 ++ NInt 0 :: ms2) = (count_severe ms1 + count_severe ms2)%nat.
Proof.
  unfold count_severe. rewrite List.filter_app, length_app. reflexivity.
Qed.

Section MissingMagnitude.
Context (env : Env).

(** The record [get_disaster_statistics] returns when its three fetchers
    have returned and the counts and the mean are computed. *)
Lemma get_disaster_statistics_record (s : Service) (country : Country)
    (earthquakes wildfires weather_alerts mean : pyval) (stats : dict) :
  let r1 := get_earthquakes env s 50 2.5 country in
  let r2 := get_wildfires env (snd r1) country in
  let r3 := get_weather_alerts env (snd r2) country in
  fst r1 = Ok earthquakes -> fst r2 = Ok wildfires -> fst r3 = Ok weather_alerts ->
  statistics_counts country earthquakes wildfires weather_alerts = Ok stats ->
  average_magnitude earthquakes = Ok mean ->
  fst (get_disaster_statistics env s country)
  = VDict (dict_set
             (dict_set stats "last_updated"
                (VStr (isoformat env (clock env (ticks (snd r3))))))
             "avg_earthquake_magnitude" mean).
Proof.
  intros r1 r2 r3 H1 H2 H3 Hstats Hmean. unfold get_disaster_statistics.
  fold r1. destruct r1 as [x1 s1]. cbn [fst snd] in *. subst x1.
  fold r2. destruct r2 as [x2 s2]. cbn [fst snd] in *. subst x2.
  fold r3. destruct r3 as [x3 s3]. cbn [fst snd] in *. subst x3.
  rewrite Hstats. cbn [datetime_now]. rewrite Hmean. reflexivity.
Qed.

(** C10. A seismic feature without a magnitude is treated as of magnitude
    0.  The enrichment gives it the severity "Light", the color "green" and
    the risk level "Low" (and adds no magnitude), as one feature and as an
    item of the collection [_process_earthquake_data] works on.  In the
    statistics its magnitude is read as [0] and it is not counted as
    severe; over a collection that holds it, the number of earthquakes
    counts it, the number of severe ones is that of the other features, and
    the mean is the sum of the magnitudes, with [0] at its place, divided
    by the number of all the features, itself included: this is what
    [statistics_counts] and [average_magnitude] compute and what
    [get_disaster_statistics] returns.  So an event of magnitude [x] and
    one without magnitude average to [x / 2], where the event alone
    averages to [x]: the missing magnitude lowers the mean.  The counts and
    the mean are also those of the collection in which the magnitude is
    spelled out as [0]. *)
Theorem missing_magnitude_counts_as_zero (fd p : dict) (d : num) :
  dict_get fd "properties" = Some (VDict p) ->
  dict_get p "mag" = None ->
  as_num (depth_value p) = Some d ->
  time_formats env p ->
  let feature := VDict fd in
  let zeroed := VDict (dict_set fd "properties" (VDict (dict_set p "mag" (VInt 0)))) in
  (exists p' : dict,
      process_feature env feature = Ok (VDict (dict_set fd "properties" (VDict p')))
      /\ dict_get p' "severity" = Some (VStr "Light")
      /\ dict_get p' "color" = Some (VStr "green")
      /\ dict_get p' "risk_level" = Some (VStr "Low")
      /\ dict_get p' "mag" = None
      /\ forall before after before' after' : list pyval,
           Forall2 (fun f f' => process_feature env f = Ok f') before before' ->
           Forall2 (fun f f' => process_feature env f = Ok f') after after' ->
           _process_earthquake_data env (collection_of (before ++ feature :: after))
           = Ok (collection_of
                   (before' ++ VDict (dict_set fd "properties" (VDict p')) :: after')))
  /\ magnitude_of feature = Ok (VInt 0)
  /\ (let* mag := magnitude_of feature in py_ge_num mag (NFloat 6.0)) = Ok false
  /\ (forall (before after : list pyval) (mags : list num),
        magnitudes (before ++ feature :: after) = Some mags ->
        exists ms1 ms2 : list num,
          mags = (ms1 ++ NInt 0 :: ms2)%list
          /\ magnitudes before = Some ms1 /\ magnitudes after = Some ms2)
  /\ (forall (country : Country) (before after : list pyval)
             (wildfires weather_alerts : pyval),
        statistics_counts country (collection_of (before ++ feature :: after))
          wildfires weather_alerts
        = statistics_counts country (collection_of (before ++ zeroed :: after))
            wildfires weather_alerts
        /\ average_magnitude (collection_of (before ++ feature :: after))
           = average_magnitude (collection_of (before ++ zeroed :: after)))
  /\ (forall (country : Country) (earthquakes wildfires weather_alerts : pyval)
             (before after fires alerts : list pyval) (ms1 ms2 : list num),
        entry earthquakes "features" = Some (VList (before ++ feature :: after)) ->
        entry wildfires "features" = Some (VList fires) ->
        entry weather_alerts "features" = Some (VList alerts) ->
        magnitudes before = Some ms1 ->
        magnitudes after = Some ms2 ->
        let total_earthquakes := Z.of_nat (length before + 1 + length after) in
        let severe_earthquakes := Z.of_nat (count_severe ms1 + count_severe ms2) in
        let mean :=
          let* total := num_sum_from (NInt 0) (ms1 ++ NInt 0 :: ms2) in
          let* mean := num_truediv_int total total_earthquakes in
          Ok (VFloat mean) in
        statistics_counts country earthquakes wildfires weather_alerts
        = Ok [("country", VStr (Country_value country));
              ("country_name",
               VStr (match COUNTRY_BOUNDS country with
                     | Some bounds => name bounds
                     | None => "Global"
                     end));
              ("total_earthquakes", VInt total_earthquakes);
              ("severe_earthquakes", VInt severe_earthquakes);
              ("total_wildfires", VInt (Z.of_nat (length fires)));
              ("active_weather_alerts", VInt (Z.of_nat (length alerts)))]
        /\ average_magnitude earthquakes = mean
        /\ forall (s : Service) (average : pyval),
             let r1 := get_earthquakes env s 50 2.5 country in
             let r2 := get_wildfires env (snd r1) country in
             let r3 := get_weather_alerts env (snd r2) country in
             fst r1 = Ok earthquakes ->
             fst r2 = Ok wildfires ->
             fst r3 = Ok weather_alerts ->
             mean = Ok average ->
             fst (get_disaster_statistics env s country)
             = VDict [("country", VStr (Country_value country));
                      ("country_name",
                       VStr (match COUNTRY_BOUNDS country with
                             | Some bounds => name bounds
                             | None => "Global"
                             end));
                      ("total_earthquakes", VInt total_earthquakes);
                      ("severe_earthquakes", VInt severe_earthquakes);
                      ("total_wildfires", VInt (Z.of_nat (length fires)));
                      ("active_weather_alerts", VInt (Z.of_nat (length alerts)));
                      ("last_updated",
                       VStr (isoformat env (clock env (ticks (snd r3)))));
                      ("avg_earthquake_magnitude", average)])
  /\ (forall x : float,
        average_magnitude (collection_of [quake [("mag", VFloat x)]; feature])
        = Ok (VFloat ((0 + x + 0) / 2))
        /\ average_magnitude (collection_of [quake [("mag", VFloat x)]])
           = Ok (VFloat ((0 + x) / 1))).
Proof.
  intros Hp Hmag Hd Htime feature zeroed.
  assert (Hvalue : magnitude_value p = VInt 0) by (unfold magnitude_value; rewrite Hmag; reflexivity).
  assert (Hof : magnitude_of feature = Ok (VInt 0)).
  { unfold magnitude_of, feature. cbn [py_getitem]. rewrite Hp. cbn [bind py_get].
    rewrite Hmag. reflexivity. }
  assert (Hzeroed : magnitude_of zeroed = Ok (VInt 0)).
  { unfold magnitude_of, zeroed. cbn [py_getitem]. rewrite dict_get_set_eq.
    cbn [bind py_get]. rewrite dict_get_set_eq. reflexivity. }
  assert (Hnumber : magnitude_number feature = Some (NInt 0)).
  { unfold magnitude_number, feature. cbn [entry]. rewrite Hp, Hvalue. reflexivity. }
  split; [|split; [|split; [|split; [|split; [|split]]]]].
  - destruct (process_feature_stores env fd p "Light" "green" "Low" Hp) as (p' & H & L1 & L2 & L3 & L4).
    + rewrite Hvalue. reflexivity.
    + rewrite Hvalue. apply (risk_level_of_zero _ d Hd).
    + exact Htime.
    + exists p'. rewrite L4. repeat (split; [assumption|]).
      intros before after before' after' Hbefore Hafter.
      apply (process_earthquake_data_spec env
               (collection_of (before ++ feature :: after))
               (before ++ feature :: after)
               (before' ++ VDict (dict_set fd "properties" (VDict p')) :: after')
               eq_refl).
      apply Forall2_app; [exact Hbefore|]. constructor; [exact H|exact Hafter].
  - exact Hof.
  - rewrite Hof. reflexivity.
  - intros before after mags Hmags.
    destruct (magnitudes_app_inv before after feature mags Hmags)
      as (m & ms1 & ms2 & -> & H1 & Hm & H2).
    rewrite Hnumber in Hm. injection Hm as <-. eauto.
  - intros country before after wildfires weather_alerts. split.
    + unfold statistics_counts, collection_of.
      cbn [py_getitem dict_get String.eqb Ascii.eqb Bool.eqb bind py_len py_iter].
      rewrite !length_app. cbn [length].
      pose proof (filter_exc_swap
                    (fun f => let* mag := magnitude_of f in py_ge_num mag (NFloat 6.0))
                    feature zeroed before after) as Hswap.
      cbn beta in Hswap. rewrite Hof, Hzeroed in Hswap. specialize (Hswap eq_refl).
      destruct (filter_exc _ (before ++ feature :: after)),
               (filter_exc _ (before ++ zeroed :: after));
        cbn [bind]; try contradiction; [rewrite Hswap|rewrite Hswap]; reflexivity.
    + unfold average_magnitude, collection_of.
      cbn [py_getitem dict_get String.eqb Ascii.eqb Bool.eqb bind py_iter].
      rewrite (map_exc_swap magnitude_of feature zeroed before after) by congruence.
      reflexivity.
  - intros country earthquakes wildfires weather_alerts before after fires alerts ms1 ms2
      He Hw Ha H1 H2.
    pose proof (magnitudes_app before after feature (NInt 0) ms1 ms2 H1 Hnumber H2) as Hmags.
    pose proof (statistics_counts_spec country _ _ _ _ fires alerts _ He Hw Ha Hmags)
      as Hcounts.
    pose proof (average_magnitude_spec _ _ _ He Hmags) as Hmean.
    rewrite count_severe_zero, length_app in Hcounts. cbn [length] in Hcounts.
    replace (length before + S (length after))%nat
      with (length before + 1 + length after)%nat in Hcounts by lia.
    assert (Hmean' : average_magnitude earthquakes
                     = (let* total := num_sum_from (NInt 0) (ms1 ++ NInt 0 :: ms2) in
                        let* mean :=
                          num_truediv_int total
                            (Z.of_nat (length before + 1 + length after)) in
                        Ok (VFloat mean))).
    { rewrite Hmean. unfold arithmetic_mean.
      replace (length before + 1 + length after)%nat
        with (length (ms1 ++ NInt 0 :: ms2)).
      - destruct ms1; reflexivity.
      - rewrite length_app. cbn [length].
        rewrite (magnitudes_length _ _ H1), (magnitudes_length _ _ H2). lia. }
    cbn zeta. split; [exact Hcounts|]. split; [exact Hmean'|].
    intros s average H1' H2' H3' Haverage.
    rewrite (get_disaster_statistics_record s country earthquakes wildfires weather_alerts
               average _ H1' H2' H3' Hcounts)
      by (rewrite Hmean'; exact Haverage).
    reflexivity.
  - intros x.
    assert (Hquake : magnitude_of (quake [("mag", VFloat x)]) = Ok (VFloat x))
      by reflexivity.
    assert (H0 : Z_to_float 0 = Ok 0%float) by (vm_compute; reflexivity).
    assert (H1 : Z_to_float 1 = Ok 1%float) by (vm_compute; reflexivity).
    assert (H2 : Z_to_float 2 = Ok 2%float) by (vm_compute; reflexivity).
    unfold average_magnitude, collection_of.
    cbn [py_getitem dict_get String.eqb Ascii.eqb Bool.eqb bind py_iter map_exc].
    rewrite Hquake, Hof.
    cbn [bind py_sum sum_from as_num num_add length num_truediv_int Z.of_nat
         Pos.of_succ_nat Pos.succ Z.eqb].
    rewrite H0. cbn [bind sum_from as_num num_add num_truediv_int Z.eqb].
    change (Z.of_nat 2) with 2. change (Z.of_nat 1) with 1.
    split.
    + rewrite H0. cbn [bind num_truediv_int Z.eqb]. rewrite H2. reflexivity.
    + cbn [Z.eqb]. rewrite H1. reflexivity.
Qed.

End MissingMagnitude.

(** One event of magnitude 6.0 and one without magnitude: the feature
    without magnitude reads as [0]; the two average to 3.0, where the first
    alone averages to 6.0; and, the API answering with the two, the
    statistics count two earthquakes, one of them severe, with the mean
    3.0. *)
Lemma missing_magnitude_counts_as_zero_witness :
  magnitude_of (quake [("depth", VInt 10)]) = Ok (VInt 0)
  /\ average_magnitude (collection_of [quake [("mag", VFloat 6.0)]; quake [("depth", VInt 10)]])
     = average_magnitude
         (collection_of [quake [("mag", VFloat 6.0)];
                         quake [("depth", VInt 10); ("mag", VInt 0)]])
  /\ average_magnitude (collection_of [quake [("mag", VFloat 6.0)]; quake [("depth", VInt 10)]])
     = Ok (VFloat 3.0)
  /\ average_magnitude (collection_of [quake [("mag", VFloat 6.0)]]) = Ok (VFloat 6.0)
  /\ fst (get_disaster_statistics missing_magnitude_env new_service ALL)
     = VDict [("country", VStr "all");
              ("country_name", VStr "Global");
              ("total_earthquakes", VInt 2);
              ("severe_earthquakes", VInt 1);
              ("total_wildfires", VInt 6);
              ("active_weather_alerts", VInt 4);
              ("last_updated", VStr "2024-01-01T00:00:00");
              ("avg_earthquake_magnitude", VFloat 3.0)].
Proof.
  pose proof (missing_magnitude_counts_as_zero sample_env
                [("type", VStr "Feature");
                 ("geometry",
                  VDict [("type", VStr "Point");
                         ("coordinates", VList [VFloat 0; VFloat 0])]);
                 ("properties", VDict [("depth", VInt 10)])]
                [("depth", VInt 10)] (NInt 10) eq_refl eq_refl eq_refl I)
    as (_ & Hof & _ & _ & Hstats & _ & Hmean).
  split; [exact Hof|].
  split; [exact (proj2 (Hstats ALL [quake [("mag", VFloat 6.0)]] [] VNone VNone))|].
  split; [exact (proj1 (Hmean 6.0%float))|].
  split; [exact (proj2 (Hmean 6.0%float))|].
  pose proof (missing_magnitude_counts_as_zero missing_magnitude_env
                [("type", VStr "Feature");
                 ("geometry",
                  VDict [("type", VStr "Point");
                         ("coordinates", VList [VFloat 0; VFloat 0])]);
                 ("properties",
                  VDict [("depth", VInt 10); ("severity", VStr "Light");
                         ("color", VStr "green"); ("risk_level", VStr "Low")])]
                [("depth", VInt 10); ("severity", VStr "Light");
                 ("color", VStr "green"); ("risk_level", VStr "Low")]
                (NInt 10) eq_refl eq_refl eq_refl I)
    as (_ & _ & _ & _ & _ & Hrecord & _).
  destruct (Hrecord ALL
              (collection_of
                 [quake [("mag", VFloat 6.0); ("severity", VStr "Severe");
                         ("color", VStr "red"); ("risk_level", VStr "High")];
                  quake [("depth", VInt 10); ("severity", VStr "Light");
                         ("color", VStr "green"); ("risk_level", VStr "Low")]])
              all_wildfires all_alerts
              [quake [("mag", VFloat 6.0); ("severity", VStr "Severe");
                      ("color", VStr "red"); ("risk_level", VStr "High")]]
              [] (features_of all_wildfires) (features_of all_alerts)
              [NFloat 6.0] [] eq_refl eq_refl eq_refl eq_refl eq_refl)
    as (_ & _ & Hend).
  exact (Hend new_service (VFloat 3.0) eq_refl eq_refl eq_refl eq_refl).
Defined.

(** A magnitude that is present and null is another matter: comparing
    [None] with a float raises, in the enrichment and in the statistics. *)
Example null_magnitude_raises :
  process_feature sample_env (quake [("mag", VNone)]) = Raise TypeError
  /\ statistics_counts ALL (collection_of [quake [("mag", VNone)]])
       empty_collection empty_collection = Raise TypeError.
Proof. split; vm_compute; reflexivity. Qed.

(** A missing magnitude lowers the mean: 6.0 and a missing value average
    to 3.0. *)
Example mean_with_missing_magnitude :
  average_magnitude (collection_of [quake [("mag", VFloat 6.0)]; quake [("depth", VInt 10)]])
  = Ok (VFloat 3.0).
Proof. vm_compute. reflexivity. Qed.

(** * Further properties of the service and of the routes *)

(** ** Rectangles that do not meet *)

(** A number at or above a positive constant is not at or below a constant
    of a smaller binade. *)
Lemma num_leb_apart (c c' : float) (m m' : positive) (e e' : Z) (x : num) :
  Prim2SF c = S754_finite false m e ->
  Prim2SF c' = S754_finite false m' e' ->
  e < e' ->
  (m < 2 * m')%positive ->
  num_leb (NFloat c') x = true -> num_leb x (NFloat c) = false.
Proof.
  intros Hc Hc' He Hm. rewrite !num_leb_cmp, (num_cmp_antisym (NFloat c) x).
  destruct x as [n|f]; cbn [num_cmp].
  - unfold float_Z_compare. rewrite Hc, Hc'.
    assert (Hp : 2 <= 2 ^ (e' - e)).
    { change 2 with (2 ^ 1) at 1. apply Z.pow_le_mono_r; lia. }
    destruct (0 <=? e) eqn:E; destruct (0 <=? e') eqn:E'; cbn [is_le option_map];
      try (apply Z.leb_le in E); try (apply Z.leb_le in E');
      try (apply Z.leb_gt in E); try (apply Z.leb_gt in E').
    + pose proof (Z.pow_pos_nonneg 2 e ltac:(lia) E) as Hpe.
      assert (He' : 2 ^ e' = 2 ^ (e' - e) * 2 ^ e).
      { rewrite <- Z.pow_add_r by lia. f_equal. lia. }
      destruct (Z.compare_spec (Z.pos m' * 2 ^ e') n),
               (Z.compare_spec (Z.pos m * 2 ^ e) n);
        cbn [CompOpp is_le]; try reflexivity; try discriminate; nia.
    + lia.
    + pose proof (Z.pow_pos_nonneg 2 (- e) ltac:(lia) ltac:(lia)) as Hpe.
      pose proof (Z.pow_pos_nonneg 2 e' ltac:(lia) E') as Hpe'.
      assert (2 <= 2 ^ (- e)).
      { change 2 with (2 ^ 1) at 1. apply Z.pow_le_mono_r; lia. }
      destruct (Z.compare_spec (Z.pos m' * 2 ^ e') n),
               (Z.compare_spec (Z.pos m) (n * 2 ^ (- e)));
        cbn [CompOpp is_le]; try reflexivity; try discriminate; nia.
    + pose proof (Z.pow_pos_nonneg 2 (- e') ltac:(lia) ltac:(lia)) as Hpe'.
      assert (He' : 2 ^ (- e) = 2 ^ (e' - e) * 2 ^ (- e')).
      { rewrite <- Z.pow_add_r by lia. f_equal. lia. }
      destruct (Z.compare_spec (Z.pos m') (n * 2 ^ (- e'))),
               (Z.compare_spec (Z.pos m) (n * 2 ^ (- e)));
        cbn [CompOpp is_le]; try reflexivity; try discriminate; nia.
  - rewrite Hc, Hc'.
    destruct (Prim2SF f) as [s|s| |s m2 e2]; cbn [SFcompare option_map];
      try (destruct s); cbn [CompOpp is_le option_map]; try congruence.
    destruct (Z.compare_spec e' e2), (Z.compare_spec e e2);
      cbn [CompOpp is_le option_map]; try congruence; lia.
Qed.

(** No latitude is in the band of Canada (from 41 north) and in that of
    the Emirates (to 26.5 north). *)
Lemma latitudes_apart (y : num) :
  num_leb (NFloat 41.0) y = true -> num_leb y (NFloat 26.5) = false.
Proof.
  apply (num_leb_apart 26.5 41.0 _ _ _ _ y eq_refl eq_refl); vm_compute; reflexivity.
Qed.

Lemma rectangles_apart (country country' : Country) (bounds bounds' : CountryBounds)
    (x y : num) :
  COUNTRY_BOUNDS country = Some bounds ->
  COUNTRY_BOUNDS country' = Some bounds' ->
  in_rectangle bounds x y = true ->
  in_rectangle bounds' x y = true ->
  country = country'.
Proof.
  pose proof (latitudes_apart y) as Hy.
  unfold in_rectangle.
  destruct country, country'; cbn [COUNTRY_BOUNDS]; intros Hb Hb' H H';
    try reflexivity; try discriminate;
    injection Hb as <-; injection Hb' as <-;
    cbn [min_lat max_lat min_lon max_lon] in H, H';
    repeat match goal with
           | H : _ && _ = true |- _ => apply andb_true_iff in H as [? ?]
           end;
    rewrite Hy in * by assumption; discriminate.
Qed.

(** ** The country of a point *)

Lemma get_country_from_coordinates_unfold (lat lon : pyval) :
  _get_country_from_coordinates lat lon =
  let* in_uae := within_bounds uae_bounds lon lat in
  if in_uae then Ok (VStr "United Arab Emirates")
  else
    let* in_canada :=
      within_bounds
        {| name := "Canada"; code := "CA";
           min_lat := 41.0; max_lat := 84.0; min_lon := -141.0; max_lon := -52.0;
           center_lat := 60.0; center_lon := -95.0 |} lon lat in
    if in_canada then Ok (VStr "Canada") else Ok VNone.
Proof. reflexivity. Qed.

Lemma country_of_point (lat lon : pyval) (x y : num) (country : Country)
    (bounds : CountryBounds) :
  as_num lon = Some x -> as_num lat = Some y ->
  COUNTRY_BOUNDS country = Some bounds ->
  in_rectangle bounds x y = true ->
  _get_country_from_coordinates lat lon = Ok (VStr (name bounds)).
Proof.
  intros Hx Hy Hb Hin.
  rewrite get_country_from_coordinates_unfold.
  rewrite !(within_bounds_num _ lon lat x y Hx Hy). cbn [bind].
  pose proof (rectangles_apart UAE country _ bounds x y eq_refl Hb) as Huae.
  destruct country; cbn [COUNTRY_BOUNDS] in Hb; try discriminate; injection Hb as <-.
  - unfold in_rectangle in Hin. cbn [min_lat max_lat min_lon max_lon name uae_bounds] in *.
    rewrite Hin. reflexivity.
  - unfold in_rectangle in Hin, Huae.
    cbn [min_lat max_lat min_lon max_lon name uae_bounds] in *.
    rewrite Hin.
    destruct (num_leb (NFloat 22.5) y && num_leb y (NFloat 26.5)
              && (num_leb (NFloat 51) x && num_leb x (NFloat 56.5))).
    + specialize (Huae eq_refl Hin). discriminate.
    + reflexivity.
Qed.

(** X1.  For a point given by two numbers, [_get_country_from_coordinates]
    returns the name of the region whose rectangle holds the point (edges
    included) and [None] when no rectangle does; the rectangles do not
    meet, so at most one region qualifies and the order in which the
    regions are tried is of no effect. *)
Theorem get_country_from_coordinates_spec (lat lon : pyval) (x y : num) :
  as_num lon = Some x ->
  as_num lat = Some y ->
  (forall country bounds,
      COUNTRY_BOUNDS country = Some bounds ->
      in_rectangle bounds x y = true ->
      _get_country_from_coordinates lat lon = Ok (VStr (name bounds)))
  /\ ((forall country bounds,
         COUNTRY_BOUNDS country = Some bounds -> in_rectangle bounds x y = false) ->
      _get_country_from_coordinates lat lon = Ok VNone)
  /\ (forall country country' bounds bounds',
        COUNTRY_BOUNDS country = Some bounds ->
        COUNTRY_BOUNDS country' = Some bounds' ->
        in_rectangle bounds x y = true ->
        in_rectangle bounds' x y = true ->
        country = country').
Proof.
  intros Hx Hy. split; [|split].
  - intros country bounds. apply (country_of_point lat lon x y country bounds Hx Hy).
  - intros Hout.
    rewrite get_country_from_coordinates_unfold.
    rewrite !(within_bounds_num _ lon lat x y Hx Hy). cbn [bind].
    pose proof (Hout UAE _ eq_refl) as Hu. pose proof (Hout CANADA _ eq_refl) as Hc.
    unfold in_rectangle in Hu, Hc.
    cbn [min_lat max_lat min_lon max_lon uae_bounds] in *.
    rewrite Hu. cbn [bind]. rewrite Hc. reflexivity.
  - intros country country' bounds bounds'. apply rectangles_apart.
Qed.

(** Ottawa lies in Canada. *)
Lemma get_country_from_coordinates_spec_witness :
  _get_country_from_coordinates (VFloat 45.4215) (VFloat (-75.6972)) = Ok (VStr "Canada").
Proof.
  exact (proj1 (get_country_from_coordinates_spec
                  (VFloat 45.4215) (VFloat (-75.6972)) _ _ eq_refl eq_refl)
           CANADA _ eq_refl eq_refl).
Defined.

(** X2.  The latitude is compared first: when it is not a number the call
    raises [TypeError], whatever the longitude; when it is a number outside
    the latitudes of every region the longitude is not looked at and the
    result is [None]; when it is a number among the latitudes of a region
    and the longitude is not a number, the call raises [TypeError]. *)
Theorem get_country_from_coordinates_errors (lat lon : pyval) :
  (as_num lat = None -> _get_country_from_coordinates lat lon = Raise TypeError)
  /\ (forall y,
        as_num lat = Some y ->
        (forall country bounds,
            COUNTRY_BOUNDS country = Some bounds ->
            num_leb (NFloat (min_lat bounds)) y && num_leb y (NFloat (max_lat bounds))
            = false) ->
        _get_country_from_coordinates lat lon = Ok VNone)
  /\ (forall y country bounds,
        as_num lat = Some y ->
        COUNTRY_BOUNDS country = Some bounds ->
        num_leb (NFloat (min_lat bounds)) y && num_leb y (NFloat (max_lat bounds))
        = true ->
        as_num lon = None ->
        _get_country_from_coordinates lat lon = Raise TypeError).
Proof.
  rewrite get_country_from_coordinates_unfold.
  unfold within_bounds, num_le_py, py_le_num.
  cbn [min_lat max_lat min_lon max_lon uae_bounds].
  split; [|split].
  - intros ->. reflexivity.
  - intros y -> Hout. cbn [bind].
    pose proof (Hout UAE _ eq_refl) as Hu. pose proof (Hout CANADA _ eq_refl) as Hc.
    cbn [min_lat max_lat] in Hu, Hc.
    destruct (num_leb (NFloat 22.5) y); cbn [negb andb] in *.
    + rewrite Hu. cbn [negb bind].
      destruct (num_leb (NFloat 41) y); cbn [negb andb] in *; [|reflexivity].
      rewrite Hc. reflexivity.
    + destruct (num_leb (NFloat 41) y); cbn [negb andb] in *; [|reflexivity].
      rewrite Hc. reflexivity.
  - intros y country bounds -> Hb Hband ->. cbn [bind].
    pose proof (latitudes_apart y) as Hapart.
    destruct country; cbn [COUNTRY_BOUNDS] in Hb; try discriminate; injection Hb as <-;
      cbn [min_lat max_lat] in Hband; apply andb_true_iff in Hband as [H1 H2].
    + rewrite H1, H2. reflexivity.
    + rewrite H1, H2. rewrite (Hapart H1).
      destruct (num_leb (NFloat 22.5) y); reflexivity.
Qed.

(** A missing latitude, a latitude at the pole with a missing longitude,
    and a latitude of the Emirates with a missing longitude. *)
Lemma get_country_from_coordinates_errors_witness :
  _get_country_from_coordinates VNone (VFloat 54.0) = Raise TypeError
  /\ _get_country_from_coordinates (VInt 90) VNone = Ok VNone
  /\ _get_country_from_coordinates (VInt 24) VNone = Raise TypeError.
Proof.
  split; [|split].
  - exact (proj1 (get_country_from_coordinates_errors VNone (VFloat 54.0)) eq_refl).
  - apply (proj1 (proj2 (get_country_from_coordinates_errors (VInt 90) VNone))
             (NInt 90) eq_refl).
    intros [] bounds Hb; try discriminate; injection Hb as <-; reflexivity.
  - exact (proj2 (proj2 (get_country_from_coordinates_errors (VInt 24) VNone))
             (NInt 24) UAE _ eq_refl eq_refl eq_refl eq_refl).
Defined.

(** ** The filter and the regions *)

Lemma inside_point (bounds : CountryBounds) (feature : pyval) :
  inside bounds feature = true ->
  exists d g lon lat rest x y,
    feature = VDict d
    /\ dict_get d "geometry" = Some (VDict g)
    /\ dict_get g "coordinates" = Some (VList (lon :: lat :: rest))
    /\ as_num lon = Some x /\ as_num lat = Some y
    /\ in_rectangle bounds x y = true.
Proof.
  unfold inside, coordinates.
  destruct feature as [| | | | | |d]; try discriminate.
  destruct (dict_get d "geometry") as [[| | | | | |g]|] eqn:Hg; try discriminate.
  destruct (dict_get g "coordinates") as [[| | | | |l|]|] eqn:Hc; try discriminate.
  destruct l as [|lon [|lat rest]]; try discriminate.
  destruct (as_num lon) as [x|] eqn:Hx; try discriminate.
  destruct (as_num lat) as [y|] eqn:Hy; try discriminate.
  intros H. exists d, g, lon, lat, rest, x, y. auto 10.
Qed.

Lemma coordinates_stamped (bounds : CountryBounds) (feature : pyval) :
  coordinates (stamped bounds feature) = coordinates feature.
Proof.
  destruct feature as [| | | | | |d]; try reflexivity.
  unfold stamped.
  destruct (dict_get d "properties") as [[| | | | | |p]|]; try reflexivity.
  unfold coordinates. rewrite dict_get_set_ne by discriminate. reflexivity.
Qed.

Lemma inside_stamped (bounds bounds' : CountryBounds) (feature : pyval) :
  inside bounds' (stamped bounds feature) = inside bounds' feature.
Proof. unfold inside. rewrite coordinates_stamped. reflexivity. Qed.

Lemma retain_test_stamped_by (bounds bounds' : CountryBounds) (feature : pyval) :
  retain_test bounds' (stamped bounds feature) = retain_test bounds' feature.
Proof.
  destruct feature as [| | | | | |d]; try reflexivity.
  unfold stamped.
  destruct (dict_get d "properties") as [[| | | | | |p]|]; try reflexivity.
  unfold retain_test. cbn [py_get].
  rewrite dict_get_set_ne by discriminate. reflexivity.
Qed.

(** On a feature that lies in some rectangle the test of the loop returns,
    for every rectangle. *)
Lemma retain_test_inside (bounds bounds' : CountryBounds) (feature : pyval) :
  inside bounds feature = true ->
  retain_test bounds' feature = Ok (inside bounds' feature).
Proof.
  intros H.
  destruct (inside_point _ _ H) as (d & g & lon & lat & rest & x & y & -> & Hg & Hc & Hx & Hy & _).
  unfold retain_test, inside, coordinates. cbn [py_get]. rewrite Hg. cbn [bind py_get].
  rewrite Hc. cbn [bind py_len length py_index nth_error].
  rewrite Hx, Hy.
  replace (2 <=? Z.of_nat (S (S (length rest)))) with true by (symmetry; apply Z.leb_le; lia).
  apply (within_bounds_num bounds' lon lat x y Hx Hy).
Qed.

Lemma inside_exclusive (country country' : Country) (bounds bounds' : CountryBounds)
    (feature : pyval) :
  COUNTRY_BOUNDS country = Some bounds ->
  COUNTRY_BOUNDS country' = Some bounds' ->
  country <> country' ->
  inside bounds feature = true ->
  inside bounds' feature = false.
Proof.
  intros Hb Hb' Hne H.
  destruct (inside bounds' feature) eqn:H'; [|reflexivity].
  destruct (inside_point _ _ H) as (d & g & lon & lat & rest & x & y & -> & Hg & Hc & Hx & Hy & Hin).
  destruct (inside_point _ _ H') as (d' & g' & lon' & lat' & rest' & x' & y' & E & Hg' & Hc' & Hx' & Hy' & Hin').
  injection E as <-. rewrite Hg in Hg'. injection Hg' as <-.
  rewrite Hc in Hc'. injection Hc' as <- <- <-.
  rewrite Hx in Hx'. injection Hx' as <-. rewrite Hy in Hy'. injection Hy' as <-.
  destruct Hne. exact (rectangles_apart _ _ _ _ x y Hb Hb' Hin Hin').
Qed.

(** X3.  The filter and [_get_country_from_coordinates] agree: every
    feature [_filter_by_country] retains for a region has a point for which
    [_get_country_from_coordinates] returns the name of that region, the
    name the filter has put under ["country"]. *)
Theorem filter_agrees_with_country_of_point (data data' out : pyval) (country : Country)
    (bounds : CountryBounds) :
  COUNTRY_BOUNDS country = Some bounds ->
  _filter_by_country data country = Ok (data', out) ->
  Forall (fun feature =>
            exists lon lat rest,
              coordinates feature = lon :: lat :: rest
              /\ _get_country_from_coordinates lat lon = Ok (VStr (name bounds))
              /\ property feature "country" = Some (VStr (name bounds)))
         (features_of out).
Proof.
  intros Hb Hf.
  destruct (filter_by_country_sound _ _ _ _ _ Hb Hf) as (_ & -> & Hattr).
  change (features_of (filtered_collection bounds data))
    with (map (stamped bounds) (List.filter (inside bounds) (features_of data))).
  apply Forall_map. rewrite Forall_forall in Hattr |- *.
  intros f Hin. apply list_elem_of_In, filter_In in Hin as [Hin Hinside].
  specialize (Hattr f ltac:(apply list_elem_of_In; exact Hin) Hinside).
  destruct (inside_point _ _ Hinside)
    as (d & g & lon & lat & rest & x & y & -> & Hg & Hc & Hx & Hy & Hrect).
  exists lon, lat, rest. split; [|split].
  - rewrite coordinates_stamped. unfold coordinates. rewrite Hg, Hc. reflexivity.
  - exact (country_of_point lat lon x y country bounds Hx Hy Hb Hrect).
  - apply (stamped_frame bounds (VDict d) Hattr).
Qed.

Lemma filter_agrees_with_country_of_point_witness :
  Forall (fun feature =>
            exists lon lat rest,
              coordinates feature = lon :: lat :: rest
              /\ _get_country_from_coordinates lat lon = Ok (VStr "United Arab Emirates")
              /\ property feature "country" = Some (VStr "United Arab Emirates"))
         (features_of (filtered_collection uae_bounds sample_collection)).
Proof.
  exact (filter_agrees_with_country_of_point sample_collection _ _ UAE uae_bounds
           eq_refl eq_refl).
Defined.

Lemma filter_loop_none (bounds : CountryBounds) (features : list pyval) :
  Forall (fun f => retain_test bounds f = Ok false) features ->
  filter_loop bounds features = Ok (features, []).
Proof.
  induction 1 as [|f rest Hf _ IH]; [reflexivity|].
  cbn [filter_loop]. rewrite filter_step_test, Hf. cbn [bind]. rewrite IH. reflexivity.
Qed.

(** X4.  The regions exclude each other: a collection filtered for one
    region, filtered again for another region, comes back empty, with a
    count of 0, and is not changed by the second call. *)
Theorem regions_exclusive (data data' out : pyval) (country country' : Country)
    (bounds bounds' : CountryBounds) :
  COUNTRY_BOUNDS country = Some bounds ->
  COUNTRY_BOUNDS country' = Some bounds' ->
  country <> country' ->
  _filter_by_country data country = Ok (data', out) ->
  _filter_by_country out country' =
    Ok (out,
        VDict [("type", VStr "FeatureCollection");
               ("features", VList []);
               ("metadata",
                VDict [("country", VStr (name bounds'));
                       ("country_code", VStr (code bounds'));
                       ("total_filtered", VInt 0)])]).
Proof.
  intros Hb Hb' Hne Hf.
  destruct (filter_by_country_sound _ _ _ _ _ Hb Hf) as (_ & -> & _).
  unfold _filter_by_country. rewrite Hb'.
  replace (Country_eqb country' ALL) with false
    by (destruct country'; cbn in Hb' |- *; congruence).
  unfold filtered_collection at 1. cbn [py_get dict_get String.eqb Ascii.eqb Bool.eqb bind py_iter].
  rewrite filter_loop_none.
  - reflexivity.
  - apply Forall_map. rewrite Forall_forall. intros f Hin.
    apply list_elem_of_In, filter_In in Hin as [_ Hinside].
    rewrite retain_test_stamped_by, (retain_test_inside bounds bounds' f Hinside).
    f_equal. exact (inside_exclusive _ _ _ _ f Hb Hb' Hne Hinside).
Qed.

(** What is retained for the Emirates holds nothing for Canada. *)
Lemma regions_exclusive_witness :
  exists out,
    _filter_by_country sample_collection UAE
    = Ok (features_written sample_collection
            (map (fun f => if inside uae_bounds f then stamped uae_bounds f else f)
               (features_of sample_collection)), out)
    /\ _filter_by_country out CANADA =
       Ok (out,
           VDict [("type", VStr "FeatureCollection");
                  ("features", VList []);
                  ("metadata",
                   VDict [("country", VStr "Canada");
                          ("country_code", VStr "CA");
                          ("total_filtered", VInt 0)])]).
Proof.
  eexists. split; [reflexivity|].
  exact (regions_exclusive sample_collection _ _ UAE CANADA _ _ eq_refl eq_refl
           ltac:(discriminate) eq_refl).
Defined.

(** ** The enrichment, run again *)

Section EnrichmentAgain.
Context (env : Env).

(** What a turn of the loop of [_process_earthquake_data] that returns has
    done. *)
Lemma process_feature_Ok (feature feature' : pyval) :
  process_feature env feature = Ok feature' ->
  exists fd p p' severity color risk_level,
    feature = VDict fd
    /\ dict_get fd "properties" = Some (VDict p)
    /\ feature' = VDict (dict_set fd "properties" (VDict p'))
    /\ classify_magnitude (magnitude_value p) = Ok (severity, color)
    /\ _calculate_risk_level (magnitude_value p) (depth_value p) = Ok risk_level
    /\ match dict_get p "time" with
       | Some t =>
           if py_truthy t
           then exists s,
               strftime_ms env t = Ok s
               /\ p' = dict_set
                         (dict_set
                            (dict_set (dict_set p "severity" (VStr severity))
                               "color" (VStr color))
                            "risk_level" (VStr risk_level))
                         "formatted_time" (VStr s)
           else p' = dict_set (dict_set (dict_set p "severity" (VStr severity))
                                 "color" (VStr color))
                       "risk_level" (VStr risk_level)
       | None =>
           p' = dict_set (dict_set (dict_set p "severity" (VStr severity))
                            "color" (VStr color))
                  "risk_level" (VStr risk_level)
       end.
Proof.
  unfold process_feature. intros H.
  destruct feature as [| | | | | |fd]; try discriminate.
  cbn [py_getitem] in H.
  destruct (dict_get fd "properties") as [props|] eqn:Hp; try discriminate.
  cbn [bind] in H.
  destruct props as [| | | | | |p]; try discriminate.
  cbn [py_get] in H.
  replace (match dict_get p "mag" with Some v => Ok v | None => Ok (VInt 0) end)
    with (@Ok pyval (magnitude_value p)) in H
    by (unfold magnitude_value; destruct (dict_get p "mag"); reflexivity).
  cbn [bind] in H.
  destruct (classify_magnitude (magnitude_value p)) as [[severity color]|] eqn:Hc;
    try discriminate.
  cbn [bind py_setitem py_get] in H.
  rewrite !dict_get_set_ne in H by discriminate.
  replace (match dict_get p "depth" with Some v => Ok v | None => Ok (VInt 0) end)
    with (@Ok pyval (depth_value p)) in H
    by (unfold depth_value; destruct (dict_get p "depth"); reflexivity).
  cbn [bind] in H.
  destruct (_calculate_risk_level (magnitude_value p) (depth_value p)) as [risk_level|] eqn:Hr;
    try discriminate.
  cbn [bind py_setitem py_get] in H.
  rewrite !dict_get_set_ne in H by discriminate.
  exists fd, p.
  destruct (dict_get p "time") as [t|] eqn:Ht; cbn [bind py_truthy] in H.
  - destruct (py_truthy t) eqn:Htruthy.
    + cbn [py_getitem] in H. rewrite !dict_get_set_ne in H by discriminate.
      rewrite Ht in H. cbn [bind] in H.
      destruct (strftime_ms env t) as [s|] eqn:Hs; try discriminate.
      cbn [bind py_setitem write_back] in H. rewrite Hp in H. injection H as <-.
      eexists _, severity, color, risk_level.
      split; [reflexivity|]. split; [exact Hp|]. split; [reflexivity|].
      split; [exact Hc|]. split; [exact Hr|]. exists s. split; reflexivity.
    + cbn [bind write_back] in H. rewrite Hp in H. injection H as <-.
      eexists _, severity, color, risk_level.
      split; [reflexivity|]. split; [exact Hp|]. split; [reflexivity|].
      split; [exact Hc|]. split; [exact Hr|]. reflexivity.
  - cbn [bind write_back] in H. rewrite Hp in H. injection H as <-.
    eexists _, severity, color, risk_level.
    split; [reflexivity|]. split; [exact Hp|]. split; [reflexivity|].
    split; [exact Hc|]. split; [exact Hr|]. reflexivity.
Qed.

(** The turn on a dictionary of attributes that holds its own
    classification already. *)
Lemma process_feature_settled (fd p : dict) (severity color risk_level : string) :
  dict_get fd "properties" = Some (VDict p) ->
  classify_magnitude (magnitude_value p) = Ok (severity, color) ->
  _calculate_risk_level (magnitude_value p) (depth_value p) = Ok risk_level ->
  dict_get p "severity" = Some (VStr severity) ->
  dict_get p "color" = Some (VStr color) ->
  dict_get p "risk_level" = Some (VStr risk_level) ->
  match dict_get p "time" with
  | Some t =>
      py_truthy t = true ->
      exists s, strftime_ms env t = Ok s /\ dict_get p "formatted_time" = Some (VStr s)
  | None => True
  end ->
  process_feature env (VDict fd) = Ok (VDict fd).
Proof.
  intros Hp Hc Hr Hseverity Hcolor Hrisk Htime.
  unfold process_feature. cbn [py_getitem]. rewrite Hp. cbn [bind py_get].
  replace (match dict_get p "mag" with Some v => Ok v | None => Ok (VInt 0) end)
    with (@Ok pyval (magnitude_value p))
    by (unfold magnitude_value; destruct (dict_get p "mag"); reflexivity).
  cbn [bind]. rewrite Hc. cbn [bind py_setitem py_get].
  rewrite (dict_set_same p "severity" _ Hseverity), (dict_set_same p "color" _ Hcolor).
  replace (match dict_get p "depth" with Some v => Ok v | None => Ok (VInt 0) end)
    with (@Ok pyval (depth_value p))
    by (unfold depth_value; destruct (dict_get p "depth"); reflexivity).
  cbn [bind]. rewrite Hr. cbn [bind py_setitem py_get].
  rewrite (dict_set_same p "risk_level" _ Hrisk).
  assert (Hback : write_back (VDict fd) "properties" (VDict p) = VDict fd).
  { cbn [write_back]. rewrite Hp, (dict_set_same fd "properties" _ Hp). reflexivity. }
  destruct (dict_get p "time") as [t|] eqn:Ht; cbn [bind py_truthy].
  - destruct (py_truthy t) eqn:Htruthy.
    + destruct (Htime eq_refl) as (s & Hs & Hformatted).
      cbn [py_getitem]. rewrite Ht. cbn [bind]. rewrite Hs. cbn [bind py_setitem].
      rewrite (dict_set_same p "formatted_time" _ Hformatted). cbn [bind].
      rewrite Hback. reflexivity.
    + cbn [bind]. rewrite Hback. reflexivity.
  - cbn [bind]. rewrite Hback. reflexivity.
Qed.

Lemma process_feature_fixed (feature feature' : pyval) :
  process_feature env feature = Ok feature' ->
  process_feature env feature' = Ok feature'.
Proof.
  intros H.
  destruct (process_feature_Ok _ _ H)
    as (fd & p & p' & severity & color & risk_level & -> & Hp & -> & Hc & Hr & Hp').
  assert (Hkeep : forall k,
             k <> "severity" -> k <> "color" -> k <> "risk_level" ->
             k <> "formatted_time" -> dict_get p' k = dict_get p k).
  { intros k H1 H2 H3 H4.
    destruct (dict_get p "time") as [t|]; [destruct (py_truthy t)|];
      [destruct Hp' as (s & _ & ->)|subst p'|subst p'];
      rewrite !dict_get_set_ne by congruence; reflexivity. }
  assert (Hmag : magnitude_value p' = magnitude_value p).
  { unfold magnitude_value. rewrite Hkeep by discriminate. reflexivity. }
  assert (Hdepth : depth_value p' = depth_value p).
  { unfold depth_value. rewrite Hkeep by discriminate. reflexivity. }
  apply (process_feature_settled _ p' severity color risk_level).
  - apply dict_get_set_eq.
  - rewrite Hmag. exact Hc.
  - rewrite Hmag, Hdepth. exact Hr.
  - destruct (dict_get p "time") as [t|]; [destruct (py_truthy t)|];
      [destruct Hp' as (s & _ & ->)|subst p'|subst p'];
      rewrite ?dict_get_set_ne by discriminate; apply dict_get_set_eq.
  - destruct (dict_get p "time") as [t|]; [destruct (py_truthy t)|];
      [destruct Hp' as (s & _ & ->)|subst p'|subst p'];
      rewrite ?dict_get_set_ne by discriminate; apply dict_get_set_eq.
  - destruct (dict_get p "time") as [t|]; [destruct (py_truthy t)|];
      [destruct Hp' as (s & _ & ->)|subst p'|subst p'];
      rewrite ?dict_get_set_ne by discriminate; apply dict_get_set_eq.
  - rewrite Hkeep by discriminate.
    destruct (dict_get p "time") as [t|]; [|exact I].
    intros Htruthy. rewrite Htruthy in Hp'. destruct Hp' as (s & Hs & ->).
    exists s. split; [exact Hs|]. apply dict_get_set_eq.
Qed.

Lemma process_loop_Ok (features features' : list pyval) :
  process_loop env features = Ok features' ->
  Forall2 (fun f f' => process_feature env f = Ok f') features features'.
Proof.
  revert features'. induction features as [|f rest IH]; intros features' H.
  - injection H as <-. constructor.
  - cbn [process_loop] in H.
    apply bind_Ok in H as (f' & Hf & H). apply bind_Ok in H as (rest' & Hrest & H).
    injection H as <-. constructor; auto.
Qed.

Lemma process_loop_fixed (features features' : list pyval) :
  process_loop env features = Ok features' ->
  process_loop env features' = Ok features'.
Proof.
  intros H. apply process_loop_Ok in H.
  induction H as [|f f' rest rest' Hf _ IH]; [reflexivity|].
  cbn [process_loop]. rewrite (process_feature_fixed _ _ Hf). cbn [bind].
  rewrite IH. reflexivity.
Qed.

(** What a call of [_process_earthquake_data] that returns has done: the
    value under ["features"] is a list whose items were enriched one by
    one, or it is a string or a dictionary with nothing in it. *)
Lemma process_earthquake_data_Ok (data data' : pyval) :
  _process_earthquake_data env data = Ok data' ->
  exists d features,
    data = VDict d
    /\ dict_get d "features" = Some features
    /\ ((exists items items',
           features = VList items
           /\ Forall2 (fun f f' => process_feature env f = Ok f') items items'
           /\ data' = VDict (dict_set d "features" (VList items')))
        \/ ((features = VStr "" \/ features = VDict []) /\ data' = data)).
Proof.
  unfold _process_earthquake_data. intros H.
  destruct data as [| | | | | |d]; try discriminate.
  cbn [py_getitem] in H.
  destruct (dict_get d "features") as [features|] eqn:Hf; try discriminate.
  cbn [bind] in H. exists d, features. split; [reflexivity|]. split; [exact Hf|].
  destruct features as [| | | |s|items|fs]; try discriminate; cbn [py_iter bind] in H.
  - right. destruct s as [|c s]; [|discriminate].
    cbn in H. rewrite Hf in H. injection H as <-. auto.
  - left. apply bind_Ok in H as (items' & Hloop & H).
    cbn [features_written] in H. rewrite Hf in H. injection H as <-.
    exists items, items'. split; [reflexivity|]. split; [|reflexivity].
    apply process_loop_Ok, Hloop.
  - right. destruct fs as [|[k v] fs]; [|discriminate].
    cbn in H. rewrite Hf in H. injection H as <-. auto.
Qed.

(** X5.  The enrichment is idempotent: when [_process_earthquake_data]
    returns, running it on what it returned returns the same value, with no
    attribute changed. *)
Theorem process_earthquake_data_idempotent (data data' : pyval) :
  _process_earthquake_data env data = Ok data' ->
  _process_earthquake_data env data' = Ok data'.
Proof.
  intros H.
  destruct (process_earthquake_data_Ok _ _ H)
    as (d & features & -> & Hf &
        [(items & items' & -> & Hitems & ->)|(_ & ->)]); [|exact H].
  unfold _process_earthquake_data. cbn [py_getitem]. rewrite dict_get_set_eq.
  cbn [bind py_iter].
  rewrite (process_loop_fixed items items') by (apply process_loop_spec, Hitems).
  cbn [bind features_written]. rewrite dict_get_set_eq, dict_set_set. reflexivity.
Qed.

(** X6.  The enrichment changes nothing but four attributes: when
    [_process_earthquake_data] returns, the entries of the collection other
    than ["features"] are as before, the features are as many as before and
    in the same order, and each feature has its entries other than
    ["properties"] and its attributes other than ["severity"], ["color"],
    ["risk_level"] and ["formatted_time"] as before. *)
Theorem process_earthquake_data_frame (data data' : pyval) :
  _process_earthquake_data env data = Ok data' ->
  (forall k, k <> "features" -> entry data' k = entry data k)
  /\ Forall2 (fun f f' =>
                (forall k, k <> "properties" -> entry f' k = entry f k)
                /\ (forall k,
                      k <> "severity" -> k <> "color" -> k <> "risk_level" ->
                      k <> "formatted_time" ->
                      property f' k = property f k))
       (features_of data) (features_of data').
Proof.
  intros H.
  destruct (process_earthquake_data_Ok _ _ H)
    as (d & features & -> & Hf &
        [(items & items' & -> & Hitems & ->)|([-> | ->] & ->)]).
  - split.
    + intros k Hk. cbn [entry]. apply dict_get_set_ne. congruence.
    + unfold features_of. rewrite dict_get_set_eq, Hf.
      eapply Forall2_impl; [exact Hitems|].
      intros f f' Hstep.
      destruct (process_feature_Ok _ _ Hstep)
        as (fd & p & p' & severity & color & risk_level & -> & Hp & -> & _ & _ & Hp').
      split.
      * intros k Hk. cbn [entry]. apply dict_get_set_ne. congruence.
      * intros k H1 H2 H3 H4. unfold property. cbn [entry].
        rewrite dict_get_set_eq, Hp. cbn [entry].
        destruct (dict_get p "time") as [t|]; [destruct (py_truthy t)|];
          [destruct Hp' as (s & _ & ->)|subst p'|subst p'];
          rewrite !dict_get_set_ne by congruence; reflexivity.
  - split; [reflexivity|]. unfold features_of. rewrite Hf. constructor.
  - split; [reflexivity|]. unfold features_of. rewrite Hf. constructor.
Qed.

End EnrichmentAgain.

(** A seismic event with a time, enriched once and again. *)
Lemma process_earthquake_data_idempotent_witness :
  exists data',
    _process_earthquake_data sample_env
      (collection_of [quake [("mag", VFloat 6.5); ("depth", VInt 10);
                             ("time", VInt 1700000000000)]]) = Ok data'
    /\ _process_earthquake_data sample_env data' = Ok data'.
Proof.
  eexists. split; [reflexivity|].
  apply (process_earthquake_data_idempotent sample_env
           (collection_of [quake [("mag", VFloat 6.5); ("depth", VInt 10);
                                  ("time", VInt 1700000000000)]])).
  reflexivity.
Defined.

Lemma process_earthquake_data_frame_witness :
  exists data',
    _process_earthquake_data sample_env sample_collection = Ok data'
    /\ entry data' "type" = Some (VStr "FeatureCollection")
    /\ length (features_of data') = 4%nat.
Proof.
  eexists. split; [reflexivity|].
  destruct (process_earthquake_data_frame sample_env sample_collection _ eq_refl)
    as [Hentries Hfeatures].
  split.
  - rewrite Hentries by discriminate. reflexivity.
  - apply Forall2_length in Hfeatures. rewrite <- Hfeatures. reflexivity.
Defined.

(** ** The cut to [limit] *)

Lemma string_of_list_ascii_length (l : list Ascii.ascii) :
  String.length (String.string_of_list_ascii l) = length l.
Proof. induction l as [|c l IH]; cbn; congruence. Qed.

Section Pipeline.
Context (env : Env).

(** Whatever the region, what the pipeline returns has at most [limit]
    items under ["features"]. *)
Lemma earthquake_pipeline_limit (limit : Z) (country : Country) (body out : pyval) :
  0 <= limit ->
  earthquake_pipeline env limit country body = Ok out ->
  exists features n,
    py_getitem out "features" = Ok features /\ py_len features = Ok n /\ n <= limit.
Proof.
  intros Hlimit H. unfold earthquake_pipeline in H.
  apply bind_Ok in H as (processed & _ & H).
  apply bind_Ok in H as ([data' filtered] & _ & H).
  apply bind_Ok in H as (features & Hfeatures & H).
  apply bind_Ok in H as (n & Hn & H).
  destruct (limit <? n) eqn:Hcut.
  - rewrite Hfeatures in H. cbn [bind] in H.
    destruct filtered as [| | | | | |d]; try discriminate.
    destruct features as [| | | |s|l|]; try discriminate;
      cbn [py_setitem] in H; injection H as <-;
      cbn [py_getitem]; rewrite dict_get_set_eq;
      eexists _, _; (split; [reflexivity|]); (split; [reflexivity|]);
      unfold list_slice_to;
      replace (0 <=? limit) with true by (symmetry; apply Z.leb_le; lia).
    + rewrite string_of_list_ascii_length, length_firstn. lia.
    + rewrite length_firstn. lia.
  - injection H as <-. exists features, n. apply Z.ltb_ge in Hcut. auto.
Qed.

Lemma earthquake_pipeline_known (limit : Z) (country : Country) (bounds : CountryBounds)
    (body out : pyval) :
  COUNTRY_BOUNDS country = Some bounds ->
  0 <= limit ->
  earthquake_pipeline env limit country body = Ok out ->
  exists processed,
    _process_earthquake_data env body = Ok processed
    /\ out = VDict [("type", VStr "FeatureCollection");
                    ("features",
                     VList (firstn (Z.to_nat limit)
                              (map (stamped bounds)
                                 (List.filter (inside bounds) (features_of processed)))));
                    ("metadata",
                     VDict [("country", VStr (name bounds));
                            ("country_code", VStr (code bounds));
                            ("total_filtered",
                             VInt (Z.of_nat
                                     (length
                                        (map (stamped bounds)
                                           (List.filter (inside bounds)
                                              (features_of processed))))))])].
Proof.
  intros Hb Hlimit H. unfold earthquake_pipeline in H.
  apply bind_Ok in H as (processed & Hprocessed & H).
  apply bind_Ok in H as ([data' filtered] & Hfilter & H).
  destruct (filter_by_country_sound _ _ _ _ _ Hb Hfilter) as (_ & -> & _).
  exists processed. split; [exact Hprocessed|].
  unfold filtered_collection in H |- *.
  cbn [py_getitem dict_get String.eqb Ascii.eqb Bool.eqb bind py_len] in H.
  rewrite length_map in H |- *.
  set (kept := List.filter (inside bounds) (features_of processed)) in *.
  destruct (limit <? Z.of_nat (length kept)) eqn:Hcut.
  - cbn [py_setitem dict_set String.eqb Ascii.eqb Bool.eqb] in H. injection H as <-.
    unfold list_slice_to.
    replace (0 <=? limit) with true by (symmetry; apply Z.leb_le; lia).
    reflexivity.
  - injection H as <-. apply Z.ltb_ge in Hcut.
    rewrite firstn_all2 by (rewrite length_map; lia). reflexivity.
Qed.

(** X7.  For a region with bounds, what the pipeline of [get_earthquakes]
    returns holds the first [limit] of the features the filter retained
    from the enriched answer, in their order, while the count in its
    metadata is the number of features retained before the cut. *)
Theorem earthquake_pipeline_cut (limit : Z) (country : Country) (bounds : CountryBounds)
    (body out : pyval) :
  COUNTRY_BOUNDS country = Some bounds ->
  0 <= limit ->
  earthquake_pipeline env limit country body = Ok out ->
  exists processed,
    _process_earthquake_data env body = Ok processed
    /\ let retained :=
         map (stamped bounds) (List.filter (inside bounds) (features_of processed)) in
       out = VDict [("type", VStr "FeatureCollection");
                    ("features", VList (firstn (Z.to_nat limit) retained));
                    ("metadata",
                     VDict [("country", VStr (name bounds));
                            ("country_code", VStr (code bounds));
                            ("total_filtered", VInt (Z.of_nat (length retained)))])].
Proof. apply earthquake_pipeline_known. Qed.

End Pipeline.

(** Two of the four sample features lie in the Emirates; with a limit of 1
    the first of them is returned and the count stays 2. *)
Lemma earthquake_pipeline_cut_witness :
  exists processed first,
    _process_earthquake_data sample_env sample_collection = Ok processed
    /\ earthquake_pipeline sample_env 1 UAE sample_collection
       = Ok (VDict [("type", VStr "FeatureCollection");
                    ("features", VList [first]);
                    ("metadata",
                     VDict [("country", VStr "United Arab Emirates");
                            ("country_code", VStr "AE");
                            ("total_filtered", VInt 2)])]).
Proof.
  destruct (earthquake_pipeline_cut sample_env 1 UAE uae_bounds sample_collection _
              eq_refl ltac:(lia) eq_refl) as (processed & Hprocessed & Hout).
  exists processed. eexists. split; [exact Hprocessed|].
  injection Hprocessed as <-. reflexivity.
Defined.

(** ** The keys of the cache *)

Lemma append_String (c : Ascii.ascii) (a b : string) :
  String c a +:+ b = String c (a +:+ b).
Proof. reflexivity. Qed.

Lemma append_empty (b : string) : "" +:+ b = b.
Proof. reflexivity. Qed.

Lemma no_underscore_String (c : Ascii.ascii) (a : string) :
  no_underscore (String c a) = true ->
  String c "" <> "_" /\ no_underscore a = true.
Proof.
  cbn [no_underscore]. intros H. apply andb_true_iff in H as [H Ha].
  split; [|exact Ha]. intros E. rewrite E in H. discriminate.
Qed.

Lemma append_underscore_l (a a' x x' : string) :
  no_underscore a = true -> no_underscore a' = true ->
  a +:+ "_" +:+ x = a' +:+ "_" +:+ x' ->
  a = a' /\ x = x'.
Proof.
  revert a'. induction a as [|c a IH]; intros [|c' a'] Ha Ha' H;
    rewrite ?append_String, ?append_empty in H.
  - injection H as <-. auto.
  - injection H as <- _. apply no_underscore_String in Ha' as [[] _]. reflexivity.
  - injection H as -> _. apply no_underscore_String in Ha as [[] _]. reflexivity.
  - injection H as <- H.
    apply no_underscore_String in Ha as [_ Ha].
    apply no_underscore_String in Ha' as [_ Ha'].
    destruct (IH a' Ha Ha' H) as [-> ->]. auto.
Qed.

Lemma no_underscore_prefix (x y z : string) :
  no_underscore y = true -> y <> x +:+ "_" +:+ z.
Proof.
  revert y. induction x as [|c x IH]; intros [|c' y] Hy H;
    rewrite ?append_String, ?append_empty in H; try discriminate.
  - injection H as -> _. apply no_underscore_String in Hy as [[] _]. reflexivity.
  - injection H as _ H. apply no_underscore_String in Hy as [_ Hy]. exact (IH y Hy H).
Qed.

Lemma append_underscore_r (x x' y y' : string) :
  no_underscore y = true -> no_underscore y' = true ->
  x +:+ "_" +:+ y = x' +:+ "_" +:+ y' ->
  x = x' /\ y = y'.
Proof.
  revert x'. induction x as [|c x IH]; intros [|c' x'] Hy Hy' H;
    rewrite ?append_String, ?append_empty in H.
  - injection H as <-. auto.
  - injection H as <- H. destruct (no_underscore_prefix x' y y' Hy H).
  - injection H as -> H. symmetry in H. destruct (no_underscore_prefix x y' y Hy' H).
  - injection H as <- H. destruct (IH x' Hy Hy' H) as [-> ->]. auto.
Qed.

Lemma no_underscore_uint (d : Decimal.uint) :
  no_underscore (NilEmpty.string_of_uint d) = true.
Proof. induction d; cbn; auto. Qed.

Lemma no_underscore_int_str (n : Z) : no_underscore (int_str n) = true.
Proof.
  unfold int_str, NilZero.string_of_int, NilZero.string_of_uint.
  destruct (Z.to_int n) as [d|d]; destruct d; cbn; auto using no_underscore_uint.
Qed.

Lemma int_str_inj (n n' : Z) : int_str n = int_str n' -> n = n'.
Proof.
  assert (Hnil : forall z, Z.to_int z <> Decimal.Pos Decimal.Nil
                           /\ Z.to_int z <> Decimal.Neg Decimal.Nil).
  { intros z. split; intros H; pose proof (DecimalZ.of_to z) as Hz;
      rewrite H in Hz; cbn in Hz; subst z; discriminate. }
  unfold int_str. intros H.
  apply DecimalZ.to_int_inj.
  pose proof (NilZero.isi (Z.to_int n) (proj1 (Hnil n)) (proj2 (Hnil n))) as Hn.
  pose proof (NilZero.isi (Z.to_int n') (proj1 (Hnil n')) (proj2 (Hnil n'))) as Hn'.
  rewrite H in Hn. congruence.
Qed.

Lemma Country_value_inj (country country' : Country) :
  Country_value country = Country_value country' -> country = country'.
Proof. destruct country, country'; cbn; congruence. Qed.

Lemma no_underscore_Country_value (country : Country) :
  no_underscore (Country_value country) = true.
Proof. destruct country; reflexivity. Qed.

Lemma earthquakes_key_eq (env : Env) (limit limit' : Z) (min_magnitude min_magnitude' : float)
    (country country' : Country) :
  earthquakes_key env limit min_magnitude country
  = earthquakes_key env limit' min_magnitude' country'
  <-> limit = limit'
      /\ float_repr env min_magnitude = float_repr env min_magnitude'
      /\ country = country'.
Proof.
  split.
  - unfold earthquakes_key. intros H.
    rewrite !append_String, !append_empty in H.
    repeat match type of H with String _ _ = String _ _ => injection H as H end.
    apply append_underscore_l in H as [Hl H]; auto using no_underscore_int_str.
    apply append_underscore_r in H as [Hm Hc]; auto using no_underscore_Country_value.
    auto using int_str_inj, Country_value_inj.
  - intros (-> & Hm & ->). unfold earthquakes_key. rewrite Hm. reflexivity.
Qed.

Lemma wildfires_key_inj (country country' : Country) :
  wildfires_key country = wildfires_key country' -> country = country'.
Proof.
  destruct country, country'; intros H; try reflexivity; vm_compute in H; discriminate.
Qed.

Lemma weather_alerts_key_inj (country country' : Country) :
  weather_alerts_key country = weather_alerts_key country' -> country = country'.
Proof.
  destruct country, country'; intros H; try reflexivity; vm_compute in H; discriminate.
Qed.

Lemma keys_apart (env : Env) (limit : Z) (min_magnitude : float)
    (country country' : Country) :
  earthquakes_key env limit min_magnitude country <> wildfires_key country'
  /\ earthquakes_key env limit min_magnitude country <> weather_alerts_key country'
  /\ wildfires_key country <> weather_alerts_key country'.
Proof.
  unfold earthquakes_key, wildfires_key, weather_alerts_key.
  rewrite !append_String, !append_empty. repeat split; discriminate.
Qed.

(** X8.  The key of a seismic fetch determines its arguments: two fetches
    have the same key exactly when they have the same limit, the same
    country and minimum magnitudes that are written alike; the keys of the
    two other fetchers determine the country; and the keys of the three
    fetchers that use the cache never coincide. *)
Theorem cache_keys_distinct (env : Env) :
  (forall limit limit' min_magnitude min_magnitude' country country',
      earthquakes_key env limit min_magnitude country
      = earthquakes_key env limit' min_magnitude' country'
      <-> limit = limit'
          /\ float_repr env min_magnitude = float_repr env min_magnitude'
          /\ country = country')
  /\ (forall country country',
        wildfires_key country = wildfires_key country' <-> country = country')
  /\ (forall country country',
        weather_alerts_key country = weather_alerts_key country' <-> country = country')
  /\ (forall limit min_magnitude country country',
        earthquakes_key env limit min_magnitude country <> wildfires_key country'
        /\ earthquakes_key env limit min_magnitude country <> weather_alerts_key country'
        /\ wildfires_key country <> weather_alerts_key country').
Proof.
  split; [|split; [|split]].
  - intros. apply earthquakes_key_eq.
  - intros country country'. split; [apply wildfires_key_inj|congruence].
  - intros country country'. split; [apply weather_alerts_key_inj|congruence].
  - intros. apply keys_apart.
Qed.

(** ** What a call does to the cache *)

Section CacheEffects.
Context (env : Env).

(** A seismic fetch leaves the cache as it was or stores, under its key,
    what its pipeline made of the answer of the API. *)
Lemma get_earthquakes_effect (s : Service) (limit : Z) (min_magnitude : float)
    (country : Country) :
  let r := get_earthquakes env s limit min_magnitude country in
  cache (snd r) = cache s
  \/ exists body out t,
      earthquake_pipeline env limit country body = Ok out
      /\ fst r = Ok out
      /\ cache (snd r) =
         <[earthquakes_key env limit min_magnitude country :=
             {| entry_data := out; entry_timestamp := t |}]> (cache s).
Proof.
  cbn zeta. unfold get_earthquakes.
  pose proof (is_cache_valid_cache env s (earthquakes_key env limit min_magnitude country))
    as Hcache.
  destruct (_is_cache_valid env s _) as [valid s1]. cbn [snd] in Hcache.
  destruct valid; [left; exact Hcache|].
  unfold http_get.
  destruct (usgs env (ticks s1) _) as [body|e]; cbn [bind].
  - destruct (earthquake_pipeline env limit country body) as [out|e] eqn:Hout.
    + right. exists body, out. eexists. split; [exact Hout|]. split; [reflexivity|].
      cbn [datetime_now snd fst cache cache_put]. rewrite Hcache. reflexivity.
    + left. exact Hcache.
  - left. exact Hcache.
Qed.

Lemma get_wildfires_effect (s : Service) (country : Country) :
  let r := get_wildfires env s country in
  cache (snd r) = cache s
  \/ exists out t,
      filter_result all_wildfires country = Ok out
      /\ fst r = Ok out
      /\ cache (snd r) =
         <[wildfires_key country := {| entry_data := out; entry_timestamp := t |}]>
           (cache s).
Proof.
  cbn zeta. unfold get_wildfires, filter_result.
  pose proof (is_cache_valid_cache env s (wildfires_key country)) as Hcache.
  destruct (_is_cache_valid env s _) as [valid s1]. cbn [snd] in Hcache.
  destruct valid; [left; exact Hcache|].
  destruct (_filter_by_country all_wildfires country) as [[data' out]|e]; cbn [bind].
  - right. exists out. eexists. split; [reflexivity|]. split; [reflexivity|].
    cbn [datetime_now snd fst cache cache_put]. rewrite Hcache. reflexivity.
  - left. exact Hcache.
Qed.

Lemma get_weather_alerts_effect (s : Service) (country : Country) :
  let r := get_weather_alerts env s country in
  cache (snd r) = cache s
  \/ exists out t,
      filter_result all_alerts country = Ok out
      /\ fst r = Ok out
      /\ cache (snd r) =
         <[weather_alerts_key country := {| entry_data := out; entry_timestamp := t |}]>
           (cache s).
Proof.
  cbn zeta. unfold get_weather_alerts, filter_result.
  pose proof (is_cache_valid_cache env s (weather_alerts_key country)) as Hcache.
  destruct (_is_cache_valid env s _) as [valid s1]. cbn [snd] in Hcache.
  destruct valid; [left; exact Hcache|].
  destruct (_filter_by_country all_alerts country) as [[data' out]|e]; cbn [bind].
  - right. exists out. eexists. split; [reflexivity|]. split; [reflexivity|].
    cbn [datetime_now snd fst cache cache_put]. rewrite Hcache. reflexivity.
  - left. exact Hcache.
Qed.

Lemma get_relief_centers_state (s : Service) (country : Country) :
  snd (get_relief_centers s country) = s.
Proof.
  unfold get_relief_centers.
  destruct (_filter_by_country all_centers country) as [[data' out]|e]; reflexivity.
Qed.

(** [get_disaster_statistics] leaves the cache as its three fetches, one
    after the other, leave it. *)
Lemma get_disaster_statistics_cache (s : Service) (country : Country) :
  cache (snd (get_disaster_statistics env s country))
  = cache (snd (get_weather_alerts env
                  (snd (get_wildfires env
                          (snd (get_earthquakes env s 50 2.5 country)) country))
                  country)).
Proof.
  unfold get_disaster_statistics.
  destruct (get_earthquakes_returns env s 50 2.5 country) as (earthquakes & H1).
  destruct (get_earthquakes env s 50 2.5 country) as [r1 s1]. cbn [fst snd] in *. subst r1.
  destruct (get_wildfires_returns env s1 country) as (wildfires & H2).
  destruct (get_wildfires env s1 country) as [r2 s2]. cbn [fst snd] in *. subst r2.
  destruct (get_weather_alerts_returns env s2 country) as (weather_alerts & H3).
  destruct (get_weather_alerts env s2 country) as [r3 s3]. cbn [fst snd] in *. subst r3.
  destruct (statistics_counts country earthquakes wildfires weather_alerts);
    [|reflexivity].
  cbn [datetime_now]. destruct (average_magnitude earthquakes); reflexivity.
Qed.

(** X9.  A call touches no entry of the cache but its own: a fetcher
    leaves every entry under another key than the key of the call as it
    was, [get_relief_centers] leaves the whole cache as it was, and
    [get_disaster_statistics] leaves every entry other than those of its
    three fetches as it was. *)
Theorem fetchers_keep_other_entries (s : Service) :
  (forall limit min_magnitude country k,
      k <> earthquakes_key env limit min_magnitude country ->
      cache (snd (get_earthquakes env s limit min_magnitude country)) !! k = cache s !! k)
  /\ (forall country k,
        k <> wildfires_key country ->
        cache (snd (get_wildfires env s country)) !! k = cache s !! k)
  /\ (forall country k,
        k <> weather_alerts_key country ->
        cache (snd (get_weather_alerts env s country)) !! k = cache s !! k)
  /\ (forall country, cache (snd (get_relief_centers s country)) = cache s)
  /\ (forall country k,
        k <> earthquakes_key env 50 2.5 country ->
        k <> wildfires_key country ->
        k <> weather_alerts_key country ->
        cache (snd (get_disaster_statistics env s country)) !! k = cache s !! k).
Proof.
  assert (He : forall s limit min_magnitude country k,
             k <> earthquakes_key env limit min_magnitude country ->
             cache (snd (get_earthquakes env s limit min_magnitude country)) !! k
             = cache s !! k).
  { intros s0 limit m country k Hk.
    destruct (get_earthquakes_effect s0 limit m country)
      as [->|(body & out & t & _ & _ & ->)]; [reflexivity|].
    apply lookup_insert_ne. congruence. }
  assert (Hw : forall s country k,
             k <> wildfires_key country ->
             cache (snd (get_wildfires env s country)) !! k = cache s !! k).
  { intros s0 country k Hk.
    destruct (get_wildfires_effect s0 country) as [->|(out & t & _ & _ & ->)];
      [reflexivity|].
    apply lookup_insert_ne. congruence. }
  assert (Ha : forall s country k,
             k <> weather_alerts_key country ->
             cache (snd (get_weather_alerts env s country)) !! k = cache s !! k).
  { intros s0 country k Hk.
    destruct (get_weather_alerts_effect s0 country) as [->|(out & t & _ & _ & ->)];
      [reflexivity|].
    apply lookup_insert_ne. congruence. }
  split; [apply He|]. split; [apply Hw|]. split; [apply Ha|]. split.
  - intros country. rewrite get_relief_centers_state. reflexivity.
  - intros country k H1 H2 H3.
    rewrite get_disaster_statistics_cache, Ha, Hw, He by assumption. reflexivity.
Qed.

(** Every step keeps the keys of the cache. *)
Lemma service_step_keeps (s s' : Service) (k : string) :
  service_step env s s' -> is_Some (cache s !! k) -> is_Some (cache s' !! k).
Proof.
  assert (Hins : forall (m : gmap string CacheEntry) key entry,
             is_Some (m !! k) -> is_Some (<[key := entry]> m !! k)).
  { intros m key entry Hm. destruct (decide (key = k)) as [->|Hne].
    - rewrite lookup_insert_eq. eauto.
    - rewrite lookup_insert_ne by exact Hne. exact Hm. }
  assert (He : forall s limit min_magnitude country,
             is_Some (cache s !! k) ->
             is_Some (cache (snd (get_earthquakes env s limit min_magnitude country)) !! k)).
  { intros s0 limit m country Hk.
    destruct (get_earthquakes_effect s0 limit m country)
      as [->|(body & out & t & _ & _ & ->)]; auto. }
  assert (Hw : forall s country,
             is_Some (cache s !! k) ->
             is_Some (cache (snd (get_wildfires env s country)) !! k)).
  { intros s0 country Hk.
    destruct (get_wildfires_effect s0 country) as [->|(out & t & _ & _ & ->)]; auto. }
  assert (Ha : forall s country,
             is_Some (cache s !! k) ->
             is_Some (cache (snd (get_weather_alerts env s country)) !! k)).
  { intros s0 country Hk.
    destruct (get_weather_alerts_effect s0 country) as [->|(out & t & _ & _ & ->)]; auto. }
  intros Hstep Hk. destruct Hstep; auto.
  - rewrite get_relief_centers_state. exact Hk.
  - rewrite get_disaster_statistics_cache. auto.
Qed.

(** X10.  The cache never drops an entry: a key that has an entry keeps
    one, of whatever age, through every sequence of calls of the service. *)
Theorem cache_never_evicts (s s' : Service) (k : string) :
  rtc (service_step env) s s' ->
  is_Some (cache s !! k) ->
  is_Some (cache s' !! k).
Proof.
  induction 1 as [|s0 s1 s2 Hstep _ IH]; [auto|].
  intros Hk. apply IH. exact (service_step_keeps _ _ k Hstep Hk).
Qed.

End CacheEffects.

(** An entry that went stale long ago is still there after a fetch that
    failed. *)
Lemma cache_never_evicts_witness :
  is_Some
    (cache (snd (get_earthquakes offline_env
                   {| cache := <["earthquakes_1_2.5_uae" :=
                                   {| entry_data := empty_collection;
                                      entry_timestamp := 0 |}]> ∅;
                      ticks := 100 |} 1 2.5 UAE))
       !! "earthquakes_1_2.5_uae").
Proof.
  apply (cache_never_evicts offline_env
           {| cache := <["earthquakes_1_2.5_uae" :=
                           {| entry_data := empty_collection; entry_timestamp := 0 |}]> ∅;
              ticks := 100 |}).
  - eapply rtc_l; [apply (step_earthquakes _ _ 1 2.5 UAE)|apply rtc_refl].
  - cbn [cache]. rewrite lookup_insert_eq. eauto.
Defined.

(** ** The states the service can reach *)

Section ReachableStates.
Context (env : Env).

Lemma cache_sound_ext (s s' : Service) :
  cache s' = cache s -> cache_sound env s -> cache_sound env s'.
Proof. unfold cache_sound. intros ->. auto. Qed.

Lemma cache_sound_earthquakes (s : Service) (limit : Z) (min_magnitude : float)
    (country : Country) :
  cache_sound env s ->
  cache_sound env (snd (get_earthquakes env s limit min_magnitude country)).
Proof.
  intros Hs.
  destruct (get_earthquakes_effect env s limit min_magnitude country)
    as [Hsame|(body & out & t & Hout & _ & Hcache)];
    [exact (cache_sound_ext _ _ Hsame Hs)|].
  destruct Hs as (Hw & Ha & He). unfold cache_sound. rewrite Hcache.
  pose proof (fun c' => keys_apart env limit min_magnitude country c') as Hapart.
  split; [|split].
  - intros c' entry. rewrite lookup_insert_ne by apply Hapart. apply Hw.
  - intros c' entry. rewrite lookup_insert_ne by apply Hapart. apply Ha.
  - intros limit' m' c' entry.
    destruct (decide (earthquakes_key env limit min_magnitude country
                      = earthquakes_key env limit' m' c')) as [Heq|Hne].
    + rewrite <- Heq, lookup_insert_eq. intros [= <-].
      apply earthquakes_key_eq in Heq as (<- & _ & <-). exists body. exact Hout.
    + rewrite lookup_insert_ne by exact Hne. apply He.
Qed.

Lemma cache_sound_wildfires (s : Service) (country : Country) :
  cache_sound env s -> cache_sound env (snd (get_wildfires env s country)).
Proof.
  intros Hs.
  destruct (get_wildfires_effect env s country) as [Hsame|(out & t & Hout & _ & Hcache)];
    [exact (cache_sound_ext _ _ Hsame Hs)|].
  destruct Hs as (Hw & Ha & He). unfold cache_sound. rewrite Hcache.
  split; [|split].
  - intros c' entry.
    destruct (decide (wildfires_key country = wildfires_key c')) as [Heq|Hne].
    + rewrite <- Heq, lookup_insert_eq. intros [= <-].
      apply wildfires_key_inj in Heq as <-. exact Hout.
    + rewrite lookup_insert_ne by exact Hne. apply Hw.
  - intros c' entry.
    rewrite lookup_insert_ne by apply (keys_apart env 0 0%float country c'). apply Ha.
  - intros limit' m' c' entry.
    rewrite lookup_insert_ne.
    + apply He.
    + intros Heq. symmetry in Heq. exact (proj1 (keys_apart env limit' m' c' country) Heq).
Qed.

Lemma cache_sound_weather_alerts (s : Service) (country : Country) :
  cache_sound env s -> cache_sound env (snd (get_weather_alerts env s country)).
Proof.
  intros Hs.
  destruct (get_weather_alerts_effect env s country)
    as [Hsame|(out & t & Hout & _ & Hcache)];
    [exact (cache_sound_ext _ _ Hsame Hs)|].
  destruct Hs as (Hw & Ha & He). unfold cache_sound. rewrite Hcache.
  split; [|split].
  - intros c' entry.
    rewrite lookup_insert_ne.
    + apply Hw.
    + intros Heq. symmetry in Heq.
      exact (proj2 (proj2 (keys_apart env 0 0%float c' country)) Heq).
  - intros c' entry.
    destruct (decide (weather_alerts_key country = weather_alerts_key c')) as [Heq|Hne].
    + rewrite <- Heq, lookup_insert_eq. intros [= <-].
      apply weather_alerts_key_inj in Heq as <-. exact Hout.
    + rewrite lookup_insert_ne by exact Hne. apply Ha.
  - intros limit' m' c' entry.
    rewrite lookup_insert_ne.
    + apply He.
    + intros Heq. symmetry in Heq.
      exact (proj1 (proj2 (keys_apart env limit' m' c' country)) Heq).
Qed.

Lemma cache_sound_step (s s' : Service) :
  service_step env s s' -> cache_sound env s -> cache_sound env s'.
Proof.
  intros Hstep Hs. destruct Hstep.
  - apply cache_sound_earthquakes, Hs.
  - apply cache_sound_wildfires, Hs.
  - apply cache_sound_weather_alerts, Hs.
  - rewrite get_relief_centers_state. exact Hs.
  - eapply cache_sound_ext; [apply get_disaster_statistics_cache|].
    apply cache_sound_weather_alerts, cache_sound_wildfires, cache_sound_earthquakes, Hs.
  - exact Hs.
Qed.

Lemma reachable_cache_sound (s : Service) : reachable env s -> cache_sound env s.
Proof.
  induction 1 as [|s s' _ IH Hstep].
  - unfold cache_sound, new_service. cbn [cache].
    repeat split; intros *; rewrite lookup_empty; discriminate.
  - exact (cache_sound_step _ _ Hstep IH).
Qed.

Lemma get_wildfires_sound (s : Service) (country : Country) :
  cache_sound env s ->
  fst (get_wildfires env s country) = filter_result all_wildfires country.
Proof.
  intros (Hw & _ & _).
  destruct (get_wildfires_cached env s country) as [Hhit Hmiss].
  destruct (fst (_is_cache_valid env s (wildfires_key country))).
  - destruct (Hhit eq_refl) as (entry & Hentry & ->). cbn [fst].
    symmetry. exact (Hw _ _ Hentry).
  - destruct (Hmiss eq_refl) as (data' & out & Hf & -> & _).
    unfold filter_result. rewrite Hf. reflexivity.
Qed.

Lemma get_weather_alerts_sound (s : Service) (country : Country) :
  cache_sound env s ->
  fst (get_weather_alerts env s country) = filter_result all_alerts country.
Proof.
  intros (_ & Ha & _).
  destruct (get_weather_alerts_cached env s country) as [Hhit Hmiss].
  destruct (fst (_is_cache_valid env s (weather_alerts_key country))).
  - destruct (Hhit eq_refl) as (entry & Hentry & ->). cbn [fst].
    symmetry. exact (Ha _ _ Hentry).
  - destruct (Hmiss eq_refl) as (data' & out & Hf & -> & _).
    unfold filter_result. rewrite Hf. reflexivity.
Qed.

(** X11.  The cache does not change what the fetchers over static data
    return: in every state the service can reach, [get_wildfires],
    [get_weather_alerts] and [get_relief_centers] return the collection
    [_filter_by_country] computes from their data set, whether it comes
    from the cache or not. *)
Theorem static_fetchers_transparent (s : Service) (country : Country) :
  reachable env s ->
  fst (get_wildfires env s country) = filter_result all_wildfires country
  /\ fst (get_weather_alerts env s country) = filter_result all_alerts country
  /\ fst (get_relief_centers s country) = filter_result all_centers country.
Proof.
  intros Hs. apply reachable_cache_sound in Hs.
  split; [|split].
  - apply get_wildfires_sound, Hs.
  - apply get_weather_alerts_sound, Hs.
  - destruct (get_relief_centers_uncached s country) as (data' & out & Hf & ->).
    unfold filter_result. rewrite Hf. reflexivity.
Qed.

(** What [get_earthquakes] returns: what the cache holds under its key,
    what its pipeline made of the answer of the API, or the empty
    collection. *)
Lemma get_earthquakes_result (s : Service) (limit : Z) (min_magnitude : float)
    (country : Country) :
  let r := fst (get_earthquakes env s limit min_magnitude country) in
  (exists entry,
      cache s !! earthquakes_key env limit min_magnitude country = Some entry
      /\ r = Ok (entry_data entry))
  \/ (exists body out, earthquake_pipeline env limit country body = Ok out /\ r = Ok out)
  \/ r = Ok empty_collection.
Proof.
  cbn zeta.
  destruct (get_earthquakes_cached env s limit min_magnitude country) as [Hhit _].
  unfold get_earthquakes in *.
  destruct (_is_cache_valid env s _) as [[] s1]; cbn [fst snd] in *.
  - left. destruct (Hhit eq_refl) as (entry & Hentry & [= ->]). eauto.
  - right. unfold http_get.
    destruct (usgs env (ticks s1) _) as [body|e]; cbn [bind]; [|right; reflexivity].
    destruct (earthquake_pipeline env limit country body) as [out|e] eqn:Hout;
      [left; eauto|right; reflexivity].
Qed.

Lemma get_earthquakes_limit_sound (s : Service) (limit : Z) (min_magnitude : float)
    (country : Country) :
  cache_sound env s ->
  0 <= limit ->
  exists out features n,
    fst (get_earthquakes env s limit min_magnitude country) = Ok out
    /\ py_getitem out "features" = Ok features
    /\ py_len features = Ok n
    /\ n <= limit.
Proof.
  intros (_ & _ & He) Hlimit.
  destruct (get_earthquakes_result s limit min_magnitude country)
    as [(entry & Hentry & ->)|[(body & out & Hout & ->)| ->]].
  - destruct (He _ _ _ _ Hentry) as (body & Hout).
    destruct (earthquake_pipeline_limit env _ _ _ _ Hlimit Hout) as (features & n & H).
    exists (entry_data entry), features, n. tauto.
  - destruct (earthquake_pipeline_limit env _ _ _ _ Hlimit Hout) as (features & n & H).
    exists out, features, n. tauto.
  - exists empty_collection, (VList []), 0.
    split; [reflexivity|]. split; [reflexivity|]. split; [reflexivity|exact Hlimit].
Qed.

(** X12.  The limit is respected in every state the service can reach:
    whether it comes from the cache, from the API or from a failure, what
    [get_earthquakes] returns for a limit that is not negative has at most
    [limit] items under ["features"]. *)
Theorem get_earthquakes_respects_limit (s : Service) (limit : Z) (min_magnitude : float)
    (country : Country) :
  reachable env s ->
  0 <= limit ->
  exists out features n,
    fst (get_earthquakes env s limit min_magnitude country) = Ok out
    /\ py_getitem out "features" = Ok features
    /\ py_len features = Ok n
    /\ n <= limit.
Proof.
  intros Hs. apply get_earthquakes_limit_sound, reachable_cache_sound, Hs.
Qed.

End ReachableStates.

(** A second wildfire fetch, one minute after the first, is served from
    the cache. *)
Lemma static_fetchers_transparent_witness :
  fst (get_wildfires sample_env (snd (get_wildfires sample_env new_service UAE)) UAE)
  = filter_result all_wildfires UAE.
Proof.
  apply (static_fetchers_transparent sample_env _ UAE).
  eapply reachable_step; [apply reachable_new|apply step_wildfires].
Defined.

(** A second seismic fetch with limit 1, served from the cache. *)
Lemma get_earthquakes_respects_limit_witness :
  exists out features n,
    fst (get_earthquakes sample_env
           (snd (get_earthquakes sample_env new_service 1 2.5 UAE)) 1 2.5 UAE) = Ok out
    /\ py_getitem out "features" = Ok features
    /\ py_len features = Ok n
    /\ n <= 1.
Proof.
  apply (get_earthquakes_respects_limit sample_env _ 1 2.5 UAE); [|lia].
  eapply reachable_step; [apply reachable_new|apply step_earthquakes].
Defined.

(** ** The country parameter *)

Lemma char_lower_idem (c : Ascii.ascii) : char_lower (char_lower c) = char_lower c.
Proof. destruct c as [[] [] [] [] [] [] [] []]; reflexivity. Qed.

Lemma str_lower_idem (s : string) : str_lower (str_lower s) = str_lower s.
Proof.
  induction s as [|c s IH]; [reflexivity|].
  cbn [str_lower]. rewrite char_lower_idem, IH. reflexivity.
Qed.

Lemma Country_of_value_Some (value : string) (country : Country) :
  Country_of_value value = Some country <-> value = Country_value country.
Proof.
  unfold Country_of_value, Country_members. cbn [List.find Country_value].
  destruct (String.eqb "uae" value) eqn:E1.
  { apply String.eqb_eq in E1 as <-. split; [intros [= <-]; reflexivity|].
    destruct country; cbn; congruence. }
  destruct (String.eqb "canada" value) eqn:E2.
  { apply String.eqb_eq in E2 as <-. split; [intros [= <-]; reflexivity|].
    destruct country; cbn; congruence. }
  destruct (String.eqb "all" value) eqn:E3.
  { apply String.eqb_eq in E3 as <-. split; [intros [= <-]; reflexivity|].
    destruct country; cbn; congruence. }
  split; [discriminate|].
  intros ->. destruct country; cbn in *; congruence.
Qed.

Lemma Country_of_value_None (value : string) :
  Country_of_value value = None <-> forall country, value <> Country_value country.
Proof.
  split.
  - intros H country E. apply Country_of_value_Some in E. congruence.
  - intros H. destruct (Country_of_value value) as [country|] eqn:E; [|reflexivity].
    apply Country_of_value_Some in E. destruct (H _ E).
Qed.

(** X13.  The country of a request is read without regard to the case of
    its letters: [Country(country.lower())] is a member exactly when the
    parameter in lower case is the value of that member, it raises exactly
    when the parameter in lower case is none of the three values, every
    value is in lower case already, and a parameter is read as its
    lower-case form is. *)
Theorem country_parameter (country : string) :
  (forall member,
      Country_of_value (str_lower country) = Some member
      <-> str_lower country = Country_value member)
  /\ (Country_of_value (str_lower country) = None
      <-> forall member, str_lower country <> Country_value member)
  /\ (forall member, str_lower (Country_value member) = Country_value member)
  /\ Country_of_value (str_lower (str_lower country)) = Country_of_value (str_lower country).
Proof.
  split; [|split; [|split]].
  - intros member. apply Country_of_value_Some.
  - apply Country_of_value_None.
  - intros []; reflexivity.
  - rewrite str_lower_idem. reflexivity.
Qed.

Example country_parameter_cases :
  Country_of_value (str_lower "UAE") = Some UAE
  /\ Country_of_value (str_lower "Canada") = Some CANADA
  /\ Country_of_value (str_lower "all") = Some ALL
  /\ Country_of_value (str_lower "canada ") = None
  /\ Country_of_value (str_lower "") = None.
Proof. repeat split. Qed.

(** ** A fetch, and the fetch after it *)

Section Refetch.
Context (env : Env).

(** A seismic fetch whose request fails: the empty collection, and the
    state after the validity check and the request. *)
Lemma get_earthquakes_failed (s : Service) (limit : Z) (min_magnitude : float)
    (country : Country) (e : exn) :
  let key := earthquakes_key env limit min_magnitude country in
  let checked := _is_cache_valid env s key in
  fst checked = false ->
  usgs env (ticks (snd checked)) (earthquake_params limit min_magnitude country) = Raise e ->
  get_earthquakes env s limit min_magnitude country
  = (Ok empty_collection,
     {| cache := cache s; ticks := S (ticks (snd checked)) |}).
Proof.
  cbn zeta. unfold get_earthquakes.
  pose proof (is_cache_valid_cache env s (earthquakes_key env limit min_magnitude country))
    as Hcache.
  destruct (_is_cache_valid env s _) as [valid s1]. cbn [fst snd] in *.
  intros -> He. unfold http_get. rewrite He. cbn [bind]. rewrite Hcache. reflexivity.
Qed.

(** X14.  What was fetched is served again for five minutes: after a
    seismic fetch that asked the API and stored its result, a call with the
    same arguments, made when the clock reads less than five minutes more
    than at the storing, returns the same collection and does nothing but
    read the clock: the API is not asked. *)
Theorem fetch_served_again (s : Service) (limit : Z) (min_magnitude : float)
    (country : Country) (body out : pyval) :
  let key := earthquakes_key env limit min_magnitude country in
  let checked := _is_cache_valid env s key in
  let request := ticks (snd checked) in
  let s' := snd (get_earthquakes env s limit min_magnitude country) in
  fst checked = false ->
  usgs env request (earthquake_params limit min_magnitude country) = Ok body ->
  earthquake_pipeline env limit country body = Ok out ->
  clock env (S (S request)) - clock env (S request) < cache_duration ->
  fst (get_earthquakes env s limit min_magnitude country) = Ok out
  /\ get_earthquakes env s' limit min_magnitude country
     = (Ok out, {| cache := cache s'; ticks := S (ticks s') |}).
Proof.
  cbn zeta. intros Hmiss Hbody Hout Hage.
  assert (Hfirst : get_earthquakes env s limit min_magnitude country
                   = (Ok out,
                      cache_put
                        {| cache := cache (snd (_is_cache_valid env s
                                      (earthquakes_key env limit min_magnitude country)));
                           ticks := S (S (ticks (snd (_is_cache_valid env s
                                      (earthquakes_key env limit min_magnitude country))))) |}
                        (earthquakes_key env limit min_magnitude country) out
                        (clock env (S (ticks (snd (_is_cache_valid env s
                                      (earthquakes_key env limit min_magnitude country)))))))).
  { unfold get_earthquakes.
    destruct (_is_cache_valid env s _) as [valid s1]. cbn [fst snd] in *. subst valid.
    unfold http_get. rewrite Hbody. cbn [bind]. rewrite Hout. reflexivity. }
  rewrite Hfirst. cbn [fst snd]. split; [reflexivity|].
  set (s' := cache_put _ _ _ _).
  assert (Hentry : cache s' !! earthquakes_key env limit min_magnitude country
                   = Some {| entry_data := out;
                             entry_timestamp :=
                               clock env (S (ticks (snd (_is_cache_valid env s
                                 (earthquakes_key env limit min_magnitude country))))) |}).
  { subst s'. cbn [cache cache_put]. apply lookup_insert_eq. }
  unfold get_earthquakes, _is_cache_valid. rewrite Hentry.
  cbn [datetime_now entry_timestamp].
  replace (ticks s') with (S (S (ticks (snd (_is_cache_valid env s
             (earthquakes_key env limit min_magnitude country)))))) by reflexivity.
  replace (_ <? cache_duration) with true by (symmetry; apply Z.ltb_lt; exact Hage).
  unfold cache_get. cbn [cache]. rewrite Hentry. reflexivity.
Qed.

(** X15.  A failure is not remembered: after a seismic fetch under a key
    the cache has no entry for, whose request failed, the cache still has
    no entry for the key, and the next call with the same arguments asks the
    API again and returns what its pipeline makes of the answer. *)
Theorem failed_fetch_is_retried (s : Service) (limit : Z) (min_magnitude : float)
    (country : Country) (e : exn) (body out : pyval) :
  let key := earthquakes_key env limit min_magnitude country in
  let params := earthquake_params limit min_magnitude country in
  let s' := snd (get_earthquakes env s limit min_magnitude country) in
  cache s !! key = None ->
  usgs env (ticks s) params = Raise e ->
  usgs env (S (ticks s)) params = Ok body ->
  earthquake_pipeline env limit country body = Ok out ->
  fst (get_earthquakes env s limit min_magnitude country) = Ok empty_collection
  /\ cache s' !! key = None
  /\ fst (get_earthquakes env s' limit min_magnitude country) = Ok out.
Proof.
  cbn zeta. intros Hnone He Hbody Hout.
  assert (Hchecked : _is_cache_valid env s
                       (earthquakes_key env limit min_magnitude country) = (false, s)).
  { unfold _is_cache_valid. rewrite Hnone. reflexivity. }
  pose proof (get_earthquakes_failed s limit min_magnitude country e) as Hfirst.
  cbn zeta in Hfirst. rewrite Hchecked in Hfirst. cbn [fst snd] in Hfirst.
  rewrite (Hfirst eq_refl He). cbn [fst snd cache].
  split; [reflexivity|]. split; [exact Hnone|].
  unfold get_earthquakes, _is_cache_valid. cbn [cache ticks]. rewrite Hnone.
  unfold http_get. cbn [ticks]. rewrite Hbody. cbn [bind]. rewrite Hout. reflexivity.
Qed.

End Refetch.

(** The API answers the first request; the second call, a minute later,
    is served from the cache. *)
Lemma fetch_served_again_witness :
  exists out,
    fst (get_earthquakes sample_env new_service 50 2.5 UAE) = Ok out
    /\ fst (get_earthquakes sample_env
              (snd (get_earthquakes sample_env new_service 50 2.5 UAE)) 50 2.5 UAE)
       = Ok out.
Proof.
  eexists.
  destruct (fetch_served_again sample_env new_service 50 2.5 UAE sample_collection _
              eq_refl eq_refl eq_refl eq_refl) as [H1 H2].
  split; [exact H1|]. rewrite H2. reflexivity.
Defined.

(** The first request fails, the second call asks again and is answered. *)
Lemma failed_fetch_is_retried_witness :
  exists out,
    fst (get_earthquakes flaky_env new_service 50 2.5 UAE) = Ok empty_collection
    /\ fst (get_earthquakes flaky_env
              (snd (get_earthquakes flaky_env new_service 50 2.5 UAE)) 50 2.5 UAE)
       = Ok out
    /\ out <> empty_collection.
Proof.
  eexists.
  destruct (failed_fetch_is_retried flaky_env new_service 50 2.5 UAE RequestError
              sample_collection _ eq_refl eq_refl eq_refl eq_refl) as (H1 & _ & H2).
  split; [exact H1|]. split; [exact H2|]. discriminate.
Defined.

(** ** The routes *)

Section RouteFacts.
Context (env : Env) (renders : pyval -> bool).

(** X16.  What the list routes and the statistics route answer.  When the
    country parameter is none of the three values (in any case of letters)
    each of them raises the [HTTPException] of status 400 and leaves the
    service untouched.  Otherwise the fetcher behind the route returns a
    collection (none of the fetchers raises), and the route answers with
    it: the only way to status 500 is a content that cannot be rendered. *)
Theorem routes_answer (s : Service) (limit : Z) (min_magnitude : float) (country : string) :
  (Country_of_value (str_lower country) = None ->
   let refused := (main.invalid_country country "uae, canada, all", s) in
   main.get_earthquakes env renders s limit min_magnitude country = refused
   /\ main.get_wildfires env renders s country = refused
   /\ main.get_weather_alerts env renders s country = refused
   /\ main.get_relief_centers renders s country = refused
   /\ main.get_statistics env renders s country = refused)
  /\ (forall member,
        Country_of_value (str_lower country) = Some member ->
        (exists data,
            fst (get_earthquakes env s limit min_magnitude member) = Ok data
            /\ main.get_earthquakes env renders s limit min_magnitude country
               = (main.respond renders data "Failed to fetch earthquake data",
                  snd (get_earthquakes env s limit min_magnitude member)))
        /\ (exists data,
              fst (get_wildfires env s member) = Ok data
              /\ main.get_wildfires env renders s country
                 = (main.respond renders data "Failed to fetch wildfire data",
                    snd (get_wildfires env s member)))
        /\ (exists data,
              fst (get_weather_alerts env s member) = Ok data
              /\ main.get_weather_alerts env renders s country
                 = (main.respond renders data "Failed to fetch weather alert data",
                    snd (get_weather_alerts env s member)))
        /\ (exists data,
              fst (get_relief_centers s member) = Ok data
              /\ main.get_relief_centers renders s country
                 = (main.respond renders data "Failed to fetch relief center data", s))
        /\ main.get_statistics env renders s country
           = (main.respond renders (fst (get_disaster_statistics env s member))
                "Failed to fetch statistics",
              snd (get_disaster_statistics env s member))).
Proof.
  split.
  - intros Hnone. cbn zeta.
    unfold main.get_earthquakes, main.get_wildfires, main.get_weather_alerts,
      main.get_relief_centers, main.get_statistics.
    rewrite Hnone. auto.
  - intros member Hsome.
    unfold main.get_earthquakes, main.get_wildfires, main.get_weather_alerts,
      main.get_relief_centers, main.get_statistics.
    rewrite Hsome.
    split; [|split; [|split; [|split]]].
    + destruct (get_earthquakes_returns env s limit min_magnitude member) as (data & H).
      exists data. split; [exact H|].
      destruct (get_earthquakes env s limit min_magnitude member) as [r s1].
      cbn [fst snd] in *. subst r. reflexivity.
    + destruct (get_wildfires_returns env s member) as (data & H).
      exists data. split; [exact H|].
      destruct (get_wildfires env s member) as [r s1].
      cbn [fst snd] in *. subst r. reflexivity.
    + destruct (get_weather_alerts_returns env s member) as (data & H).
      exists data. split; [exact H|].
      destruct (get_weather_alerts env s member) as [r s1].
      cbn [fst snd] in *. subst r. reflexivity.
    + destruct (get_relief_centers_uncached s member) as (data' & data & _ & H).
      exists data. rewrite H. split; reflexivity.
    + destruct (get_disaster_statistics env s member) as [stats s1]. reflexivity.
Qed.

Lemma py_eq_str_other (id : pyval) (event_id : string) :
  id <> VStr event_id -> py_eq_str id event_id = false.
Proof.
  destruct id as [| | | |s| |]; try reflexivity.
  intros Hne. cbn [py_eq_str]. destruct (String.eqb s event_id) eqn:E; [|reflexivity].
  apply String.eqb_eq in E. congruence.
Qed.

Lemma find_event_found (event_id : string) (before after : list pyval) (feature : pyval) :
  Forall (fun g => exists id, entry g "id" = Some id /\ id <> VStr event_id) before ->
  entry feature "id" = Some (VStr event_id) ->
  main.find_event event_id (before ++ feature :: after) = Ok (Some feature).
Proof.
  intros Hbefore Hid. induction Hbefore as [|g before (id & Hg & Hne) _ IH].
  - cbn [app main.find_event]. rewrite (entry_getitem _ _ _ Hid). cbn [bind py_eq_str].
    rewrite String.eqb_refl. reflexivity.
  - cbn [app main.find_event]. rewrite (entry_getitem _ _ _ Hg). cbn [bind].
    rewrite (py_eq_str_other _ _ Hne). exact IH.
Qed.

Lemma find_event_absent (event_id : string) (features : list pyval) :
  Forall (fun g => exists id, entry g "id" = Some id /\ id <> VStr event_id) features ->
  main.find_event event_id features = Ok None.
Proof.
  induction 1 as [|g features (id & Hg & Hne) _ IH]; [reflexivity|].
  cbn [main.find_event]. rewrite (entry_getitem _ _ _ Hg). cbn [bind].
  rewrite (py_eq_str_other _ _ Hne). exact IH.
Qed.

Lemma find_event_raises (event_id : string) (before after : list pyval) (feature : pyval) :
  Forall (fun g => exists id, entry g "id" = Some id /\ id <> VStr event_id) before ->
  entry feature "id" = None ->
  exists e, main.find_event event_id (before ++ feature :: after) = Raise e.
Proof.
  intros Hbefore Hid. induction Hbefore as [|g before (id & Hg & Hne) _ IH].
  - cbn [app main.find_event].
    destruct feature as [| | | | | |d]; cbn [py_getitem bind]; eauto.
    cbn [entry] in Hid. rewrite Hid. cbn [bind]. eauto.
  - cbn [app main.find_event]. rewrite (entry_getitem _ _ _ Hg). cbn [bind].
    rewrite (py_eq_str_other _ _ Hne). exact IH.
Qed.

(** X17.  The route of one event looks through the features the seismic
    fetch returns for limit 200 and minimum magnitude 2.5, in their order:
    it answers with the first feature whose ["id"] is the event's, raises
    the [HTTPException] of status 404 when every feature has another
    ["id"], and raises that of status 500 when it meets a feature without
    ["id"] before it finds the event. *)
Theorem earthquake_details_answer (s : Service) (event_id country : string)
    (member : Country) (out : pyval) (items : list pyval) :
  let other g := exists id, entry g "id" = Some id /\ id <> VStr event_id in
  let answer := fst (main.get_earthquake_details env renders s event_id country) in
  Country_of_value (str_lower country) = Some member ->
  fst (get_earthquakes env s 200 2.5 member) = Ok out ->
  entry out "features" = Some (VList items) ->
  (forall before feature after,
      items = (before ++ feature :: after)%list ->
      Forall other before ->
      entry feature "id" = Some (VStr event_id) ->
      answer = main.respond renders feature "Failed to fetch earthquake details")
  /\ (Forall other items ->
      answer = main.HTTPException 404 "Earthquake event not found")
  /\ (forall before feature after,
        items = (before ++ feature :: after)%list ->
        Forall other before ->
        entry feature "id" = None ->
        answer = main.HTTPException 500 "Failed to fetch earthquake details").
Proof.
  cbn zeta. intros Hmember Hout Hitems.
  unfold main.get_earthquake_details. rewrite Hmember.
  destruct (get_earthquakes env s 200 2.5 member) as [r s1]. cbn [fst] in Hout. subst r.
  cbn [fst bind]. rewrite (entry_getitem _ _ _ Hitems). cbn [bind py_iter].
  split; [|split].
  - intros before feature after -> Hbefore Hid.
    rewrite (find_event_found _ _ _ _ Hbefore Hid). reflexivity.
  - intros Hall. rewrite (find_event_absent _ _ Hall). reflexivity.
  - intros before feature after -> Hbefore Hid.
    destruct (find_event_raises event_id _ after _ Hbefore Hid) as (e & ->). reflexivity.
Qed.

(** X18.  A failure of the seismic API does not show as a server error:
    when the cache has no valid entry and the request fails, the route of
    the list answers with the empty collection (status 200 when that
    renders), and the route of one event raises the [HTTPException] of
    status 404. *)
Theorem routes_when_api_fails (s : Service) (country : string) (member : Country) :
  Country_of_value (str_lower country) = Some member ->
  (forall limit min_magnitude e,
      let checked := _is_cache_valid env s (earthquakes_key env limit min_magnitude member) in
      fst checked = false ->
      usgs env (ticks (snd checked)) (earthquake_params limit min_magnitude member)
      = Raise e ->
      fst (main.get_earthquakes env renders s limit min_magnitude country)
      = main.respond renders empty_collection "Failed to fetch earthquake data"
      /\ (renders empty_collection = true ->
          fst (main.get_earthquakes env renders s limit min_magnitude country)
          = main.JSONResponse 200 empty_collection))
  /\ (forall event_id e,
        let checked := _is_cache_valid env s (earthquakes_key env 200 2.5 member) in
        fst checked = false ->
        usgs env (ticks (snd checked)) (earthquake_params 200 2.5 member) = Raise e ->
        fst (main.get_earthquake_details env renders s event_id country)
        = main.HTTPException 404 "Earthquake event not found").
Proof.
  intros Hmember. split.
  - intros limit m e checked Hmiss He.
    assert (H : fst (main.get_earthquakes env renders s limit m country)
                = main.respond renders empty_collection "Failed to fetch earthquake data").
    { unfold main.get_earthquakes. rewrite Hmember.
      rewrite (get_earthquakes_failed env s limit m member e Hmiss He). reflexivity. }
    split; [exact H|].
    intros Hrenders. rewrite H. unfold main.respond. rewrite Hrenders. reflexivity.
  - intros event_id e checked Hmiss He.
    unfold main.get_earthquake_details. rewrite Hmember.
    rewrite (get_earthquakes_failed env s 200 2.5 member e Hmiss He). reflexivity.
Qed.

End RouteFacts.

(** An unknown country is refused; a known one, in capitals, is answered
    with what the fetcher returns. *)
Lemma routes_answer_witness :
  main.get_wildfires sample_env renders_all new_service "Atlantis"
  = (main.HTTPException 400 "Invalid country 'Atlantis'. Supported: uae, canada, all",
     new_service)
  /\ exists data,
       filter_result all_wildfires UAE = Ok data
       /\ fst (main.get_wildfires sample_env renders_all new_service "UAE")
          = main.JSONResponse 200 data.
Proof.
  destruct (routes_answer sample_env renders_all new_service 50 2.5 "Atlantis")
    as [Hrefused _].
  destruct (routes_answer sample_env renders_all new_service 50 2.5 "UAE")
    as [_ Hanswered].
  split.
  - exact (proj1 (proj2 (Hrefused eq_refl))).
  - destruct (Hanswered UAE eq_refl) as (_ & (data & Hdata & Hroute) & _).
    exists data. split; [exact Hdata|]. rewrite Hroute. reflexivity.
Defined.

(** The second of two events is found; an unknown event is not. *)
Lemma earthquake_details_answer_witness :
  (exists feature,
      entry feature "id" = Some (VStr "us7000efgh")
      /\ property feature "severity" = Some (VStr "Severe")
      /\ fst (main.get_earthquake_details identified_env renders_all new_service
                "us7000efgh" "all")
         = main.JSONResponse 200 feature)
  /\ fst (main.get_earthquake_details identified_env renders_all new_service
            "us7000zzzz" "all")
     = main.HTTPException 404 "Earthquake event not found".
Proof.
  split.
  - eexists. split; [|split]; cycle 2.
    + refine (proj1 (earthquake_details_answer identified_env renders_all new_service
                       "us7000efgh" "all" ALL _ _ eq_refl eq_refl eq_refl)
                [_] _ [] eq_refl _ eq_refl).
      constructor; [|constructor]. eexists. split; [reflexivity|discriminate].
    + reflexivity.
    + reflexivity.
  - refine (proj1 (proj2 (earthquake_details_answer identified_env renders_all new_service
                            "us7000zzzz" "all" ALL _ _ eq_refl eq_refl eq_refl)) _).
    repeat constructor; eexists; (split; [reflexivity|discriminate]).
Defined.

(** With the API out of reach, the list is empty and the event is not
    found. *)
Lemma routes_when_api_fails_witness :
  fst (main.get_earthquakes offline_env renders_all new_service 50 2.5 "uae")
  = main.JSONResponse 200 empty_collection
  /\ fst (main.get_earthquake_details offline_env renders_all new_service "us7000abcd" "uae")
     = main.HTTPException 404 "Earthquake event not found".
Proof.
  destruct (routes_when_api_fails offline_env renders_all new_service "uae" UAE eq_refl)
    as [Hlist Hevent].
  split.
  - exact (proj2 (Hlist 50 2.5%float RequestError eq_refl eq_refl) eq_refl).
  - exact (Hevent "us7000abcd" RequestError eq_refl eq_refl).
Defined.

(** ** The countries and their bounds *)

Section CountryRoutes.
Context (renders : pyval -> bool).

(** X19.  The route of the bounds of a country: it raises the
    [HTTPException] of status 400 for a parameter that is none of the three
    values and for ["all"] (in any case of letters), and otherwise answers
    with the name, the code, the bounds and the center of the country under
    the parameter as it was given; the [HTTPException] of status 404 is
    never raised, since every country other than [ALL] has bounds. *)
Theorem country_bounds_answer (country : string) :
  let answer := main.get_country_bounds renders country in
  (Country_of_value (str_lower country) = None ->
   answer = main.invalid_country country "uae, canada")
  /\ (str_lower country = "all" ->
      answer = main.HTTPException 400 "Cannot get bounds for 'all' countries")
  /\ (forall member,
        Country_of_value (str_lower country) = Some member ->
        member <> ALL ->
        exists bounds,
          COUNTRY_BOUNDS member = Some bounds
          /\ answer =
             main.respond renders
               (VDict [("country", VStr country);
                       ("name", VStr (name bounds));
                       ("code", VStr (code bounds));
                       ("bounds",
                        VDict [("min_lat", VFloat (min_lat bounds));
                               ("max_lat", VFloat (max_lat bounds));
                               ("min_lon", VFloat (min_lon bounds));
                               ("max_lon", VFloat (max_lon bounds))]);
                       ("center",
                        VDict [("lat", VFloat (center_lat bounds));
                               ("lon", VFloat (center_lon bounds))])])
               "Failed to fetch country bounds")
  /\ (forall detail, answer <> main.HTTPException 404 detail).
Proof.
  cbn zeta. unfold main.get_country_bounds.
  split; [|split; [|split]].
  - intros ->. reflexivity.
  - intros ->. reflexivity.
  - intros member -> Hne.
    destruct member; [| |congruence]; cbn [Country_eqb get_country_bounds COUNTRY_BOUNDS];
      eexists; split; reflexivity.
  - intros detail.
    destruct (Country_of_value (str_lower country)) as [[]|];
      cbn [Country_eqb get_country_bounds COUNTRY_BOUNDS];
      unfold main.respond, main.invalid_country;
      try destruct (renders _); discriminate.
Qed.

(** X20.  The listing of the countries and the bounds agree: the listing
    has one item for each country that has bounds, with the value of the
    country as its code and the name and the center of its bounds, and no
    item for [ALL]; the route of the listing answers with the items and
    their number; and the code of every item is a parameter that the route
    of the bounds answers, with the same name and center. *)
Theorem available_countries_have_bounds (items : list pyval) :
  py_iter get_available_countries = Ok items ->
  (forall member bounds,
      COUNTRY_BOUNDS member = Some bounds ->
      In (VDict [("code", VStr (Country_value member));
                 ("name", VStr (name bounds));
                 ("center",
                  VList [VFloat (center_lat bounds); VFloat (center_lon bounds)])])
        items)
  /\ main.get_available_countries renders
     = main.respond renders
         (VDict [("countries", VList items); ("total", VInt (Z.of_nat (length items)))])
         "Failed to fetch available countries"
  /\ (forall item,
        In item items ->
        exists member bounds content,
          entry item "code" = Some (VStr (Country_value member))
          /\ COUNTRY_BOUNDS member = Some bounds
          /\ entry item "name" = Some (VStr (name bounds))
          /\ entry item "center"
             = Some (VList [VFloat (center_lat bounds); VFloat (center_lon bounds)])
          /\ main.get_country_bounds renders (Country_value member)
             = main.respond renders content "Failed to fetch country bounds"
          /\ entry content "name" = Some (VStr (name bounds))
          /\ entry content "center"
             = Some (VDict [("lat", VFloat (center_lat bounds));
                            ("lon", VFloat (center_lon bounds))])).
Proof.
  intros [= <-]. split; [|split].
  - intros member bounds.
    destruct member; cbn [COUNTRY_BOUNDS]; intros [= <-]; cbn; auto.
  - reflexivity.
  - intros item Hin. cbn in Hin.
    destruct Hin as [<-|[<-|[]]]; [exists UAE|exists CANADA];
      eexists _, _; repeat split.
Qed.

End CountryRoutes.

Lemma country_bounds_answer_witness :
  main.get_country_bounds renders_all "Mars"
  = main.HTTPException 400 "Invalid country 'Mars'. Supported: uae, canada"
  /\ main.get_country_bounds renders_all "ALL"
     = main.HTTPException 400 "Cannot get bounds for 'all' countries"
  /\ exists content,
       main.get_country_bounds renders_all "Canada" = main.JSONResponse 200 content
       /\ entry content "country" = Some (VStr "Canada")
       /\ entry content "code" = Some (VStr "CA").
Proof.
  split; [|split].
  - exact (proj1 (country_bounds_answer renders_all "Mars") eq_refl).
  - exact (proj1 (proj2 (country_bounds_answer renders_all "ALL")) eq_refl).
  - destruct (proj1 (proj2 (proj2 (country_bounds_answer renders_all "Canada")))
                CANADA eq_refl ltac:(discriminate)) as (bounds & Hb & ->).
    injection Hb as <-. eexists. split; [reflexivity|]. split; reflexivity.
Defined.

Lemma available_countries_have_bounds_witness :
  exists items,
    py_iter get_available_countries = Ok items
    /\ length items = 2%nat
    /\ main.get_available_countries renders_all
       = main.JSONResponse 200 (VDict [("countries", VList items); ("total", VInt 2)]).
Proof.
  eexists. split; [reflexivity|]. split; [reflexivity|].
  rewrite (proj1 (proj2 (available_countries_have_bounds renders_all _ eq_refl))).
  reflexivity.
Defined.

(** ** The statistics and the health check while the API is out of reach *)

Section ApiOutOfReach.
Context (env : Env).

Lemma statistics_offline (s : Service) (country : Country) (e : exn) :
  let checked := _is_cache_valid env s (earthquakes_key env 50 2.5 country) in
  cache_sound env s ->
  fst checked = false ->
  usgs env (ticks (snd checked)) (earthquake_params 50 2.5 country) = Raise e ->
  exists last_updated,
    fst (get_disaster_statistics env s country) =
    VDict [("country", VStr (Country_value country));
           ("country_name",
            VStr match COUNTRY_BOUNDS country with
                 | Some bounds => name bounds
                 | None => "Global"
                 end);
           ("total_earthquakes", VInt 0);
           ("severe_earthquakes", VInt 0);
           ("total_wildfires",
            VInt match country with UAE => 2 | CANADA => 4 | ALL => 6 end);
           ("active_weather_alerts",
            VInt match country with UAE => 2 | CANADA => 2 | ALL => 4 end);
           ("last_updated", VStr last_updated);
           ("avg_earthquake_magnitude", VInt 0)].
Proof.
  cbn zeta. intros Hs Hmiss He.
  unfold get_disaster_statistics.
  rewrite (get_earthquakes_failed env s 50 2.5 country e Hmiss He).
  set (s1 := {| cache := cache s; ticks := _ |}).
  assert (Hs1 : cache_sound env s1) by exact (cache_sound_ext env s s1 eq_refl Hs).
  pose proof (get_wildfires_sound env s1 country Hs1) as Hw.
  pose proof (cache_sound_wildfires env s1 country Hs1) as Hs2.
  destruct (get_wildfires env s1 country) as [r2 s2]. cbn [fst snd] in Hw, Hs2. subst r2.
  pose proof (get_weather_alerts_sound env s2 country Hs2) as Ha.
  destruct (get_weather_alerts env s2 country) as [r3 s3]. cbn [fst] in Ha. subst r3.
  destruct country; eexists; reflexivity.
Qed.

(** X21.  While the seismic API is out of reach the statistics do not
    fail: in a state the service can reach, with no valid entry for the
    seismic fetch of the statistics and a request that fails,
    [get_disaster_statistics] returns the full record, with no earthquake,
    the int [0] as the mean magnitude, and the numbers of wildfires and of
    weather alerts of the country. *)
Theorem statistics_when_api_fails (s : Service) (country : Country) (e : exn) :
  let checked := _is_cache_valid env s (earthquakes_key env 50 2.5 country) in
  reachable env s ->
  fst checked = false ->
  usgs env (ticks (snd checked)) (earthquake_params 50 2.5 country) = Raise e ->
  exists last_updated,
    fst (get_disaster_statistics env s country) =
    VDict [("country", VStr (Country_value country));
           ("country_name",
            VStr match COUNTRY_BOUNDS country with
                 | Some bounds => name bounds
                 | None => "Global"
                 end);
           ("total_earthquakes", VInt 0);
           ("severe_earthquakes", VInt 0);
           ("total_wildfires",
            VInt match country with UAE => 2 | CANADA => 4 | ALL => 6 end);
           ("active_weather_alerts",
            VInt match country with UAE => 2 | CANADA => 2 | ALL => 4 end);
           ("last_updated", VStr last_updated);
           ("avg_earthquake_magnitude", VInt 0)].
Proof.
  cbn zeta. intros Hs. apply statistics_offline, reachable_cache_sound, Hs.
Qed.

(** X22.  The health check does not see the seismic API: in a state the
    service can reach, with no valid entry for the seismic fetch of the
    statistics and a request that fails, [health_check] still returns the
    status ["healthy"], with the seismic API and the statistics reported as
    ["operational"]. *)
Theorem health_when_api_fails (s : Service) (e : exn) :
  let checked := _is_cache_valid env s (earthquakes_key env 50 2.5 ALL) in
  reachable env s ->
  fst checked = false ->
  usgs env (ticks (snd checked)) (earthquake_params 50 2.5 ALL) = Raise e ->
  exists timestamp,
    fst (main.health_check env s) =
    main.Return
      (VDict [("status", VStr "healthy");
              ("timestamp", VStr timestamp);
              ("services",
               VDict [("earthquake_api", VStr "operational");
                      ("cache", VStr "operational");
                      ("statistics", VStr "operational")]);
              ("supported_countries",
               VList [VStr "uae"; VStr "canada"; VStr "all"])]).
Proof.
  cbn zeta. intros Hs Hmiss He.
  destruct (statistics_offline s ALL e (reachable_cache_sound env s Hs) Hmiss He)
    as (last_updated & Hstats).
  unfold main.health_check.
  destruct (get_disaster_statistics env s ALL) as [stats s1]. cbn [fst] in Hstats.
  subst stats. eexists. reflexivity.
Qed.

End ApiOutOfReach.

Lemma statistics_when_api_fails_witness :
  exists last_updated,
    fst (get_disaster_statistics offline_env new_service CANADA) =
    VDict [("country", VStr "canada");
           ("country_name", VStr "Canada");
           ("total_earthquakes", VInt 0);
           ("severe_earthquakes", VInt 0);
           ("total_wildfires", VInt 4);
           ("active_weather_alerts", VInt 2);
           ("last_updated", VStr last_updated);
           ("avg_earthquake_magnitude", VInt 0)].
Proof.
  exact (statistics_when_api_fails offline_env new_service CANADA RequestError
           (reachable_new offline_env) eq_refl eq_refl).
Defined.

Lemma health_when_api_fails_witness :
  exists timestamp,
    fst (main.health_check offline_env new_service) =
    main.Return
      (VDict [("status", VStr "healthy");
              ("timestamp", VStr timestamp);
              ("services",
               VDict [("earthquake_api", VStr "operational");
                      ("cache", VStr "operational");
                      ("statistics", VStr "operational")]);
              ("supported_countries",
               VList [VStr "uae"; VStr "canada"; VStr "all"])]).
Proof.
  exact (health_when_api_fails offline_env new_service RequestError
           (reachable_new offline_env) eq_refl eq_refl).
Defined.

(** ** Answers of the API that cannot be processed *)

Section MalformedAnswers.
Context (env : Env).

Lemma process_feature_malformed (feature : pyval) :
  magnitude_number feature = None ->
  exists e, process_feature env feature = Raise e.
Proof.
  unfold magnitude_number, process_feature.
  destruct feature as [| | | | | |fd]; cbn [entry py_getitem bind]; eauto.
  destruct (dict_get fd "properties") as [props|]; cbn [bind]; eauto.
  destruct props as [| | | | | |p]; cbn [py_get bind]; eauto.
  intros Hmag.
  replace (match dict_get p "mag" with Some v => Ok v | None => Ok (VInt 0) end)
    with (@Ok pyval (magnitude_value p))
    by (unfold magnitude_value; destruct (dict_get p "mag"); reflexivity).
  cbn [bind]. unfold classify_magnitude, py_ge_num, num_le_py. rewrite Hmag.
  cbn [bind]. eauto.
Qed.

Lemma process_loop_malformed (items : list pyval) (feature : pyval) :
  In feature items ->
  magnitude_number feature = None ->
  exists e, process_loop env items = Raise e.
Proof.
  intros Hin Hmag. induction items as [|f items IH]; [destruct Hin|].
  cbn [process_loop].
  destruct (process_feature env f) as [f'|e] eqn:Hf; cbn [bind]; eauto.
  destruct Hin as [->|Hin].
  - destruct (process_feature_malformed _ Hmag) as (e & He). congruence.
  - destruct (IH Hin) as (e & ->). cbn [bind]. eauto.
Qed.

(** A seismic fetch whose answer cannot be processed: the empty
    collection, and the cache as it was. *)
Lemma get_earthquakes_unprocessed (s : Service) (limit : Z) (min_magnitude : float)
    (country : Country) (body : pyval) (e : exn) :
  let key := earthquakes_key env limit min_magnitude country in
  let checked := _is_cache_valid env s key in
  fst checked = false ->
  usgs env (ticks (snd checked)) (earthquake_params limit min_magnitude country) = Ok body ->
  earthquake_pipeline env limit country body = Raise e ->
  get_earthquakes env s limit min_magnitude country
  = (Ok empty_collection,
     {| cache := cache s; ticks := S (ticks (snd checked)) |}).
Proof.
  cbn zeta. unfold get_earthquakes.
  pose proof (is_cache_valid_cache env s (earthquakes_key env limit min_magnitude country))
    as Hcache.
  destruct (_is_cache_valid env s _) as [valid s1]. cbn [fst snd] in *.
  intros -> Hbody He. unfold http_get. rewrite Hbody. cbn [bind]. rewrite He, Hcache.
  reflexivity.
Qed.

(** X23.  One feature that cannot be enriched voids the whole answer: when
    the answer of the API holds, among its features, one without an
    attribute mapping or with a magnitude that is not a number (a null or a
    string, say), [get_earthquakes] returns the empty collection, whatever
    the other features are, and stores nothing. *)
Theorem malformed_feature_voids_fetch (s : Service) (limit : Z) (min_magnitude : float)
    (country : Country) (body : pyval) (items : list pyval) (feature : pyval) :
  let key := earthquakes_key env limit min_magnitude country in
  let checked := _is_cache_valid env s key in
  fst checked = false ->
  usgs env (ticks (snd checked)) (earthquake_params limit min_magnitude country) = Ok body ->
  entry body "features" = Some (VList items) ->
  In feature items ->
  magnitude_number feature = None ->
  fst (get_earthquakes env s limit min_magnitude country) = Ok empty_collection
  /\ cache (snd (get_earthquakes env s limit min_magnitude country)) = cache s.
Proof.
  cbn zeta. intros Hmiss Hbody Hitems Hin Hmag.
  destruct (process_loop_malformed items feature Hin Hmag) as (e & He).
  assert (Hpipeline : earthquake_pipeline env limit country body = Raise e).
  { unfold earthquake_pipeline, _process_earthquake_data.
    rewrite (entry_getitem _ _ _ Hitems). cbn [bind py_iter]. rewrite He. reflexivity. }
  rewrite (get_earthquakes_unprocessed s limit min_magnitude country body e
             Hmiss Hbody Hpipeline).
  split; reflexivity.
Qed.

End MalformedAnswers.

Lemma malformed_feature_voids_fetch_witness :
  fst (get_earthquakes null_magnitude_env new_service 50 2.5 ALL) = Ok empty_collection
  /\ cache (snd (get_earthquakes null_magnitude_env new_service 50 2.5 ALL))
     = cache new_service.
Proof.
  apply (malformed_feature_voids_fetch null_magnitude_env new_service 50 2.5 ALL
           (collection_of [quake [("mag", VFloat 6.5)]; quake [("mag", VNone)]])
           [quake [("mag", VFloat 6.5)]; quake [("mag", VNone)]]
           (quake [("mag", VNone)]) eq_refl eq_refl eq_refl).
  - right. left. reflexivity.
  - reflexivity.
Defined.

(** ** When the filter raises *)

Lemma filter_loop_raises (bounds : CountryBounds) (before after : list pyval)
    (feature : pyval) (e : exn) :
  Forall (fun g => exists r, filter_step bounds g = Ok r) before ->
  filter_step bounds feature = Raise e ->
  filter_loop bounds (before ++ feature :: after) = Raise e.
Proof.
  intros Hbefore He. induction Hbefore as [|g before (r & Hg) _ IH].
  - cbn [app filter_loop]. rewrite He. reflexivity.
  - cbn [app filter_loop]. rewrite Hg. destruct r as [g' keep]. cbn [bind].
    rewrite IH. reflexivity.
Qed.

(** X24.  The errors of the filter, for a region with bounds.  A value
    that is not a dictionary raises [AttributeError]; a value under
    ["features"] that is [None] or a number raises [TypeError]; the first
    feature on which a turn of the loop raises ends the call with its
    exception.  A turn raises [AttributeError] on a feature that is not a
    dictionary or whose ["geometry"] is not one ([None], say), [TypeError]
    on a coordinate that is not a number, and [KeyError] on a feature that
    lies in the rectangle and has no ["properties"]. *)
Theorem filter_raises (country : Country) (bounds : CountryBounds) :
  COUNTRY_BOUNDS country = Some bounds ->
  (forall data,
      (forall d, data <> VDict d) ->
      _filter_by_country data country = Raise AttributeError)
  /\ (forall d features,
        dict_get d "features" = Some features ->
        features = VNone \/ is_number features = true ->
        _filter_by_country (VDict d) country = Raise TypeError)
  /\ (forall d before feature after e,
        dict_get d "features" = Some (VList (before ++ feature :: after)) ->
        Forall (fun g => exists r, filter_step bounds g = Ok r) before ->
        filter_step bounds feature = Raise e ->
        _filter_by_country (VDict d) country = Raise e)
  /\ (forall feature,
        (forall fd, feature <> VDict fd) ->
        filter_step bounds feature = Raise AttributeError)
  /\ (forall fd geometry,
        dict_get fd "geometry" = Some geometry ->
        (forall g, geometry <> VDict g) ->
        filter_step bounds (VDict fd) = Raise AttributeError)
  /\ (forall fd g lon lat rest,
        dict_get fd "geometry" = Some (VDict g) ->
        dict_get g "coordinates" = Some (VList (lon :: lat :: rest)) ->
        is_number lat = false ->
        filter_step bounds (VDict fd) = Raise TypeError)
  /\ (forall fd,
        inside bounds (VDict fd) = true ->
        dict_get fd "properties" = None ->
        filter_step bounds (VDict fd) = Raise KeyError).
Proof.
  intros Hb.
  assert (Hall : Country_eqb country ALL = false)
    by (destruct country; cbn in Hb |- *; congruence).
  split; [|split; [|split; [|split; [|split; [|split]]]]].
  - intros data Hdata. unfold _filter_by_country. rewrite Hall, Hb.
    destruct data as [| | | | | |d]; try reflexivity. destruct (Hdata d eq_refl).
  - intros d features Hf Hkind. unfold _filter_by_country. rewrite Hall, Hb.
    cbn [py_get]. rewrite Hf. cbn [bind].
    destruct Hkind as [->|Hnum]; [reflexivity|].
    destruct features; try discriminate Hnum; reflexivity.
  - intros d before feature after e Hf Hbefore He.
    unfold _filter_by_country. rewrite Hall, Hb. cbn [py_get]. rewrite Hf.
    cbn [bind py_iter]. rewrite (filter_loop_raises _ _ _ _ _ Hbefore He). reflexivity.
  - intros feature Hfeature. unfold filter_step.
    destruct feature as [| | | | | |fd]; try reflexivity. destruct (Hfeature fd eq_refl).
  - intros fd geometry Hg Hgeometry. unfold filter_step. cbn [py_get]. rewrite Hg.
    cbn [bind]. destruct geometry as [| | | | | |g]; try reflexivity.
    destruct (Hgeometry g eq_refl).
  - intros fd g lon lat rest Hg Hc Hlat. unfold filter_step. cbn [py_get].
    rewrite Hg. cbn [bind py_get]. rewrite Hc. cbn [bind py_len length py_index nth_error].
    replace (2 <=? Z.of_nat (S (S (length rest)))) with true
      by (symmetry; apply Z.leb_le; lia).
    unfold within_bounds, num_le_py. unfold is_number in Hlat.
    destruct (as_num lat); [discriminate|]. reflexivity.
  - intros fd Hinside Hp. rewrite filter_step_test.
    rewrite (retain_test_inside bounds bounds (VDict fd) Hinside), Hinside. cbn [bind].
    unfold stamp_country. cbn [py_getitem]. rewrite Hp. reflexivity.
Qed.

(** A collection that is [None]; features that are [None]; a feature with
    a null geometry after a good one; a point of the Emirates without
    attributes. *)
Lemma filter_raises_witness :
  _filter_by_country VNone UAE = Raise AttributeError
  /\ _filter_by_country (VDict [("features", VNone)]) UAE = Raise TypeError
  /\ _filter_by_country
       (collection_of [point_feature 55.0 24.0 []; VDict [("geometry", VNone)]]) UAE
     = Raise AttributeError
  /\ _filter_by_country
       (collection_of
          [VDict [("geometry", VDict [("coordinates", VList [VFloat 55.0; VFloat 24.0])])]])
       UAE
     = Raise KeyError.
Proof.
  destruct (filter_raises UAE uae_bounds eq_refl)
    as (Hdata & Hfeatures & Hfirst & _ & Hgeometry & _ & Hproperties).
  split; [|split; [|split]].
  - apply Hdata. discriminate.
  - apply (Hfeatures [("features", VNone)] VNone eq_refl). left. reflexivity.
  - apply (Hfirst [("type", VStr "FeatureCollection");
                   ("features",
                    VList [point_feature 55.0 24.0 []; VDict [("geometry", VNone)]])]
             [point_feature 55.0 24.0 []] (VDict [("geometry", VNone)]) []
             AttributeError eq_refl).
    + constructor; [|constructor]. eexists. reflexivity.
    + apply (Hgeometry [("geometry", VNone)] VNone eq_refl). discriminate.
  - apply (Hfirst [("type", VStr "FeatureCollection");
                   ("features",
                    VList [VDict [("geometry",
                                   VDict [("coordinates",
                                           VList [VFloat 55.0; VFloat 24.0])])]])]
             []
             (VDict [("geometry",
                      VDict [("coordinates", VList [VFloat 55.0; VFloat 24.0])])]) []
             KeyError eq_refl); [constructor|].
    apply Hproperties; reflexivity.
Defined.

(** ** The counts of the statistics *)

Lemma list_ascii_of_string_length (s : string) :
  length (String.list_ascii_of_string s) = String.length s.
Proof. induction s as [|c s IH]; cbn; congruence. Qed.

Lemma py_iter_len (x : pyval) (items : list pyval) :
  py_iter x = Ok items -> py_len x = Ok (Z.of_nat (length items)).
Proof.
  destruct x as [| | | |s|l|d]; try discriminate; cbn [py_iter py_len]; intros [= <-].
  - rewrite length_map, list_ascii_of_string_length. reflexivity.
  - reflexivity.
  - rewrite length_map. reflexivity.
Qed.

Lemma filter_exc_length {A : Type} (test : A -> exc bool) (items kept : list A) :
  filter_exc test items = Ok kept -> (length kept <= length items)%nat.
Proof.
  revert kept. induction items as [|x items IH]; intros kept H.
  - injection H as <-. auto.
  - cbn [filter_exc] in H.
    apply bind_Ok in H as (keep & _ & H). apply bind_Ok in H as (rest & Hrest & H).
    injection H as <-. specialize (IH _ Hrest).
    destruct keep; cbn [length]; lia.
Qed.

(** What [statistics_counts] has counted when it returns. *)
Lemma statistics_counts_Ok (country : Country) (earthquakes wildfires weather_alerts : pyval)
    (stats : dict) :
  statistics_counts country earthquakes wildfires weather_alerts = Ok stats ->
  exists features total severe,
    py_getitem earthquakes "features" = Ok features
    /\ py_len features = Ok total
    /\ 0 <= severe <= total
    /\ dict_get stats "total_earthquakes" = Some (VInt total)
    /\ dict_get stats "severe_earthquakes" = Some (VInt severe).
Proof.
  unfold statistics_counts. intros H.
  apply bind_Ok in H as (features & Hfeatures & H).
  apply bind_Ok in H as (total & Htotal & H).
  rewrite Hfeatures in H. cbn [bind] in H.
  apply bind_Ok in H as (items & Hitems & H).
  apply bind_Ok in H as (severe & Hsevere & H).
  apply bind_Ok in H as (fires & _ & H). apply bind_Ok in H as (n_fires & _ & H).
  apply bind_Ok in H as (alerts & _ & H). apply bind_Ok in H as (n_alerts & _ & H).
  injection H as <-.
  exists features, total, (Z.of_nat (length severe)).
  split; [exact Hfeatures|]. split; [exact Htotal|].
  split; [|split; reflexivity].
  apply py_iter_len in Hitems. rewrite Htotal in Hitems. injection Hitems as ->.
  apply filter_exc_length in Hsevere. lia.
Qed.

Section StatisticsBounds.
Context (env : Env).

(** X25.  The statistics never count more than fifty earthquakes: in every
    state the service can reach, [get_disaster_statistics] returns the
    empty dictionary or a record whose number of earthquakes is between 0
    and 50, the limit of its seismic fetch, and whose number of severe
    earthquakes is between 0 and that number. *)
Theorem statistics_bounds (s : Service) (country : Country) :
  reachable env s ->
  let stats := fst (get_disaster_statistics env s country) in
  stats = VDict []
  \/ exists total severe,
      entry stats "total_earthquakes" = Some (VInt total)
      /\ entry stats "severe_earthquakes" = Some (VInt severe)
      /\ 0 <= severe <= total
      /\ total <= 50.
Proof.
  intros Hs. cbn zeta. apply reachable_cache_sound in Hs.
  destruct (get_earthquakes_limit_sound env s 50 2.5 country Hs ltac:(lia))
    as (out & features & n & Hout & Hfeatures & Hn & Hle).
  unfold get_disaster_statistics.
  destruct (get_earthquakes env s 50 2.5 country) as [r1 s1]. cbn [fst] in Hout. subst r1.
  destruct (get_wildfires env s1 country) as [[wildfires|] s2]; [|left; reflexivity].
  destruct (get_weather_alerts env s2 country) as [[weather_alerts|] s3];
    [|left; reflexivity].
  destruct (statistics_counts country out wildfires weather_alerts) as [stats|] eqn:Hstats;
    [|left; reflexivity].
  cbn [datetime_now].
  destruct (average_magnitude out) as [mean|]; [|left; reflexivity].
  right.
  destruct (statistics_counts_Ok _ _ _ _ _ Hstats)
    as (features' & total & severe & Hfeatures' & Htotal & Hbounds & Ht & Hsv).
  rewrite Hfeatures in Hfeatures'. injection Hfeatures' as <-.
  rewrite Hn in Htotal. injection Htotal as <-.
  exists n, severe. cbn [fst entry].
  rewrite !dict_get_set_ne by discriminate. auto.
Qed.

End StatisticsBounds.

Lemma statistics_bounds_witness :
  exists total severe,
    entry (fst (get_disaster_statistics three_quakes_env new_service ALL))
      "total_earthquakes" = Some (VInt total)
    /\ entry (fst (get_disaster_statistics three_quakes_env new_service ALL))
         "severe_earthquakes" = Some (VInt severe)
    /\ 0 <= severe <= total
    /\ total <= 50.
Proof.
  destruct (statistics_bounds three_quakes_env new_service ALL
              (reachable_new three_quakes_env)) as [H|H].
  - discriminate H.
  - exact H.
Defined.

(** ** What is served for a country *)

Section ServedFeatures.
Context (env : Env).

Lemma process_feature_attributes (feature feature' : pyval) :
  process_feature env feature = Ok feature' ->
  has_attributes feature' = true
  /\ exists severity color risk_level,
      property feature' "severity" = Some (VStr severity)
      /\ property feature' "color" = Some (VStr color)
      /\ property feature' "risk_level" = Some (VStr risk_level).
Proof.
  intros H.
  destruct (process_feature_Ok env _ _ H)
    as (fd & p & p' & severity & color & risk_level & -> & Hp & -> & _ & _ & Hp').
  unfold has_attributes, property. cbn [entry]. rewrite dict_get_set_eq.
  split; [reflexivity|]. exists severity, color, risk_level. cbn [entry].
  destruct (dict_get p "time") as [t|]; [destruct (py_truthy t)|];
    [destruct Hp' as (s & _ & ->)|subst p'|subst p'];
    rewrite ?(dict_get_set_ne _ "formatted_time") by discriminate;
    rewrite ?(dict_get_set_ne _ "risk_level" "severity"),
            ?(dict_get_set_ne _ "risk_level" "color"),
            ?(dict_get_set_ne _ "color" "severity") by discriminate;
    rewrite !dict_get_set_eq; auto.
Qed.

Lemma stamped_inside_features (bounds : CountryBounds) (features : list pyval)
    (P : pyval -> Prop) :
  Forall (fun f => has_attributes f = true /\ P f) features ->
  (forall f, has_attributes f = true -> P f -> inside bounds f = true ->
             P (stamped bounds f)) ->
  Forall (fun f =>
            inside bounds f = true
            /\ property f "country" = Some (VStr (name bounds))
            /\ property f "country_code" = Some (VStr (code bounds))
            /\ P f)
    (map (stamped bounds) (List.filter (inside bounds) features)).
Proof.
  intros Hfeatures Hstamped. apply Forall_map.
  rewrite Forall_forall in Hfeatures |- *. intros f Hin.
  apply list_elem_of_In, filter_In in Hin as [Hin Hinside].
  destruct (Hfeatures f ltac:(apply list_elem_of_In; exact Hin)) as [Hattr HP].
  destruct (stamped_frame bounds f Hattr) as (Hname & Hcode & _).
  rewrite inside_stamped. auto.
Qed.

(** The features of a collection filtered for a region lie in it. *)
Lemma filter_result_in_country (data out : pyval) (country : Country)
    (bounds : CountryBounds) :
  COUNTRY_BOUNDS country = Some bounds ->
  filter_result data country = Ok out ->
  Forall (fun f =>
            inside bounds f = true
            /\ property f "country" = Some (VStr (name bounds))
            /\ property f "country_code" = Some (VStr (code bounds)))
    (features_of out).
Proof.
  intros Hb H. unfold filter_result in H.
  apply bind_Ok in H as ([data' out'] & Hf & [= <-]).
  destruct (filter_by_country_sound _ _ _ _ _ Hb Hf) as (_ & -> & Hattr).
  change (features_of (filtered_collection bounds data))
    with (map (stamped bounds) (List.filter (inside bounds) (features_of data))).
  apply Forall_map. rewrite Forall_forall in Hattr |- *. intros f Hin.
  apply list_elem_of_In, filter_In in Hin as [Hin Hinside].
  specialize (Hattr f ltac:(apply list_elem_of_In; exact Hin) Hinside).
  destruct (stamped_frame bounds f Hattr) as (Hname & Hcode & _).
  rewrite inside_stamped. auto.
Qed.

(** The features the pipeline returns for a region lie in it and are
    classified. *)
Lemma earthquake_pipeline_in_country (limit : Z) (country : Country)
    (bounds : CountryBounds) (body out : pyval) :
  COUNTRY_BOUNDS country = Some bounds ->
  0 <= limit ->
  earthquake_pipeline env limit country body = Ok out ->
  Forall (fun f =>
            inside bounds f = true
            /\ property f "country" = Some (VStr (name bounds))
            /\ property f "country_code" = Some (VStr (code bounds))
            /\ exists severity color risk_level,
                property f "severity" = Some (VStr severity)
                /\ property f "color" = Some (VStr color)
                /\ property f "risk_level" = Some (VStr risk_level))
    (features_of out).
Proof.
  intros Hb Hlimit H.
  destruct (earthquake_pipeline_known env _ _ _ _ _ Hb Hlimit H) as (processed & Hp & ->).
  change (features_of (VDict _))
    with (firstn (Z.to_nat limit)
            (map (stamped bounds) (List.filter (inside bounds) (features_of processed)))).
  apply Forall_take.
  apply (stamped_inside_features bounds (features_of processed)
           (fun f => exists severity color risk_level,
                property f "severity" = Some (VStr severity)
                /\ property f "color" = Some (VStr color)
                /\ property f "risk_level" = Some (VStr risk_level))).
  - destruct (process_earthquake_data_Ok env _ _ Hp)
      as (d & features & -> & Hf &
          [(items & items' & -> & Hitems & ->)|([-> | ->] & ->)]).
    + unfold features_of. rewrite dict_get_set_eq.
      clear - Hitems. induction Hitems as [|f f' items items' Hstep _ IH]; constructor; auto.
      exact (process_feature_attributes _ _ Hstep).
    + unfold features_of. rewrite Hf. constructor.
    + unfold features_of. rewrite Hf. constructor.
  - intros f Hattr (severity & color & risk_level & H1 & H2 & H3) _.
    destruct (stamped_frame bounds f Hattr) as (_ & _ & Hkeep & _).
    exists severity, color, risk_level.
    rewrite !Hkeep by discriminate. auto.
Qed.

(** X26.  What is served for a country lies in the country: in every state
    the service can reach, for a country with bounds, every feature the
    four fetchers return, from the cache or not, has its point in the
    rectangle of the country and carries the name and the code of the
    country; the seismic features carry their classification as well. *)
Theorem served_features_in_country (s : Service) (limit : Z) (min_magnitude : float)
    (country : Country) (bounds : CountryBounds) :
  reachable env s ->
  COUNTRY_BOUNDS country = Some bounds ->
  0 <= limit ->
  let located f :=
    inside bounds f = true
    /\ property f "country" = Some (VStr (name bounds))
    /\ property f "country_code" = Some (VStr (code bounds)) in
  (exists out,
      fst (get_earthquakes env s limit min_magnitude country) = Ok out
      /\ Forall (fun f =>
                   located f
                   /\ exists severity color risk_level,
                       property f "severity" = Some (VStr severity)
                       /\ property f "color" = Some (VStr color)
                       /\ property f "risk_level" = Some (VStr risk_level))
           (features_of out))
  /\ (exists out,
        fst (get_wildfires env s country) = Ok out /\ Forall located (features_of out))
  /\ (exists out,
        fst (get_weather_alerts env s country) = Ok out /\ Forall located (features_of out))
  /\ (exists out,
        fst (get_relief_centers s country) = Ok out /\ Forall located (features_of out)).
Proof.
  intros Hs Hb Hlimit. cbn zeta. apply reachable_cache_sound in Hs.
  split; [|split; [|split]].
  - destruct Hs as (_ & _ & He).
    destruct (get_earthquakes_result env s limit min_magnitude country)
      as [(entry & Hentry & ->)|[(body & out & Hout & ->)| ->]].
    + destruct (He _ _ _ _ Hentry) as (body & Hout).
      eexists. split; [reflexivity|].
      eapply Forall_impl; [exact (earthquake_pipeline_in_country _ _ _ _ _ Hb Hlimit Hout)|].
      cbn beta. tauto.
    + eexists. split; [reflexivity|].
      eapply Forall_impl; [exact (earthquake_pipeline_in_country _ _ _ _ _ Hb Hlimit Hout)|].
      cbn beta. tauto.
    + eexists. split; [reflexivity|]. constructor.
  - rewrite (get_wildfires_sound env s country Hs).
    destruct (filter_static_returns country) as ((data' & out & Hf) & _).
    exists out. unfold filter_result at 1. rewrite Hf. split; [reflexivity|].
    apply (filter_result_in_country all_wildfires out country bounds Hb).
    unfold filter_result. rewrite Hf. reflexivity.
  - rewrite (get_weather_alerts_sound env s country Hs).
    destruct (filter_static_returns country) as (_ & (data' & out & Hf) & _).
    exists out. unfold filter_result at 1. rewrite Hf. split; [reflexivity|].
    apply (filter_result_in_country all_alerts out country bounds Hb).
    unfold filter_result. rewrite Hf. reflexivity.
  - destruct (get_relief_centers_uncached s country) as (data' & out & Hf & ->).
    exists out. split; [reflexivity|].
    apply (filter_result_in_country all_centers out country bounds Hb).
    unfold filter_result. rewrite Hf. reflexivity.
Qed.

End ServedFeatures.

(** The seismic features served for the Emirates after a fetch that went
    through the cache. *)
Lemma served_features_in_country_witness :
  exists out,
    fst (get_earthquakes sample_env
           (snd (get_earthquakes sample_env new_service 50 2.5 UAE)) 50 2.5 UAE) = Ok out
    /\ length (features_of out) = 2%nat
    /\ Forall (fun f => inside uae_bounds f = true) (features_of out).
Proof.
  destruct (served_features_in_country sample_env
              (snd (get_earthquakes sample_env new_service 50 2.5 UAE)) 50 2.5 UAE
              uae_bounds) as ((out & Hout & Hfeatures) & _).
  - eapply reachable_step; [apply reachable_new|apply step_earthquakes].
  - reflexivity.
  - lia.
  - exists out. split; [exact Hout|]. split.
    + vm_compute in Hout. injection Hout as <-. reflexivity.
    + eapply Forall_impl; [exact Hfeatures|]. cbn beta. tauto.
Defined.

(** ** The entries of the answer besides the features *)

Section PassedEntries.
Context (env : Env).

(** X27.  What becomes of the entries of the API's answer other than
    ["features"].  For [ALL] the pipeline of [get_earthquakes] returns the
    answer itself, enriched and cut: every other entry (the API's own
    ["metadata"], a ["bbox"]) is passed on as it came.  For a country with
    bounds the answer is replaced by a new collection: it has a ["type"],
    the ["features"] and the ["metadata"] of the filter, and no other
    entry of the answer. *)
Theorem pipeline_passes_entries (limit : Z) (country : Country) (body out : pyval) :
  earthquake_pipeline env limit country body = Ok out ->
  match COUNTRY_BOUNDS country with
  | None => forall k, k <> "features" -> entry out k = entry body k
  | Some bounds =>
      entry out "type" = Some (VStr "FeatureCollection")
      /\ (exists total,
            entry out "metadata"
            = Some (VDict [("country", VStr (name bounds));
                           ("country_code", VStr (code bounds));
                           ("total_filtered", VInt total)]))
      /\ (forall k,
            k <> "type" -> k <> "features" -> k <> "metadata" -> entry out k = None)
  end.
Proof.
  intros H. unfold earthquake_pipeline in H.
  apply bind_Ok in H as (processed & Hprocessed & H).
  apply bind_Ok in H as ([data' filtered] & Hfilter & H).
  apply bind_Ok in H as (features & Hfeatures & H).
  apply bind_Ok in H as (n & Hn & H).
  assert (Hout : forall k, k <> "features" -> entry out k = entry filtered k).
  { intros k Hk.
    destruct (limit <? n); [|injection H as <-; reflexivity].
    rewrite Hfeatures in H. cbn [bind] in H.
    destruct filtered as [| | | | | |d]; try discriminate.
    destruct features as [| | | |s|l|]; try discriminate;
      cbn [py_setitem] in H; injection H as <-;
      cbn [entry]; apply dict_get_set_ne; congruence. }
  destruct (COUNTRY_BOUNDS country) as [bounds|] eqn:Hb.
  - destruct (filter_by_country_sound _ _ _ _ _ Hb Hfilter) as (_ & -> & _).
    split; [|split].
    + rewrite Hout by discriminate. reflexivity.
    + eexists. rewrite Hout by discriminate. reflexivity.
    + intros k H1 H2 H3. rewrite Hout by exact H2.
      unfold filtered_collection. cbn [entry dict_get].
      destruct (String.eqb k "type") eqn:E1; [apply String.eqb_eq in E1; congruence|].
      destruct (String.eqb k "features") eqn:E2; [apply String.eqb_eq in E2; congruence|].
      destruct (String.eqb k "metadata") eqn:E3; [apply String.eqb_eq in E3; congruence|].
      reflexivity.
  - intros k Hk. rewrite (Hout k Hk).
    assert (Hfiltered : filtered = processed).
    { unfold _filter_by_country in Hfilter.
      destruct country; cbn in Hb, Hfilter; try discriminate. congruence. }
    subst filtered.
    destruct (process_earthquake_data_Ok env _ _ Hprocessed)
      as (d & fs & -> & Hf & [(items & items' & -> & _ & ->)|(_ & ->)]);
      [|reflexivity].
    cbn [entry]. apply dict_get_set_ne. congruence.
Qed.

End PassedEntries.

Lemma pipeline_passes_entries_witness :
  (exists out,
      earthquake_pipeline sample_env 50 ALL answer_with_metadata = Ok out
      /\ entry out "metadata" = entry answer_with_metadata "metadata"
      /\ entry out "bbox" = entry answer_with_metadata "bbox")
  /\ (exists out,
        earthquake_pipeline sample_env 50 UAE answer_with_metadata = Ok out
        /\ entry out "bbox" = None).
Proof.
  split; eexists; (split; [reflexivity|]).
  - pose proof (pipeline_passes_entries sample_env 50 ALL answer_with_metadata _ eq_refl)
      as H.
    cbn [COUNTRY_BOUNDS] in H. split; apply H; discriminate.
  - pose proof (pipeline_passes_entries sample_env 50 UAE answer_with_metadata _ eq_refl)
      as H.
    cbn [COUNTRY_BOUNDS] in H. apply H; discriminate.
Defined.
